(** * start_server.py: a static file server that adds CORS headers

    The script subclasses [http.server.SimpleHTTPRequestHandler], overrides
    [end_headers] to buffer three fixed headers before delegating to the
    superclass, changes the working directory, binds a
    [socketserver.TCPServer] on 0.0.0.0:5000, prints three lines and serves
    forever.

    The script is 24 lines; what it does on the wire is decided by the
    methods it inherits.  The inherited methods are embedded here from
    CPython 3.11 ([Lib/http/server.py], [Lib/socketserver.py],
    [Lib/posixpath.py], [Lib/http/client.py]), each under the name it has
    there.  Library and operating-system services that are not embedded
    (the file system, the clock, the e-mail header parser, URL unquoting,
    the MIME table, [repr], [int]) are fields of an [environment] record
    over which every theorem is quantified. *)

From Stdlib Require Import String Ascii List ZArith Lia Bool DecimalString.
Import ListNotations.
Open Scope string_scope.
Open Scope Z_scope.

(** ** Python strings

    A [str] whose characters are all below 256 and a [bytes] object are both
    a [string]; everything the handler decodes comes from iso-8859-1. *)
Module Py.

Definition CR : ascii := "013"%char.
Definition LF : ascii := "010"%char.
Definition DQ : ascii := "034"%char.
Definition CRLF : string := String CR (String LF EmptyString).
Definition NL : string := String LF EmptyString.

(** [str(n)] and [len(s)]. *)
Definition str (n : Z) : string := NilZero.string_of_int (Z.to_int n).
Definition len (s : string) : Z := Z.of_nat (String.length s).

Definition is_empty (s : string) : bool :=
  match s with EmptyString => true | String _ _ => false end.

(** [s.startswith(p)] and [s.endswith(p)]. *)
Definition startswith (s p : string) : bool := String.prefix p s.

Fixpoint endswith (s p : string) : bool :=
  if String.eqb s p then true
  else match s with
       | EmptyString => false
       | String _ s' => endswith s' p
       end.

(** [str.isspace] on the characters below 256. *)
Definition isspace (c : ascii) : bool :=
  let n := N_of_ascii c in
  ((9 <=? n) && (n <=? 13) || (28 <=? n) && (n <=? 32)
   || (n =? 133) || (n =? 160))%N.

(** [s.rstrip(chars)] and [s.lstrip(chars)], the set of characters given as
    a predicate. *)
Fixpoint rstrip (f : ascii -> bool) (s : string) : string :=
  match s with
  | EmptyString => EmptyString
  | String c s' =>
      match rstrip f s' with
      | EmptyString => if f c then EmptyString else String c EmptyString
      | r => String c r
      end
  end.

Fixpoint lstrip (f : ascii -> bool) (s : string) : string :=
  match s with
  | EmptyString => EmptyString
  | String c s' => if f c then lstrip f s' else s
  end.

Definition is_char (a : ascii) (c : ascii) : bool := Ascii.eqb c a.
Definition is_crlf (c : ascii) : bool := Ascii.eqb c CR || Ascii.eqb c LF.

Definition snoc (s : string) (c : ascii) : string := s ++ String c EmptyString.

(** [s.split()]: the words between runs of whitespace. *)
Fixpoint split_ws_from (s : string) (word : string) : list string :=
  match s with
  | EmptyString => if is_empty word then [] else [word]
  | String c s' =>
      if isspace c
      then (if is_empty word then split_ws_from s' EmptyString
            else word :: split_ws_from s' EmptyString)
      else split_ws_from s' (snoc word c)
  end.
Definition split_ws (s : string) : list string := split_ws_from s EmptyString.

(** [s.split(sep)] for a one-character separator. *)
Fixpoint split_from (sep : ascii) (s : string) (word : string) : list string :=
  match s with
  | EmptyString => [word]
  | String c s' =>
      if Ascii.eqb c sep then word :: split_from sep s' EmptyString
      else split_from sep s' (snoc word c)
  end.
Definition split (sep : ascii) (s : string) : list string :=
  split_from sep s EmptyString.

(** [s.split(sep, 1)]. *)
Fixpoint split1_from (sep : ascii) (s : string) (word : string) : list string :=
  match s with
  | EmptyString => [word]
  | String c s' =>
      if Ascii.eqb c sep then [word; s']
      else split1_from sep s' (snoc word c)
  end.
Definition split1 (sep : ascii) (s : string) : list string :=
  split1_from sep s EmptyString.

(** [sep.join(l)]. *)
Definition join (sep : string) (l : list string) : string := String.concat sep l.

(** [s.replace(old, new)] for a one-character [old]. *)
Fixpoint replace (old : ascii) (new : string) (s : string) : string :=
  match s with
  | EmptyString => EmptyString
  | String c s' =>
      if Ascii.eqb c old then new ++ replace old new s'
      else String c (replace old new s')
  end.

(** [s.lower()] on the characters below 256. *)
Definition lower_char (c : ascii) : ascii :=
  let n := N_of_ascii c in
  if ((65 <=? n) && (n <=? 90)
      || (192 <=? n) && (n <=? 222) && negb (n =? 215))%N
  then ascii_of_N (n + 32) else c.
Fixpoint lower (s : string) : string :=
  match s with
  | EmptyString => EmptyString
  | String c s' => String (lower_char c) (lower s')
  end.

(** [a >= b] on strings. *)
Definition ge (a b : string) : bool := String.leb b a.

(** [s.encode('UTF-8')] for a [str] of characters below 256. *)
Fixpoint encode_utf8 (s : string) : string :=
  match s with
  | EmptyString => EmptyString
  | String c s' =>
      let n := N_of_ascii c in
      if (n <? 128)%N then String c (encode_utf8 s')
      else String (ascii_of_N (192 + n / 64))
             (String (ascii_of_N (128 + n mod 64)) (encode_utf8 s'))
  end.

(** [html.escape(s, quote=False)]. *)
Definition html_escape (s : string) : string :=
  replace ">" "&gt;" (replace "<" "&lt;" (replace "&" "&amp;" s)).

(** [fp.readline(limit)] on the unread bytes of a stream: the line read
    (up to and including the first LF, at most [limit] bytes) and the bytes
    left. *)
Fixpoint readline (s : string) (limit : Z) : string * string :=
  match s with
  | EmptyString => (EmptyString, EmptyString)
  | String c s' =>
      if limit <=? 0 then (EmptyString, s)
      else if Ascii.eqb c LF then (String c EmptyString, s')
      else let (l, r) := readline s' (limit - 1) in (String c l, r)
  end.

End Py.

(** ** posixpath *)
Module posixpath.
Import Py.

Definition is_nil {A} (l : list A) : bool :=
  match l with [] => true | _ :: _ => false end.

(** [p.rfind(c)]: the index of the last occurrence, or -1. *)
Fixpoint rfind_from (c : ascii) (s : string) (i found : Z) : Z :=
  match s with
  | EmptyString => found
  | String a s' => rfind_from c s' (i + 1) (if Ascii.eqb a c then i else found)
  end.
Definition rfind (c : ascii) (s : string) : Z := rfind_from c s 0 (-1).

(** The slices [p[:i]] and [p[i:]] for [0 <= i]. *)
Definition slice_to (p : string) (i : Z) : string :=
  substring 0 (Z.to_nat i) p.
Definition slice_from (p : string) (i : Z) : string :=
  substring (Z.to_nat i) (String.length p - Z.to_nat i) p.

Fixpoint repeat_char (c : ascii) (n : nat) : string :=
  match n with O => EmptyString | S n' => String c (repeat_char c n') end.

(** One turn of the loop of [normpath] over the components. *)
Definition normpath_step (initial_slashes : Z) (new_comps : list string)
    (comp : string) : list string :=
  if String.eqb comp EmptyString || String.eqb comp "." then new_comps
  else if negb (String.eqb comp "..")
          || ((initial_slashes =? 0) && is_nil new_comps)
          || (negb (is_nil new_comps)
              && String.eqb (last new_comps EmptyString) "..")
  then (new_comps ++ [comp])%list
  else if negb (is_nil new_comps) then removelast new_comps
  else new_comps.

Definition normpath (path : string) : string :=
  if is_empty path then "."
  else
    let initial_slashes :=
      if startswith path "/"
      then (if startswith path "//" && negb (startswith path "///")
            then 2 else 1)
      else 0 in
    let comps := split "/" path in
    let new_comps := fold_left (normpath_step initial_slashes) comps [] in
    let path := join "/" new_comps in
    let path := repeat_char "/" (Z.to_nat initial_slashes) ++ path in
    if is_empty path then "." else path.

(** [join(a, b)]. *)
Definition join2 (a b : string) : string :=
  if startswith b "/" then b
  else if is_empty a || endswith a "/" then a ++ b
  else a ++ "/" ++ b.

Definition dirname (p : string) : string :=
  let i := rfind "/" p + 1 in
  let head := slice_to p i in
  if negb (is_empty head)
     && negb (String.eqb head (repeat_char "/" (String.length head)))
  then rstrip (is_char "/") head
  else head.

(** The scan of [_splitext] for a character other than the dot between the
    last separator and the last dot. *)
Fixpoint has_non_dot (s : string) : bool :=
  match s with
  | EmptyString => false
  | String c s' => if negb (Ascii.eqb c ".") then true else has_non_dot s'
  end.

Definition splitext (p : string) : string * string :=
  let sepIndex := rfind "/" p in
  let dotIndex := rfind "." p in
  if (sepIndex <? dotIndex)
     && has_non_dot (substring (Z.to_nat (sepIndex + 1))
                       (Z.to_nat (dotIndex - (sepIndex + 1))) p)
  then (slice_to p dotIndex, slice_from p dotIndex)
  else (p, EmptyString).

End posixpath.

(** ** What the handler takes from its surroundings *)

(** Exceptions that can cross a method boundary in the embedded code. *)
Inductive exn : Type :=
| AttributeError
| ValueError
| OSError.

(** An open file: the bytes [read] would return, and the two fields of
    [os.fstat] the handler looks at. *)
Record file : Type := {
  contents : string;
  st_size : Z;
  st_mtime : Z
}.

(** What [email.utils.parsedate_to_datetime] returns: seconds since the
    epoch, and whether [tzinfo] is [None], the [timezone.utc] singleton, or
    another zone. *)
Inductive tzinfo : Type := TzNone | TzUTC | TzOther.
Record datetime : Type := {
  timestamp : Z;
  tz : tzinfo
}.

Record environment : Type := {
  (** [sys.version.split()[0]], as in ["Python/" + ...]. *)
  sys_version : string;
  (** [time.time()] and [email.utils.formatdate(t, usegmt=True)]. *)
  time_time : Z;
  formatdate : Z -> string;
  (** [repr(s)] and [int(s)] ([None] for [ValueError]). *)
  py_repr : string -> string;
  py_int : string -> option Z;
  (** [email.parser.Parser(...).parsestr(hstring).get(name)]. *)
  msg_get : string -> string -> option string;
  (** [email.utils.parsedate_to_datetime], [None] when it raises one of the
      four exceptions [send_head] catches. *)
  parsedate_to_datetime : string -> option datetime;
  (** [urllib.parse.unquote(s, errors='surrogatepass')] ([None] for
      [UnicodeDecodeError]) and [urllib.parse.unquote(s)]. *)
  unquote_surrogatepass : string -> option string;
  unquote : string -> string;
  (** [urllib.parse.urlsplit] ([None] for [ValueError]) and [urlunsplit]. *)
  urlsplit : string -> option (string * string * string * string * string);
  urlunsplit : string * string * string * string * string -> string;
  (** [os.path.isdir], [os.path.isfile], [open(path, 'rb')] (the exception
      raised, or the file), [os.listdir] ([None] for [OSError]). *)
  isdir : string -> bool;
  isfile : string -> bool;
  open_rb : string -> exn + file;
  listdir : string -> option (list string);
  (** [sys.getfilesystemencoding()], and the page [list_directory] builds
      from the request path, the directory and its entries, encoded. *)
  getfilesystemencoding : string;
  listing : string -> string -> list string -> string;
  (** [mimetypes.guess_type(path)[0]]. *)
  mimetypes_guess_type : string -> option string
}.

(** ** The handler object *)

(** A line of [_headers_buffer].  The buffer holds the encoded lines;
    [encode] gives the bytes of each. *)
Inductive hline : Type :=
| StatusLine (protocol : string) (code : Z) (message : string)
| Header (keyword value : string)
| EndOfHeaders.

Definition encode (l : hline) : string :=
  match l with
  | StatusLine p c m => p ++ " " ++ Py.str c ++ " " ++ m ++ Py.CRLF
  | Header k v => k ++ ": " ++ v ++ Py.CRLF
  | EndOfHeaders => Py.CRLF
  end.

(** One call of [wfile.write]: the joined header buffer, or body bytes. *)
Inductive chunk : Type :=
| HeaderBlock (lines : list hline)
| Body (data : string).

Definition chunk_bytes (c : chunk) : string :=
  match c with
  | HeaderBlock ls => String.concat EmptyString (map encode ls)
  | Body d => d
  end.

(** The bytes the client receives. *)
Definition wire (w : list chunk) : string :=
  String.concat EmptyString (map chunk_bytes w).

(** What [log_message] writes to standard error, one entry per call. *)
Inductive log_entry : Type :=
| LogRequest (requestline : string) (code : Z)
| LogError (code : Z) (message : string).

Record handler : Type := {
  directory : string;
  rfile : string;
  wfile : list chunk;
  raw_requestline : string;
  requestline : string;
  request_version : string;
  command : option string;
  path : string;
  headers : string;
  close_connection : bool;
  _headers_buffer : option (list hline);
  stderr : list log_entry;
  opened : list string
}.

(** [self.path], for the methods that also have a local [path]. *)
Definition self_path (h : handler) : string := path h.

(** Attribute assignment. *)
Definition set_rfile (v : string) (h : handler) : handler :=
  {| directory := directory h; rfile := v; wfile := wfile h;
     raw_requestline := raw_requestline h; requestline := requestline h;
     request_version := request_version h; command := command h;
     path := path h; headers := headers h;
     close_connection := close_connection h;
     _headers_buffer := _headers_buffer h; stderr := stderr h;
     opened := opened h |}.
Definition set_wfile (v : list chunk) (h : handler) : handler :=
  {| directory := directory h; rfile := rfile h; wfile := v;
     raw_requestline := raw_requestline h; requestline := requestline h;
     request_version := request_version h; command := command h;
     path := path h; headers := headers h;
     close_connection := close_connection h;
     _headers_buffer := _headers_buffer h; stderr := stderr h;
     opened := opened h |}.
Definition set_raw_requestline (v : string) (h : handler) : handler :=
  {| directory := directory h; rfile := rfile h; wfile := wfile h;
     raw_requestline := v; requestline := requestline h;
     request_version := request_version h; command := command h;
     path := path h; headers := headers h;
     close_connection := close_connection h;
     _headers_buffer := _headers_buffer h; stderr := stderr h;
     opened := opened h |}.
Definition set_requestline (v : string) (h : handler) : handler :=
  {| directory := directory h; rfile := rfile h; wfile := wfile h;
     raw_requestline := raw_requestline h; requestline := v;
     request_version := request_version h; command := command h;
     path := path h; headers := headers h;
     close_connection := close_connection h;
     _headers_buffer := _headers_buffer h; stderr := stderr h;
     opened := opened h |}.
Definition set_request_version (v : string) (h : handler) : handler :=
  {| directory := directory h; rfile := rfile h; wfile := wfile h;
     raw_requestline := raw_requestline h; requestline := requestline h;
     request_version := v; command := command h;
     path := path h; headers := headers h;
     close_connection := close_connection h;
     _headers_buffer := _headers_buffer h; stderr := stderr h;
     opened := opened h |}.
Definition set_command (v : option string) (h : handler) : handler :=
  {| directory := directory h; rfile := rfile h; wfile := wfile h;
     raw_requestline := raw_requestline h; requestline := requestline h;
     request_version := request_version h; command := v;
     path := path h; headers := headers h;
     close_connection := close_connection h;
     _headers_buffer := _headers_buffer h; stderr := stderr h;
     opened := opened h |}.
Definition set_path (v : string) (h : handler) : handler :=
  {| directory := directory h; rfile := rfile h; wfile := wfile h;
     raw_requestline := raw_requestline h; requestline := requestline h;
     request_version := request_version h; command := command h;
     path := v; headers := headers h;
     close_connection := close_connection h;
     _headers_buffer := _headers_buffer h; stderr := stderr h;
     opened := opened h |}.
Definition set_headers (v : string) (h : handler) : handler :=
  {| directory := directory h; rfile := rfile h; wfile := wfile h;
     raw_requestline := raw_requestline h; requestline := requestline h;
     request_version := request_version h; command := command h;
     path := path h; headers := v;
     close_connection := close_connection h;
     _headers_buffer := _headers_buffer h; stderr := stderr h;
     opened := opened h |}.
Definition set_close_connection (v : bool) (h : handler) : handler :=
  {| directory := directory h; rfile := rfile h; wfile := wfile h;
     raw_requestline := raw_requestline h; requestline := requestline h;
     request_version := request_version h; command := command h;
     path := path h; headers := headers h;
     close_connection := v;
     _headers_buffer := _headers_buffer h; stderr := stderr h;
     opened := opened h |}.
Definition set_headers_buffer (v : option (list hline)) (h : handler) : handler :=
  {| directory := directory h; rfile := rfile h; wfile := wfile h;
     raw_requestline := raw_requestline h; requestline := requestline h;
     request_version := request_version h; command := command h;
     path := path h; headers := headers h;
     close_connection := close_connection h;
     _headers_buffer := v; stderr := stderr h;
     opened := opened h |}.
Definition set_stderr (v : list log_entry) (h : handler) : handler :=
  {| directory := directory h; rfile := rfile h; wfile := wfile h;
     raw_requestline := raw_requestline h; requestline := requestline h;
     request_version := request_version h; command := command h;
     path := path h; headers := headers h;
     close_connection := close_connection h;
     _headers_buffer := _headers_buffer h; stderr := v;
     opened := opened h |}.
Definition set_opened (v : list string) (h : handler) : handler :=
  {| directory := directory h; rfile := rfile h; wfile := wfile h;
     raw_requestline := raw_requestline h; requestline := requestline h;
     request_version := request_version h; command := command h;
     path := path h; headers := headers h;
     close_connection := close_connection h;
     _headers_buffer := _headers_buffer h; stderr := stderr h;
     opened := v |}.

(** ** Methods as state transformers that may raise *)
Inductive outcome (A : Type) : Type :=
| Return (a : A) (h : handler)
| Raise (e : exn) (h : handler).
Arguments Return {A} a h.
Arguments Raise {A} e h.

Definition M (A : Type) : Type := handler -> outcome A.

Definition ret {A} (a : A) : M A := fun h => Return a h.
Definition bind {A B} (m : M A) (k : A -> M B) : M B :=
  fun h => match m h with
           | Return a h' => k a h'
           | Raise e h' => Raise e h'
           end.
Definition get : M handler := fun h => Return h h.
Definition modify (f : handler -> handler) : M unit := fun h => Return tt (f h).
Definition raise {A} (e : exn) : M A := fun h => Raise e h.

Notation "x <- m ;; k" := (bind m (fun x => k))
  (at level 61, m at next level, right associativity).
Notation "m ;; k" := (bind m (fun _ => k))
  (at level 61, right associativity).

(** The handler a method leaves behind, whether it returned or raised. *)
Definition final {A} (o : outcome A) : handler :=
  match o with Return _ h => h | Raise _ h => h end.

Definition returns {A} (o : outcome A) : bool :=
  match o with Return _ _ => true | Raise _ _ => false end.

Definition write (c : chunk) : M unit :=
  modify (fun h => set_wfile (wfile h ++ [c])%list h).

(** ** http.server.BaseHTTPRequestHandler *)
Module BaseHTTPRequestHandler.
Import Py.

Definition default_request_version : string := "HTTP/0.9".
Definition protocol_version : string := "HTTP/1.0".
Definition error_content_type : string := "text/html;charset=utf-8".

Definition _MAXLINE : Z := 65536.
Definition _MAXHEADERS : nat := 100.

(** [responses]: phrase and description, for the status codes the handler
    sends. *)
Definition responses (code : Z) : option (string * string) :=
  match code with
  | 100 => Some ("Continue", "Request received, please continue")
  | 200 => Some ("OK", "Request fulfilled, document follows")
  | 301 => Some ("Moved Permanently", "Object moved permanently -- see URI list")
  | 304 => Some ("Not Modified", "Document has not changed since given time")
  | 400 => Some ("Bad Request", "Bad request syntax or unsupported method")
  | 404 => Some ("Not Found", "Nothing matches the given URI")
  | 414 => Some ("Request-URI Too Long", "URI is too long")
  | 431 => Some ("Request Header Fields Too Large", "The server is unwilling to process the request because its header fields are too large")
  | 501 => Some ("Not Implemented", "Server does not support this operation")
  | 505 => Some ("HTTP Version Not Supported", "Cannot fulfill request")
  | _ => None
  end.

Definition quoted (s : string) : string := String DQ s ++ String DQ EmptyString.

(** [error_message_format % {'code': code, 'message': message,
    'explain': explain}]. *)
Definition error_message_format (code : Z) (message explain : string) : string :=
  "<!DOCTYPE HTML>" ++ NL ++
  "<html lang=" ++ quoted "en" ++ ">" ++ NL ++
  "    <head>" ++ NL ++
  "        <meta charset=" ++ quoted "utf-8" ++ ">" ++ NL ++
  "        <title>Error response</title>" ++ NL ++
  "    </head>" ++ NL ++
  "    <body>" ++ NL ++
  "        <h1>Error response</h1>" ++ NL ++
  "        <p>Error code: " ++ str code ++ "</p>" ++ NL ++
  "        <p>Message: " ++ message ++ ".</p>" ++ NL ++
  "        <p>Error code explanation: " ++ str code ++ " - " ++ explain ++ ".</p>" ++ NL ++
  "    </body>" ++ NL ++
  "</html>" ++ NL.

(** The comparison [v >= w] of two version tuples. *)
Definition tuple_ge (v w : Z * Z) : bool :=
  (fst w <? fst v) || ((fst v =? fst w) && (snd w <=? snd v)).

Definition orelse {A} (o : option A) (d : A) : A :=
  match o with Some a => a | None => d end.

(** What [http.client._read_headers] raises. *)
Inductive header_error : Type :=
| LineTooLong
| TooManyHeaders.

(** [http.client._read_headers]: [room] is [_MAXHEADERS - len(headers)], so
    the loop is entered at most [_MAXHEADERS + 1] times. *)
Fixpoint _read_headers (room : nat) (rfile : string) (headers : list string)
    : (header_error + list string) * string :=
  let (line, rest) := readline rfile (_MAXLINE + 1) in
  if _MAXLINE <? len line then (inl LineTooLong, rest)
  else
    match room with
    | O => (inl TooManyHeaders, rest)
    | S room' =>
        let headers := (headers ++ [line])%list in
        if String.eqb line CRLF || String.eqb line NL || is_empty line
        then (inr headers, rest)
        else _read_headers room' rest headers
    end.

Section Methods.

Variable env : environment.
(** The class attribute [server_version] of the instance's class. *)
Variable self_server_version : string.
(** [self.end_headers], resolved on the instance's class. *)
Variable self_end_headers : M unit.
(** [getattr(self, mname)]; [None] when [hasattr(self, mname)] is false. *)
Variable self_do : string -> option (M unit).

Definition log_request (code : Z) : M unit :=
  modify (fun h => set_stderr (stderr h ++ [LogRequest (requestline h) code])%list h).

Definition log_error (code : Z) (message : string) : M unit :=
  modify (fun h => set_stderr (stderr h ++ [LogError code message])%list h).

Definition version_string : string :=
  self_server_version ++ " " ++ sys_version env.

Definition date_time_string (timestamp : option Z) : string :=
  formatdate env (orelse timestamp (time_time env)).

Definition send_response_only (code : Z) (message : option string) : M unit :=
  h <- get ;;
  if negb (String.eqb (request_version h) "HTTP/0.9") then
    let message :=
      match message with
      | Some m => m
      | None => match responses code with
                | Some (phrase, _) => phrase
                | None => EmptyString
                end
      end in
    modify (fun h => set_headers_buffer
              (Some (orelse (_headers_buffer h) [] ++
                     [StatusLine protocol_version code message])%list) h)
  else ret tt.

Definition send_header (keyword value : string) : M unit :=
  h <- get ;;
  (if negb (String.eqb (request_version h) "HTTP/0.9") then
     modify (fun h => set_headers_buffer
               (Some (orelse (_headers_buffer h) [] ++
                      [Header keyword value])%list) h)
   else ret tt) ;;
  if String.eqb (lower keyword) "connection" then
    if String.eqb (lower value) "close" then
      modify (set_close_connection true)
    else if String.eqb (lower value) "keep-alive" then
      modify (set_close_connection false)
    else ret tt
  else ret tt.

Definition flush_headers : M unit :=
  h <- get ;;
  match _headers_buffer h with
  | Some buffer =>
      write (HeaderBlock buffer) ;;
      modify (set_headers_buffer (Some []))
  | None => ret tt
  end.

Definition end_headers : M unit :=
  h <- get ;;
  if negb (String.eqb (request_version h) "HTTP/0.9") then
    match _headers_buffer h with
    | Some buffer =>
        modify (set_headers_buffer (Some (buffer ++ [EndOfHeaders])%list)) ;;
        flush_headers
    | None => raise AttributeError
    end
  else ret tt.

Definition send_response (code : Z) (message : option string) : M unit :=
  log_request code ;;
  send_response_only code message ;;
  send_header "Server" version_string ;;
  send_header "Date" (date_time_string None).

Definition send_error (code : Z) (message explain : option string) : M unit :=
  let (shortmsg, longmsg) := orelse (responses code) ("???", "???") in
  let message := orelse message shortmsg in
  let explain := orelse explain longmsg in
  log_error code message ;;
  send_response code (Some message) ;;
  send_header "Connection" "close" ;;
  body <-
    (if (200 <=? code)
        && negb ((code =? 204) || (code =? 205) || (code =? 304))
     then
       let content :=
         error_message_format code (html_escape message) (html_escape explain) in
       let body := encode_utf8 content in
       send_header "Content-Type" error_content_type ;;
       send_header "Content-Length" (str (len body)) ;;
       ret (Some body)
     else ret None) ;;
  self_end_headers ;;
  h <- get ;;
  match body with
  | Some body =>
      if negb (match command h with
               | Some c => String.eqb c "HEAD"
               | None => false
               end)
         && negb (is_empty body)
      then write (Body body)
      else ret tt
  | None => ret tt
  end.

Definition handle_expect_100 : M bool :=
  send_response_only 100 None ;;
  self_end_headers ;;
  ret true.

(** The version token of the request line: the text after the slash and the
    pair of numbers, or [None] where the source raises [ValueError]. *)
Definition parse_version (version : string) : option (string * (Z * Z)) :=
  if negb (startswith version "HTTP/") then None
  else
    match split1 "/" version with
    | [_; base_version_number] =>
        match split "." base_version_number with
        | [major; minor] =>
            match py_int env major, py_int env minor with
            | Some a, Some b => Some (base_version_number, (a, b))
            | _, _ => None
            end
        | _ => None
        end
    | _ => None
    end.

Definition parse_request : M bool :=
  modify (set_command None) ;;
  modify (set_request_version default_request_version) ;;
  modify (set_close_connection true) ;;
  h <- get ;;
  let requestline := rstrip is_crlf (raw_requestline h) in
  modify (set_requestline requestline) ;;
  let words := split_ws requestline in
  let n := Z.of_nat (length words) in
  if n =? 0 then ret false
  else
    ok <-
      (if 3 <=? n then
         let version := last words EmptyString in
         match parse_version version with
         | None =>
             send_error 400
               (Some ("Bad request version (" ++ py_repr env version ++ ")"))
               None ;;
             ret false
         | Some (base_version_number, version_number) =>
             (if tuple_ge version_number (1, 1)
                 && ge protocol_version "HTTP/1.1"
              then modify (set_close_connection false) else ret tt) ;;
             if tuple_ge version_number (2, 0) then
               send_error 505
                 (Some ("Invalid HTTP version (" ++ base_version_number ++ ")"))
                 None ;;
               ret false
             else
               modify (set_request_version version) ;;
               ret true
         end
       else ret true) ;;
    if negb ok then ret false
    else if negb ((2 <=? n) && (n <=? 3)) then
      send_error 400
        (Some ("Bad request syntax (" ++ py_repr env requestline ++ ")"))
        None ;;
      ret false
    else
      let command := nth 0 words EmptyString in
      let path := nth 1 words EmptyString in
      ok <-
        (if n =? 2 then
           modify (set_close_connection true) ;;
           if negb (String.eqb command "GET") then
             send_error 400
               (Some ("Bad HTTP/0.9 request type (" ++ py_repr env command ++ ")"))
               None ;;
             ret false
           else ret true
         else ret true) ;;
      if negb ok then ret false
      else
        modify (set_command (Some command)) ;;
        modify (set_path path) ;;
        (if startswith path "//"
         then modify (set_path ("/" ++ lstrip (is_char "/") path))
         else ret tt) ;;
        h <- get ;;
        let (r, rest) := _read_headers _MAXHEADERS (rfile h) [] in
        modify (set_rfile rest) ;;
        match r with
        | inl LineTooLong =>
            send_error 431 (Some "Line too long")
              (Some "got more than 65536 bytes when reading header line") ;;
            ret false
        | inl TooManyHeaders =>
            send_error 431 (Some "Too many headers")
              (Some "got more than 100 headers") ;;
            ret false
        | inr lines =>
            let hstring := String.concat EmptyString lines in
            modify (set_headers hstring) ;;
            let conntype := orelse (msg_get env hstring "Connection") EmptyString in
            (if String.eqb (lower conntype) "close" then
               modify (set_close_connection true)
             else if String.eqb (lower conntype) "keep-alive"
                     && ge protocol_version "HTTP/1.1" then
               modify (set_close_connection false)
             else ret tt) ;;
            let expect := orelse (msg_get env hstring "Expect") EmptyString in
            h <- get ;;
            if String.eqb (lower expect) "100-continue"
               && ge protocol_version "HTTP/1.1"
               && ge (request_version h) "HTTP/1.1"
            then
              ok <- handle_expect_100 ;;
              if negb ok then ret false else ret true
            else ret true
        end.

Definition handle_one_request : M unit :=
  h <- get ;;
  let (line, rest) := readline (rfile h) 65537 in
  modify (set_rfile rest) ;;
  modify (set_raw_requestline line) ;;
  if 65536 <? len line then
    modify (set_requestline EmptyString) ;;
    modify (set_request_version EmptyString) ;;
    modify (set_command (Some EmptyString)) ;;
    send_error 414 None None
  else if is_empty line then
    modify (set_close_connection true)
  else
    ok <- parse_request ;;
    if negb ok then ret tt
    else
      h <- get ;;
      let command := orelse (command h) EmptyString in
      let mname := "do_" ++ command in
      match self_do mname with
      | None =>
          send_error 501
            (Some ("Unsupported method (" ++ py_repr env command ++ ")"))
            None
      | Some method => method
      end.

(** The loop [while not self.close_connection: self.handle_one_request()].
    A request that leaves the connection open has consumed at least one
    byte, so the bytes still unread bound the number of turns. *)
Fixpoint handle_loop (turns : nat) : M unit :=
  h <- get ;;
  if close_connection h then ret tt
  else
    match turns with
    | O => ret tt
    | S turns' => handle_one_request ;; handle_loop turns'
    end.

Definition handle : M unit :=
  modify (set_close_connection true) ;;
  handle_one_request ;;
  h <- get ;;
  handle_loop (String.length (rfile h)).

End Methods.

End BaseHTTPRequestHandler.

(** ** http.server.SimpleHTTPRequestHandler *)
Module SimpleHTTPRequestHandler.
Import Py.
Import BaseHTTPRequestHandler.

Definition server_version : string := "SimpleHTTP/0.6".

Definition extensions_map (ext : string) : option string :=
  if String.eqb ext ".gz" then Some "application/gzip"
  else if String.eqb ext ".Z" then Some "application/octet-stream"
  else if String.eqb ext ".bz2" then Some "application/x-bzip2"
  else if String.eqb ext ".xz" then Some "application/x-xz"
  else None.

(** The test of the loop of [translate_path] for a component that is not a
    simple file or directory name. *)
Definition ignored (word : string) : bool :=
  negb (is_empty (posixpath.dirname word))
  || String.eqb word "." || String.eqb word "..".

Definition translate_step (path word : string) : string :=
  if ignored word then path else posixpath.join2 path word.

Section Methods.

Variable env : environment.
Variable self_end_headers : M unit.

Definition send_response := send_response env server_version.
Definition send_error := send_error env server_version self_end_headers.

Definition translate_path (directory path : string) : string :=
  let path := nth 0 (split1 "?" path) EmptyString in
  let path := nth 0 (split1 "#" path) EmptyString in
  let trailing_slash := endswith (rstrip isspace path) "/" in
  let path :=
    match unquote_surrogatepass env path with
    | Some p => p
    | None => unquote env path
    end in
  let path := posixpath.normpath path in
  let words := split "/" path in
  let words := filter (fun w => negb (is_empty w)) words in
  let path := fold_left translate_step words directory in
  if trailing_slash then path ++ "/" else path.

Definition guess_type (path : string) : string :=
  let (base, ext) := posixpath.splitext path in
  match extensions_map ext with
  | Some t => t
  | None =>
      let ext := lower ext in
      match extensions_map ext with
      | Some t => t
      | None =>
          match mimetypes_guess_type env path with
          | Some guess =>
              if negb (is_empty guess) then guess
              else "application/octet-stream"
          | None => "application/octet-stream"
          end
      end
  end.

(** The test of [send_head] that answers 304: the request has
    [If-Modified-Since] and no [If-None-Match], the date parses, is in UTC
    (or carries no zone) and is not before the file's modification time. *)
Definition not_modified (headers : string) (f : file) : bool :=
  match msg_get env headers "If-Modified-Since",
        msg_get env headers "If-None-Match" with
  | Some value, None =>
      match parsedate_to_datetime env value with
      | None => false
      | Some ims =>
          let zone := match tz ims with TzNone => TzUTC | z => z end in
          match zone with
          | TzUTC => st_mtime f <=? timestamp ims
          | _ => false
          end
      end
  | _, _ => false
  end.

(** The call [open(path, 'rb')] or [os.listdir(path)], recorded. *)
Definition touch (path : string) : M unit :=
  modify (fun h => set_opened (opened h ++ [path])%list h).

Definition list_directory (path : string) : M (option file) :=
  touch path ;;
  match listdir env path with
  | None =>
      send_error 404 (Some "No permission to list directory") None ;;
      ret None
  | Some list =>
      h <- get ;;
      let enc := getfilesystemencoding env in
      let encoded := listing env (self_path h) path list in
      send_response 200 None ;;
      send_header "Content-type" ("text/html; charset=" ++ enc) ;;
      send_header "Content-Length" (str (len encoded)) ;;
      self_end_headers ;;
      ret (Some {| contents := encoded; st_size := len encoded; st_mtime := 0 |})
  end.

Definition send_head : M (option file) :=
  h <- get ;;
  let path := translate_path (directory h) (self_path h) in
  r <-
    (if isdir env path then
       match urlsplit env (self_path h) with
       | None => raise ValueError
       | Some (scheme, netloc, ppath, query, fragment) =>
           if negb (endswith ppath "/") then
             send_response 301 None ;;
             send_header "Location"
               (urlunsplit env (scheme, netloc, ppath ++ "/", query, fragment)) ;;
             send_header "Content-Length" "0" ;;
             self_end_headers ;;
             ret (inl None)
           else
             let index := posixpath.join2 path "index.html" in
             if isfile env index then ret (inr index)
             else
               let index := posixpath.join2 path "index.htm" in
               if isfile env index then ret (inr index)
               else
                 f <- list_directory path ;;
                 ret (inl f)
       end
     else ret (inr path)) ;;
  match r with
  | inl result => ret result
  | inr path =>
      let ctype := guess_type path in
      if endswith path "/" then
        send_error 404 (Some "File not found") None ;;
        ret None
      else
        touch path ;;
        match open_rb env path with
        | inl OSError =>
            send_error 404 (Some "File not found") None ;;
            ret None
        | inl e => raise e
        | inr f =>
            h <- get ;;
            if not_modified (headers h) f then
              send_response 304 None ;;
              self_end_headers ;;
              ret None
            else
              send_response 200 None ;;
              send_header "Content-type" ctype ;;
              send_header "Content-Length" (str (st_size f)) ;;
              send_header "Last-Modified" (date_time_string env (Some (st_mtime f))) ;;
              self_end_headers ;;
              ret (Some f)
        end
  end.

(** [shutil.copyfileobj] writes the file block by block; the blocks are
    joined into one body here. *)
Definition copyfile (source : file) : M unit :=
  write (Body (contents source)).

Definition do_GET : M unit :=
  f <- send_head ;;
  match f with
  | Some f => copyfile f
  | None => ret tt
  end.

Definition do_HEAD : M unit :=
  f <- send_head ;;
  ret tt.

(** The attributes of the class whose names start with [do_]. *)
Definition do_method (mname : string) : option (M unit) :=
  if String.eqb mname "do_GET" then Some do_GET
  else if String.eqb mname "do_HEAD" then Some do_HEAD
  else None.

End Methods.

End SimpleHTTPRequestHandler.

(** ** The process and the kernel's sockets *)

(** The socket options [server_bind] may set before [bind]. *)
Record sockopts : Type := {
  so_reuseaddr : bool;
  so_reuseport : bool
}.

(** What the process does that is visible outside it, in order: the
    system calls the script and [socketserver] make, and the calls of
    [print]. *)
Inductive event : Type :=
| SysChdir (path : string)
| SysSocket
| SysSetsockopt (name : string)
| SysBind (host : string) (port : Z)
| SysListen (backlog : Z)
| Print (line : string)
| SysAccept
| SysShutdown
| SysClose.

(** The kernel's side of [bind]: from the state of its socket table, the
    options of the socket and the address, the exception [socket.bind]
    raises or the table with the address taken.  [K] is the kernel's
    state; nothing is assumed about it here. *)
Record kernel (K : Type) : Type := {
  sys_bind : K -> sockopts -> string * Z -> exn + K
}.
Arguments sys_bind {K} _ _ _ _.

(** The process: working directory, the kernel state it runs against, the
    lines printed on standard output and the events so far. *)
Record process (K : Type) : Type := {
  cwd : string;
  kstate : K;
  stdout : list string;
  trace : list event
}.
Arguments cwd {K} _.
Arguments kstate {K} _.
Arguments stdout {K} _.
Arguments trace {K} _.

Section Process.
Context {K : Type}.

Definition emit (c : event) (p : process K) : process K :=
  {| cwd := cwd p; kstate := kstate p; stdout := stdout p;
     trace := (trace p ++ [c])%list |}.

Definition set_kstate (k : K) (p : process K) : process K :=
  {| cwd := cwd p; kstate := k; stdout := stdout p; trace := trace p |}.

(** [print(line)]. *)
Definition print (line : string) (p : process K) : process K :=
  emit (Print line)
    {| cwd := cwd p; kstate := kstate p;
       stdout := (stdout p ++ [line])%list; trace := trace p |}.

(** [os.chdir(path)] for the two forms of [path] that need no look-up:
    ["."] names the working directory itself, a path that starts with a
    slash replaces it; any other is joined to it. *)
Definition chdir (path : string) (p : process K) : process K :=
  let target :=
    if String.eqb path "." then cwd p
    else posixpath.join2 (cwd p) path in
  emit (SysChdir path)
    {| cwd := target; kstate := kstate p; stdout := stdout p;
       trace := trace p |}.

(** [os.getcwd()]. *)
Definition getcwd (p : process K) : string := cwd p.

End Process.

(** ** socketserver.TCPServer *)
Module TCPServer.

Definition request_queue_size : Z := 5.
Definition allow_reuse_address : bool := false.
Definition allow_reuse_port : bool := false.

(** The server object: its address, the private flag
    [__shutdown_request], and, for each connection handled so far, what
    the handler wrote to the client and whether it raised. *)
Record server : Type := {
  server_address : string * Z;
  __shutdown_request : bool;
  served : list (list chunk);
  errors : list exn
}.

Section Methods.
Context {K : Type}.
Variable api : kernel K.
(** [RequestHandlerClass(request, client_address, self)]. *)
Variable RequestHandlerClass : string -> outcome unit.

Definition server_bind (srv : server) (p : process K)
    : (exn + unit) * process K :=
  let p := if allow_reuse_address
           then emit (SysSetsockopt "SO_REUSEADDR") p else p in
  let p := if allow_reuse_port
           then emit (SysSetsockopt "SO_REUSEPORT") p else p in
  let opts := {| so_reuseaddr := allow_reuse_address;
                 so_reuseport := allow_reuse_port |} in
  let p := emit (SysBind (fst (server_address srv)) (snd (server_address srv))) p in
  match sys_bind api (kstate p) opts (server_address srv) with
  | inl e => (inl e, p)
  | inr k => (inr tt, set_kstate k p)
  end.

Definition server_activate (p : process K) : process K :=
  emit (SysListen request_queue_size) p.

Definition server_close (p : process K) : process K :=
  emit SysClose p.

(** [TCPServer.__init__(server_address, RequestHandlerClass)] with
    [bind_and_activate=True]: the exception it raises, or the server. *)
Definition __init__ (server_address : string * Z) (p : process K)
    : (exn + server) * process K :=
  let srv := {| server_address := server_address;
                __shutdown_request := false;
                served := []; errors := [] |} in
  let p := emit SysSocket p in
  match server_bind srv p with
  | (inl e, p) => (inl e, server_close p)
  | (inr _, p) => (inr srv, server_activate p)
  end.

Definition shutdown_request (p : process K) : process K :=
  emit SysClose (emit SysShutdown p).

(** [_handle_request_noblock] for a connection whose client sends
    [request]: [get_request], [verify_request] (always true),
    [process_request], and [handle_error] when the handler raises an
    [Exception]. *)
Definition _handle_request_noblock (request : string) (srv : server)
    (p : process K) : server * process K :=
  let p := emit SysAccept p in
  match RequestHandlerClass request with
  | Return _ h =>
      ({| server_address := server_address srv;
          __shutdown_request := __shutdown_request srv;
          served := (served srv ++ [wfile h])%list;
          errors := errors srv |},
       shutdown_request p)
  | Raise e h =>
      ({| server_address := server_address srv;
          __shutdown_request := __shutdown_request srv;
          served := (served srv ++ [wfile h])%list;
          errors := (errors srv ++ [e])%list |},
       shutdown_request p)
  end.

(** [serve_forever] against the connections that arrive, in order.  The
    loop [while not self.__shutdown_request] is left only through the
    flag; when no connection is pending it waits in [select].  The result
    says whether the loop was left. *)
Fixpoint serve_forever (connections : list string) (srv : server)
    (p : process K) : bool * server * process K :=
  if __shutdown_request srv then (true, srv, p)
  else
    match connections with
    | [] => (false, srv, p)
    | request :: rest =>
        let (srv, p) := _handle_request_noblock request srv p in
        serve_forever rest srv p
    end.

End Methods.

End TCPServer.

(** ** start_server.py *)
Module start_server.

Definition PORT : Z := 5000.
Definition DIRECTORY : string := ".".

(** [class MyHTTPRequestHandler(http.server.SimpleHTTPRequestHandler)] *)
Module MyHTTPRequestHandler.

Definition end_headers : M unit :=
  BaseHTTPRequestHandler.send_header "Access-Control-Allow-Origin" "*" ;;
  BaseHTTPRequestHandler.send_header "Access-Control-Allow-Methods" "GET, POST, OPTIONS" ;;
  BaseHTTPRequestHandler.send_header "Access-Control-Allow-Headers" "Content-Type" ;;
  BaseHTTPRequestHandler.end_headers.

(** The inherited methods, with [self.end_headers] resolved to the
    override. *)
Definition do_method (env : environment) : string -> option (M unit) :=
  SimpleHTTPRequestHandler.do_method env end_headers.

Definition handle_one_request (env : environment) : M unit :=
  BaseHTTPRequestHandler.handle_one_request env
    SimpleHTTPRequestHandler.server_version end_headers (do_method env).

Definition handle (env : environment) : M unit :=
  BaseHTTPRequestHandler.handle env
    SimpleHTTPRequestHandler.server_version end_headers (do_method env).

(** The instance after [self.directory = os.fspath(directory)] and
    [StreamRequestHandler.setup]: [rfile] holds the bytes the client sends
    on the connection, nothing has been written, and the attributes that
    [handle_one_request] assigns before it reads them are blank. *)
Definition setup (directory request : string) : handler :=
  {| directory := directory; rfile := request; wfile := [];
     raw_requestline := EmptyString; requestline := EmptyString;
     request_version := EmptyString; command := None;
     path := EmptyString; headers := EmptyString;
     close_connection := true; _headers_buffer := None;
     stderr := []; opened := [] |}.

(** [__init__]: the call of the superclass constructor with
    [directory=DIRECTORY], which runs [setup], [handle] and [finish]. *)
Definition __init__ (env : environment) (request : string) : outcome unit :=
  handle env (setup DIRECTORY request).

End MyHTTPRequestHandler.

(** How the run stands: still inside [serve_forever], or ended with an
    exit status. *)
Inductive run_state : Type :=
| Serving
| Exited (status : Z).

Definition line1 : string :=
  "✅ DHA Document Generator Server running at http://localhost:" ++ Py.str PORT.
Definition line2 : string :=
  "📄 Navigate to http://localhost:5000 in your browser".
(** [print(a, b)] writes the two arguments with a space between. *)
Definition line3 (cwd : string) : string :=
  "📁 Serving files from:" ++ " " ++ cwd.

Section Main.
Context {K : Type}.
Variable api : kernel K.
Variable env : environment.

(** The module body, run against the connections that arrive while it
    serves.  An exception that leaves the [with] statement is not caught:
    the interpreter prints the traceback and exits with status 1. *)
Definition main (connections : list string) (p : process K)
    : run_state * option TCPServer.server * process K :=
  let p := chdir DIRECTORY p in
  match TCPServer.__init__ api ("0.0.0.0", PORT) p with
  | (inl e, p) => (Exited 1, None, p)
  | (inr httpd, p) =>
      let p := print line1 p in
      let p := print line2 p in
      let p := print (line3 (getcwd p)) p in
      match TCPServer.serve_forever (MyHTTPRequestHandler.__init__ env)
              connections httpd p with
      | (true, httpd, p) => (Exited 0, Some httpd, TCPServer.server_close p)
      | (false, httpd, p) => (Serving, Some httpd, p)
      end
  end.

(** What each connection handled by a run received. *)
Definition responses (r : run_state * option TCPServer.server * process K)
    : list (list chunk) :=
  match r with
  | (_, Some httpd, _) => TCPServer.served httpd
  | (_, None, _) => []
  end.

End Main.

End start_server.

(** ** What is stated about responses *)

Definition cors_origin : hline := Header "Access-Control-Allow-Origin" "*".
Definition cors_methods : hline :=
  Header "Access-Control-Allow-Methods" "GET, POST, OPTIONS".
Definition cors_headers : hline :=
  Header "Access-Control-Allow-Headers" "Content-Type".





(** ** Invariants of handler methods *)

(** [m] keeps [I]: from a handler that satisfies [I] it leaves one that
    does, whether it returns or raises. *)
Definition preserves {A} (I : handler -> Prop) (m : M A) : Prop :=
  forall h, I h -> I (final (m h)).

(** Whatever [m] returns satisfies [Q]. *)
Definition yields {A} (m : M A) (Q : A -> Prop) : Prop :=
  forall h a h', m h = Return a h' -> Q a.

(** The buffer after [_headers_buffer.append(l)], the attribute created
    when it is missing. *)
Definition push (l : hline) (h : handler) : handler :=
  set_headers_buffer
    (Some (BaseHTTPRequestHandler.orelse (_headers_buffer h) [] ++ [l])%list) h.

(** The lines the inherited methods put in the buffer: the status line and
    the headers they name. *)
Definition inherited (l : hline) : bool :=
  match l with
  | StatusLine _ _ _ => true
  | Header keyword _ =>
      existsb (String.eqb keyword)
        ["Server"; "Date"; "Connection"; "Content-Type"; "Content-Length";
         "Content-type"; "Last-Modified"; "Location"]
  | EndOfHeaders => false
  end.

(** The paths [send_head] hands to [open] and [os.listdir] for the request
    path [q]: the translated path, or an index page under it. *)
Definition served_path (env : environment) (directory q p : string) : Prop :=
  let t := SimpleHTTPRequestHandler.translate_path env directory q in
  p = t \/ p = posixpath.join2 t "index.html"
  \/ p = posixpath.join2 t "index.htm".




(** ** Paths inside the base directory *)

Fixpoint contains (c : ascii) (s : string) : bool :=
  match s with
  | EmptyString => false
  | String a s' => Ascii.eqb a c || contains c s'
  end.

(** A simple file or directory name: not empty, not [.] or [..], and
    without a slash. *)
Definition simple_name (w : string) : bool :=
  negb (Py.is_empty w) && negb (String.eqb w ".") && negb (String.eqb w "..")
  && negb (contains "/" w).

(** The path [./w1/w2/.../wn]. *)
Definition under (words : list string) : string :=
  "." ++ String.concat EmptyString (map (fun w => "/" ++ w) words).

(** A path that descends from the base directory [.] through simple names
    only, with or without a final slash. *)
Definition inside (p : string) : Prop :=
  exists words,
    Forall (fun w => simple_name w = true) words
    /\ (p = under words \/ p = under words ++ "/").

(** The invariant behind containment: every path opened so far is
    inside. *)
Definition opens_inside (h : handler) : Prop :=
  Forall inside (opened h) /\ directory h = start_server.DIRECTORY.

Fixpoint last_char (s : string) : option ascii :=
  match s with
  | EmptyString => None
  | String c s' =>
      match s' with
      | EmptyString => Some c
      | String _ _ => last_char s'
      end
  end.

(** ** The run of the script *)

(** The options with which [server_bind] binds: [allow_reuse_address] and
    [allow_reuse_port] of [TCPServer] are both false. *)
Definition bind_options : sockopts :=
  {| so_reuseaddr := TCPServer.allow_reuse_address;
     so_reuseport := TCPServer.allow_reuse_port |}.

(** The address the script passes to [TCPServer]. *)
Definition bind_address : string * Z := ("0.0.0.0", start_server.PORT).

(** A kernel that does not bind one address twice: once a socket without
    [SO_REUSEPORT] holds an address, a [bind] to the same address by a
    socket without [SO_REUSEPORT] raises [OSError]. *)
Definition exclusive {K : Type} (api : kernel K) : Prop :=
  forall k opts addr k' opts',
    sys_bind api k opts addr = inr k' ->
    so_reuseport opts = false -> so_reuseport opts' = false ->
    sys_bind api k' opts' addr = inl OSError.

Definition is_chdir (e : event) : bool :=
  match e with SysChdir _ => true | _ => false end.

Definition is_bind (e : event) : bool :=
  match e with SysBind _ _ => true | _ => false end.

(** The events of startup up to [listen], and the three prints. *)
Definition startup_events : list event :=
  [SysChdir "."; SysSocket; SysBind "0.0.0.0" 5000; SysListen 5].
Definition print_events (cwd : string) : list event :=
  [Print start_server.line1; Print start_server.line2;
   Print (start_server.line3 cwd)].
(** The events of the loop, three for each connection. *)
Definition connection_events (connections : list string) : list event :=
  flat_map (fun _ => [SysAccept; SysShutdown; SysClose]) connections.

(** ** The responses, as written *)

Definition version_string (env : environment) : string :=
  BaseHTTPRequestHandler.version_string env SimpleHTTPRequestHandler.server_version.

(** The body of an error response: the HTML page, encoded. *)
Definition error_page (code : Z) (message explain : string) : string :=
  Py.encode_utf8
    (BaseHTTPRequestHandler.error_message_format code
       (Py.html_escape message) (Py.html_escape explain)).

(** The header block of an error response with a body. *)
Definition error_headers (env : environment) (code : Z)
    (message explain : string) : list hline :=
  [StatusLine "HTTP/1.0" code message;
   Header "Server" (version_string env);
   Header "Date" (BaseHTTPRequestHandler.date_time_string env None);
   Header "Connection" "close";
   Header "Content-Type" "text/html;charset=utf-8";
   Header "Content-Length" (Py.str (Py.len (error_page code message explain)));
   cors_origin; cors_methods; cors_headers; EndOfHeaders].

(** What [send_error] writes: the header block unless the request version
    on record is HTTP/0.9, and the page unless the command is HEAD. *)
Definition error_chunks (env : environment) (version : string)
    (command : option string) (code : Z) (message explain : string)
    : list chunk :=
  ((if String.eqb version "HTTP/0.9" then []
    else [HeaderBlock (error_headers env code message explain)])
   ++
   (if match command with
       | Some c => String.eqb c "HEAD"
       | None => false
       end
    then []
    else [Body (error_page code message explain)]))%list.

(** A full error response: header block, then the page. *)
Definition error_response (env : environment) (code : Z)
    (message explain : string) : list chunk :=
  [HeaderBlock (error_headers env code message explain);
   Body (error_page code message explain)].

(** The response that serves a file: status 200, the content type, the
    length and the modification date, then the file's bytes. *)
Definition file_response (env : environment) (ctype : string) (f : file)
    : list chunk :=
  [HeaderBlock
     [StatusLine "HTTP/1.0" 200 "OK";
      Header "Server" (version_string env);
      Header "Date" (BaseHTTPRequestHandler.date_time_string env None);
      Header "Content-type" ctype;
      Header "Content-Length" (Py.str (st_size f));
      Header "Last-Modified"
        (BaseHTTPRequestHandler.date_time_string env (Some (st_mtime f)));
      cors_origin; cors_methods; cors_headers; EndOfHeaders];
   Body (contents f)].

(** [self.path] for the target of the request line: a run of leading
    slashes is reduced to one. *)
Definition request_path (target : string) : string :=
  if Py.startswith target "//"
  then "/" ++ Py.lstrip (Py.is_char "/") target
  else target.

(** The file-system path [send_head] derives from the target. *)
Definition resolved (env : environment) (target : string) : string :=
  SimpleHTTPRequestHandler.translate_path env start_server.DIRECTORY
    (request_path target).

(** An HTTP/1.x request: the request line is within the length limit and
    has three words, the last a version below 2.0 other than HTTP/0.9, and
    the header lines that follow are within their limits; [hstring] is the
    text of the headers. *)
Definition http1_request (env : environment)
    (request method target hstring : string) : Prop :=
  exists line more version base number lines rest,
    Py.readline request 65537 = (line, more)
    /\ Py.len line <= 65536
    /\ Py.split_ws (Py.rstrip Py.is_crlf line) = [method; target; version]
    /\ BaseHTTPRequestHandler.parse_version env version = Some (base, number)
    /\ BaseHTTPRequestHandler.tuple_ge number (2, 0) = false
    /\ String.eqb version "HTTP/0.9" = false
    /\ BaseHTTPRequestHandler._read_headers
         BaseHTTPRequestHandler._MAXHEADERS more [] = (inr lines, rest)
    /\ hstring = String.concat EmptyString lines.

(** The handler at the point where [handle_one_request] has read the
    request line. *)
Definition with_request_line (line more : string) : handler :=
  set_raw_requestline line
    (set_rfile more
       (set_close_connection true
          (start_server.MyHTTPRequestHandler.setup start_server.DIRECTORY
             EmptyString))).

(** A request the handler turns down while reading it: the request line
    is too long, or [parse_request] returns false. *)
Definition rejected (env : environment) (request : string) : bool :=
  let (line, more) := Py.readline request 65537 in
  if 65536 <? Py.len line then true
  else if Py.is_empty line then false
  else
    match BaseHTTPRequestHandler.parse_request env
            SimpleHTTPRequestHandler.server_version
            start_server.MyHTTPRequestHandler.end_headers
            (with_request_line line more) with
    | Return ok _ => negb ok
    | Raise _ _ => false
    end.

(** A response that opens with a status line carrying a 4xx code. *)
Definition answered_4xx (w : list chunk) : Prop :=
  exists protocol code message lines rest,
    w = HeaderBlock (StatusLine protocol code message :: lines) :: rest
    /\ 400 <= code < 500.

(** ** A concrete kernel, file system and clock

    Used where a statement is evaluated on a concrete run. *)
Module Example.

(** A kernel whose state is the list of the addresses held. *)
Definition held (k : list (string * Z)) (addr : string * Z) : bool :=
  existsb (fun a => String.eqb (fst a) (fst addr) && (snd a =? snd addr)) k.

Definition kernel_bind (k : list (string * Z)) (opts : sockopts)
    (addr : string * Z) : exn + list (string * Z) :=
  if held k addr then inl OSError else inr (addr :: k).

Definition linux : kernel (list (string * Z)) :=
  {| sys_bind := kernel_bind |}.

(** A process started in [/srv/dha] with no address held, and one started
    while 0.0.0.0:5000 is held. *)
Definition fresh : process (list (string * Z)) :=
  {| cwd := "/srv/dha"; kstate := []; stdout := []; trace := [] |}.
Definition late : process (list (string * Z)) :=
  {| cwd := "/srv/dha"; kstate := [("0.0.0.0", 5000)]; stdout := [];
     trace := [] |}.

(** The base directory holds one file, [index.html]. *)
Definition index_html : file :=
  {| contents := "<h1>hi</h1>"; st_size := 11; st_mtime := 1000 |}.

(** Decimal digits to a number, for [int]. *)
Fixpoint digits (s : string) (acc : Z) : option Z :=
  match s with
  | EmptyString => Some acc
  | String c s' =>
      let n := Z.of_N (N_of_ascii c) in
      if (48 <=? n) && (n <=? 57) then digits s' (10 * acc + (n - 48))
      else None
  end.

(** The value of the first line of [hstring] that starts with [name] and
    a colon, for the header look-up. *)
Definition get_header (hstring name : string) : option string :=
  match filter (fun line => Py.startswith line (name ++ ": "))
          (Py.split Py.LF hstring) with
  | line :: _ =>
      Some (Py.rstrip Py.is_crlf
              (posixpath.slice_from line (Py.len name + 2)))
  | [] => None
  end.

Definition env : environment :=
  {| sys_version := "Python/3.11.2";
     time_time := 0;
     formatdate := fun _ => "Thu, 01 Jan 1970 00:00:00 GMT";
     py_repr := fun s => "'" ++ s ++ "'";
     py_int := fun s => if Py.is_empty s then None else digits s 0;
     msg_get := get_header;
     parsedate_to_datetime := fun s =>
       if String.eqb s "Fri, 01 Jan 2100 00:00:00 GMT"
       then Some {| timestamp := 4102444800; tz := TzUTC |}
       else None;
     unquote_surrogatepass := fun s => Some s;
     unquote := fun s => s;
     urlsplit := fun s =>
       Some (EmptyString, EmptyString, s, EmptyString, EmptyString);
     urlunsplit := fun parts =>
       match parts with (_, _, p, _, _) => p end;
     isdir := fun p => String.eqb p "." || String.eqb p "./";
     isfile := fun p => String.eqb p "./index.html";
     open_rb := fun p =>
       if String.eqb p "./index.html" then inr index_html else inl OSError;
     listdir := fun _ => Some ["index.html"];
     getfilesystemencoding := "utf-8";
     listing := fun _ _ _ => "<ul><li>index.html</li></ul>";
     mimetypes_guess_type := fun p =>
       if Py.endswith p ".html" then Some "text/html" else None |}.

(** A request line followed by header lines and the blank line. *)
Definition request (line : string) (headers : list string) : string :=
  line ++ Py.CRLF
  ++ String.concat EmptyString (map (fun l => l ++ Py.CRLF) headers)
  ++ Py.CRLF.

End Example.

(** ** More responses, as written *)

(** The header block that answers a request for a file. *)
Definition file_headers (env : environment) (ctype : string) (f : file)
    : list hline :=
  [StatusLine "HTTP/1.0" 200 "OK";
   Header "Server" (version_string env);
   Header "Date" (BaseHTTPRequestHandler.date_time_string env None);
   Header "Content-type" ctype;
   Header "Content-Length" (Py.str (st_size f));
   Header "Last-Modified"
     (BaseHTTPRequestHandler.date_time_string env (Some (st_mtime f)));
   cors_origin; cors_methods; cors_headers; EndOfHeaders].

(** The header block of the answer 304. *)
Definition not_modified_headers (env : environment) : list hline :=
  [StatusLine "HTTP/1.0" 304 "Not Modified";
   Header "Server" (version_string env);
   Header "Date" (BaseHTTPRequestHandler.date_time_string env None);
   cors_origin; cors_methods; cors_headers; EndOfHeaders].

(** The header block that redirects a directory named without its final
    slash. *)
Definition redirect_headers (env : environment) (location : string)
    : list hline :=
  [StatusLine "HTTP/1.0" 301 "Moved Permanently";
   Header "Server" (version_string env);
   Header "Date" (BaseHTTPRequestHandler.date_time_string env None);
   Header "Location" location;
   Header "Content-Length" "0";
   cors_origin; cors_methods; cors_headers; EndOfHeaders].

(** The message of the answer 501. *)
Definition unsupported_method (env : environment) (method : string) : string :=
  "Unsupported method (" ++ py_repr env method ++ ")".

(** The handler as [handle] passes it to the first [handle_one_request]. *)
Definition accepted (request : string) : handler :=
  set_close_connection true
    (start_server.MyHTTPRequestHandler.setup start_server.DIRECTORY request).

(** The request line [handle_one_request] reads: the first line of what
    the client sends, cut at 65537 bytes. *)
Definition request_line (request : string) : string :=
  fst (Py.readline request 65537).

(** An HTTP/0.9 request: the request line is within the length limit and
    is the two words [GET] and a target, and the header lines that follow
    are within their limits; [hstring] is the text of the headers. *)
Definition simple_request (request target hstring : string) : Prop :=
  exists line more lines rest,
    Py.readline request 65537 = (line, more)
    /\ Py.len line <= 65536
    /\ Py.split_ws (Py.rstrip Py.is_crlf line) = ["GET"; target]
    /\ BaseHTTPRequestHandler._read_headers
         BaseHTTPRequestHandler._MAXHEADERS more [] = (inr lines, rest)
    /\ hstring = String.concat EmptyString lines.

(** ** A file system on which [open] raises [ValueError]

    [open] refuses a path with a NUL character before it asks the
    operating system. *)
Module Edge.

Definition env : environment :=
  {| sys_version := sys_version Example.env;
     time_time := time_time Example.env;
     formatdate := formatdate Example.env;
     py_repr := py_repr Example.env;
     py_int := py_int Example.env;
     msg_get := msg_get Example.env;
     parsedate_to_datetime := parsedate_to_datetime Example.env;
     unquote_surrogatepass := unquote_surrogatepass Example.env;
     unquote := unquote Example.env;
     urlsplit := urlsplit Example.env;
     urlunsplit := urlunsplit Example.env;
     isdir := isdir Example.env;
     isfile := isfile Example.env;
     open_rb := fun p =>
       if contains "000" p then inl ValueError else open_rb Example.env p;
     listdir := listdir Example.env;
     getfilesystemencoding := getfilesystemencoding Example.env;
     listing := listing Example.env;
     mimetypes_guess_type := mimetypes_guess_type Example.env |}.

(** The target [/] followed by a NUL character. *)
Definition nul_target : string := String "/" (String "000" EmptyString).

(** A request line of 65537 bytes, without the end of the line. *)
Definition long_line : string := posixpath.repeat_char "a" (Z.to_nat 65537).

End Edge.

(** The exceptions the handlers of a run raised, in order. *)
Definition raised (handler_class : string -> outcome unit)
    (connections : list string) : list exn :=
  flat_map (fun request =>
              match handler_class request with
              | Return _ _ => []
              | Raise e _ => [e]
              end) connections.

(** ** The flag [close_connection] *)

(** [m], when it returns, leaves [close_connection] set. *)
Definition closes {A} (m : M A) : Prop :=
  forall h a h', m h = Return a h' -> close_connection h' = true.

(** [m], when it returns from a handler with [close_connection] set,
    leaves it set. *)
Definition stays_closed {A} (m : M A) : Prop :=
  forall h a h',
    close_connection h = true -> m h = Return a h' ->
    close_connection h' = true.

(** ** The parts of a request target *)

(** The text before the first [sep], all of it when there is none:
    [s.split(sep, 1)[0]]. *)
Definition before (sep : ascii) (s : string) : string :=
  nth 0 (Py.split1 sep s) EmptyString.

(** ** Directories *)

(** The index page [send_head] serves for a directory: the first of
    [index.html] and [index.htm] that is a file. *)
Definition index_of (env : environment) (path : string) : option string :=
  if isfile env (posixpath.join2 path "index.html")
  then Some (posixpath.join2 path "index.html")
  else if isfile env (posixpath.join2 path "index.htm")
  then Some (posixpath.join2 path "index.htm")
  else None.

(** The header block that answers a request for a directory without an
    index page; [page] is the listing, encoded. *)
Definition listing_headers (env : environment) (page : string) : list hline :=
  [StatusLine "HTTP/1.0" 200 "OK";
   Header "Server" (version_string env);
   Header "Date" (BaseHTTPRequestHandler.date_time_string env None);
   Header "Content-type" ("text/html; charset=" ++ getfilesystemencoding env);
   Header "Content-Length" (Py.str (Py.len page));
   cors_origin; cors_methods; cors_headers; EndOfHeaders].

(** ** Header lines beyond the limits *)

(** Message and explanation of the answer 431, for each of the two
    errors of [_read_headers]. *)
Definition overflow_message (e : BaseHTTPRequestHandler.header_error) : string :=
  match e with
  | BaseHTTPRequestHandler.LineTooLong => "Line too long"
  | BaseHTTPRequestHandler.TooManyHeaders => "Too many headers"
  end.

Definition overflow_explain (e : BaseHTTPRequestHandler.header_error) : string :=
  match e with
  | BaseHTTPRequestHandler.LineTooLong =>
      "got more than 65536 bytes when reading header line"
  | BaseHTTPRequestHandler.TooManyHeaders => "got more than 100 headers"
  end.

(** A request with a request line as in [http1_request], followed by
    header lines that [_read_headers] refuses with [e]. *)
Definition header_overflow (env : environment) (request method target : string)
    (e : BaseHTTPRequestHandler.header_error) : Prop :=
  exists line more version base number rest,
    Py.readline request 65537 = (line, more)
    /\ Py.len line <= 65536
    /\ Py.split_ws (Py.rstrip Py.is_crlf line) = [method; target; version]
    /\ BaseHTTPRequestHandler.parse_version env version = Some (base, number)
    /\ BaseHTTPRequestHandler.tuple_ge number (2, 0) = false
    /\ String.eqb version "HTTP/0.9" = false
    /\ BaseHTTPRequestHandler._read_headers
         BaseHTTPRequestHandler._MAXHEADERS more [] = (inl e, rest).

(** ** A base directory with sub-directories

    Beside [index.html] the base directory holds [docs], a directory with
    one file and no index page, and [locked], a directory that cannot be
    listed. *)
Module Tree.

Definition env : environment :=
  {| sys_version := sys_version Example.env;
     time_time := time_time Example.env;
     formatdate := formatdate Example.env;
     py_repr := py_repr Example.env;
     py_int := py_int Example.env;
     msg_get := msg_get Example.env;
     parsedate_to_datetime := parsedate_to_datetime Example.env;
     unquote_surrogatepass := unquote_surrogatepass Example.env;
     unquote := unquote Example.env;
     urlsplit := urlsplit Example.env;
     urlunsplit := urlunsplit Example.env;
     isdir := fun p =>
       existsb (String.eqb p)
         ["."; "./"; "./docs"; "./docs/"; "./locked"; "./locked/"];
     isfile := isfile Example.env;
     open_rb := open_rb Example.env;
     listdir := fun p =>
       if String.eqb p "./docs/" then Some ["notes.txt"] else None;
     getfilesystemencoding := getfilesystemencoding Example.env;
     listing := fun _ _ entries =>
       "<ul>"
       ++ String.concat EmptyString (map (fun n => "<li>" ++ n ++ "</li>") entries)
       ++ "</ul>";
     mimetypes_guess_type := mimetypes_guess_type Example.env |}.

(** A request line followed by 101 header lines. *)
Definition crowded : string :=
  "GET /index.html HTTP/1.0" ++ Py.CRLF
  ++ String.concat EmptyString (repeat ("X-Pad: 0" ++ Py.CRLF) 101).

End Tree.

(** ** Targets made of names *)

(** The target [/w1/w2/.../wn]; [under words] is [.] followed by it. *)
Definition descend (words : list string) : string :=
  String.concat EmptyString (map (fun w => "/" ++ w) words).

(** * Theorems *)

Section Preserves.
Variable I : handler -> Prop.

Lemma preserves_ret {A} (a : A) : preserves I (ret a).
Proof. intros h H; exact H. Qed.

Lemma preserves_raise {A} (e : exn) : preserves I (@raise A e).
Proof. intros h H; exact H. Qed.

Lemma preserves_bind {A B} (m : M A) (k : A -> M B) :
  preserves I m -> (forall a, preserves I (k a)) -> preserves I (bind m k).
Proof.
  intros Hm Hk h Hh. unfold bind.
  specialize (Hm h Hh). destruct (m h) as [a h'|e h']; simpl in Hm.
  - apply Hk, Hm.
  - exact Hm.
Qed.

Lemma preserves_bind_get {B} (k : handler -> M B) :
  (forall h0, I h0 -> preserves I (k h0)) -> preserves I (bind get k).
Proof. intros Hk h Hh. unfold bind, get. apply (Hk h Hh h Hh). Qed.

Lemma preserves_bind_val {A B} (m : M A) (k : A -> M B) (Q : A -> Prop) :
  preserves I m -> yields m Q -> (forall a, Q a -> preserves I (k a)) ->
  preserves I (bind m k).
Proof.
  intros Hm HQ Hk h Hh. unfold bind.
  specialize (Hm h Hh). specialize (HQ h).
  destruct (m h) as [a h'|e h']; simpl in Hm.
  - apply Hk; [ now apply (HQ a h') | exact Hm ].
  - exact Hm.
Qed.

End Preserves.

Lemma yields_ret {A} (a : A) (Q : A -> Prop) : Q a -> yields (ret a) Q.
Proof. intros Ha h a' h' E. injection E as <- _. exact Ha. Qed.

Lemma yields_raise {A} (e : exn) (Q : A -> Prop) : yields (raise e) Q.
Proof. intros h a' h' E. discriminate E. Qed.

Lemma yields_bind {A B} (m : M A) (k : A -> M B) (Q : B -> Prop) :
  (forall a, yields (k a) Q) -> yields (bind m k) Q.
Proof.
  intros Hk h b h' E. unfold bind in E.
  destruct (m h) as [a h1|e h1]; [ | discriminate E ].
  exact (Hk a h1 b h' E).
Qed.

Ltac pres_step :=
  match goal with
  | |- preserves _ (bind get _) => apply preserves_bind_get; intros ? ?
  | |- preserves _ (bind _ _) => apply preserves_bind; [ | intros ? ]
  | |- preserves _ (ret _) => apply preserves_ret
  | |- preserves _ (raise _) => apply preserves_raise
  | |- preserves _ (if ?b then _ else _) => destruct b
  | |- preserves _ (match ?x with _ => _ end) => destruct x
  end.

(** ** An invariant carried through every inherited method

    The invariant may depend on what was written, on the header buffer, on
    the paths opened and on [directory]; it must survive the buffering of
    an inherited line, the writing of a body, the recording of a served
    path, and the override of [end_headers]. *)
Section Inherited.

Variable env : environment.
Variable I : handler -> Prop.

Hypothesis I_ext : forall h h',
  wfile h' = wfile h -> _headers_buffer h' = _headers_buffer h ->
  opened h' = opened h -> directory h' = directory h -> I h -> I h'.
Hypothesis I_push : forall l h, inherited l = true -> I h -> I (push l h).
Hypothesis I_body : forall d h, I h -> I (set_wfile (wfile h ++ [Body d])%list h).
Hypothesis I_touch : forall h q p,
  served_path env (directory h) q p -> I h ->
  I (set_opened (opened h ++ [p])%list h).
Hypothesis I_dir : forall h, I h -> directory h = start_server.DIRECTORY.
Hypothesis I_end_headers :
  preserves I start_server.MyHTTPRequestHandler.end_headers.

Let end_headers := start_server.MyHTTPRequestHandler.end_headers.
Let server_version := SimpleHTTPRequestHandler.server_version.

Lemma keeps_modify (f : handler -> handler) :
  (forall h, wfile (f h) = wfile h /\ _headers_buffer (f h) = _headers_buffer h
             /\ opened (f h) = opened h /\ directory (f h) = directory h) ->
  preserves I (modify f).
Proof.
  intros Hf h Hh. simpl. destruct (Hf h) as (H1 & H2 & H3 & H4).
  now apply (I_ext h).
Qed.

Ltac frame := apply keeps_modify; intro; repeat split; reflexivity.

Ltac pres := repeat (first [ pres_step | frame ]).

Lemma keeps_push (l : hline) :
  inherited l = true -> preserves I (modify (push l)).
Proof. intros Hl h Hh. simpl. now apply I_push. Qed.

Lemma keeps_write_body (d : string) : preserves I (write (Body d)).
Proof. intros h Hh. simpl. now apply I_body. Qed.

Lemma keeps_log_request (code : Z) :
  preserves I (BaseHTTPRequestHandler.log_request code).
Proof. unfold BaseHTTPRequestHandler.log_request. frame. Qed.

Lemma keeps_log_error (code : Z) (message : string) :
  preserves I (BaseHTTPRequestHandler.log_error code message).
Proof. unfold BaseHTTPRequestHandler.log_error. frame. Qed.

Lemma keeps_send_response_only (code : Z) (message : option string) :
  preserves I (BaseHTTPRequestHandler.send_response_only code message).
Proof.
  unfold BaseHTTPRequestHandler.send_response_only. pres.
  apply (keeps_push (StatusLine _ _ _)). reflexivity.
Qed.

Lemma keeps_send_header (keyword value : string) :
  inherited (Header keyword value) = true ->
  preserves I (BaseHTTPRequestHandler.send_header keyword value).
Proof.
  intro Hk. unfold BaseHTTPRequestHandler.send_header. pres.
  now apply (keeps_push (Header keyword value)).
Qed.

Lemma keeps_send_response (code : Z) (message : option string) :
  preserves I (BaseHTTPRequestHandler.send_response env server_version code message).
Proof.
  unfold BaseHTTPRequestHandler.send_response.
  repeat (apply preserves_bind; [ | intros _ ]).
  - apply keeps_log_request.
  - apply keeps_send_response_only.
  - now apply keeps_send_header.
  - now apply keeps_send_header.
Qed.

Lemma keeps_send_error (code : Z) (message explain : option string) :
  preserves I
    (BaseHTTPRequestHandler.send_error env server_version end_headers
       code message explain).
Proof.
  unfold BaseHTTPRequestHandler.send_error.
  destruct (BaseHTTPRequestHandler.orelse _ _) as [shortmsg longmsg].
  apply preserves_bind; [ apply keeps_log_error | intros _ ].
  apply preserves_bind; [ apply keeps_send_response | intros _ ].
  apply preserves_bind; [ now apply keeps_send_header | intros _ ].
  apply preserves_bind.
  - destruct (_ && _).
    + apply preserves_bind; [ now apply keeps_send_header | intros _ ].
      apply preserves_bind; [ now apply keeps_send_header | intros _ ].
      apply preserves_ret.
    + apply preserves_ret.
  - intros body.
    apply preserves_bind; [ exact I_end_headers | intros _ ].
    apply preserves_bind_get; intros h0 _.
    destruct body as [body|]; [ | apply preserves_ret ].
    destruct (_ && _); [ apply keeps_write_body | apply preserves_ret ].
Qed.

Lemma keeps_handle_expect_100 :
  preserves I (BaseHTTPRequestHandler.handle_expect_100 end_headers).
Proof.
  unfold BaseHTTPRequestHandler.handle_expect_100.
  apply preserves_bind; [ apply keeps_send_response_only | intros _ ].
  apply preserves_bind; [ exact I_end_headers | intros _ ].
  apply preserves_ret.
Qed.

Ltac inherited_step :=
  first
    [ apply keeps_send_error
    | apply keeps_send_response
    | apply keeps_handle_expect_100
    | apply keeps_send_header; reflexivity
    | exact I_end_headers
    | apply keeps_write_body
    | pres_step
    | frame ].

Lemma keeps_parse_request :
  preserves I
    (BaseHTTPRequestHandler.parse_request env server_version end_headers).
Proof.
  unfold BaseHTTPRequestHandler.parse_request.
  repeat inherited_step.
Qed.

Lemma keeps_touch (q p : string) :
  served_path env start_server.DIRECTORY q p ->
  preserves I (SimpleHTTPRequestHandler.touch p).
Proof.
  intros Hp h Hh. simpl.
  apply I_touch with (q := q); [ now rewrite (I_dir h Hh) | exact Hh ].
Qed.

Lemma keeps_list_directory (q p : string) :
  served_path env start_server.DIRECTORY q p ->
  preserves I (SimpleHTTPRequestHandler.list_directory env end_headers p).
Proof.
  intro Hp. unfold SimpleHTTPRequestHandler.list_directory.
  apply preserves_bind; [ now apply keeps_touch with (q := q) | intros _ ].
  unfold SimpleHTTPRequestHandler.send_error,
    SimpleHTTPRequestHandler.send_response.
  repeat inherited_step.
Qed.

Lemma keeps_send_head :
  preserves I (SimpleHTTPRequestHandler.send_head env end_headers).
Proof.
  unfold SimpleHTTPRequestHandler.send_head.
  apply preserves_bind_get; intros h0 Hh0.
  rewrite (I_dir h0 Hh0).
  set (q := self_path h0).
  set (t := SimpleHTTPRequestHandler.translate_path env start_server.DIRECTORY q).
  assert (Ht : served_path env start_server.DIRECTORY q t)
    by (left; reflexivity).
  assert (Hi1 : served_path env start_server.DIRECTORY q
                  (posixpath.join2 t "index.html"))
    by (right; left; reflexivity).
  assert (Hi2 : served_path env start_server.DIRECTORY q
                  (posixpath.join2 t "index.htm"))
    by (right; right; reflexivity).
  apply preserves_bind_val with
    (Q := fun r => match r with
                   | inl _ => True
                   | inr p => served_path env start_server.DIRECTORY q p
                   end).
  - unfold SimpleHTTPRequestHandler.send_response.
    destruct (isdir env t); [ | apply preserves_ret ].
    destruct (urlsplit env q) as [[[[[scheme netloc] ppath] query] fragment]|];
      [ | apply preserves_raise ].
    destruct (negb _); [ repeat inherited_step | ].
    destruct (isfile env _); [ apply preserves_ret | ].
    destruct (isfile env _); [ apply preserves_ret | ].
    apply preserves_bind; [ now apply keeps_list_directory with (q := q) | ].
    intros f. apply preserves_ret.
  - destruct (isdir env t); [ | now apply yields_ret ].
    destruct (urlsplit env q) as [[[[[scheme netloc] ppath] query] fragment]|];
      [ | apply yields_raise ].
    destruct (negb _).
    + repeat (apply yields_bind; intros ?). now apply yields_ret.
    + destruct (isfile env _); [ now apply yields_ret | ].
      destruct (isfile env _); [ now apply yields_ret | ].
      apply yields_bind; intros f. now apply yields_ret.
  - intros [result|p] Hp; [ apply preserves_ret | ].
    unfold SimpleHTTPRequestHandler.send_error,
      SimpleHTTPRequestHandler.send_response.
    destruct (Py.endswith p "/"); [ repeat inherited_step | ].
    apply preserves_bind; [ now apply keeps_touch with (q := q) | intros _ ].
    destruct (open_rb env p) as [[| |]|f]; repeat inherited_step.
Qed.

Lemma keeps_do_method (mname : string) (method : M unit) :
  SimpleHTTPRequestHandler.do_method env end_headers mname = Some method ->
  preserves I method.
Proof.
  unfold SimpleHTTPRequestHandler.do_method.
  destruct (String.eqb mname "do_GET").
  - intros [= <-]. unfold SimpleHTTPRequestHandler.do_GET.
    apply preserves_bind; [ apply keeps_send_head | ].
    intros [f|]; [ apply keeps_write_body | apply preserves_ret ].
  - destruct (String.eqb mname "do_HEAD"); [ | discriminate ].
    intros [= <-]. unfold SimpleHTTPRequestHandler.do_HEAD.
    apply preserves_bind; [ apply keeps_send_head | ].
    intros f. apply preserves_ret.
Qed.

Lemma keeps_handle_one_request :
  preserves I (start_server.MyHTTPRequestHandler.handle_one_request env).
Proof.
  unfold start_server.MyHTTPRequestHandler.handle_one_request,
    BaseHTTPRequestHandler.handle_one_request.
  apply preserves_bind_get; intros h0 _.
  destruct (Py.readline _ _) as [line rest].
  apply preserves_bind; [ frame | intros _ ].
  apply preserves_bind; [ frame | intros _ ].
  destruct (_ <? _); [ repeat inherited_step | ].
  destruct (Py.is_empty line); [ frame | ].
  apply preserves_bind; [ apply keeps_parse_request | intros ok ].
  destruct (negb ok); [ apply preserves_ret | ].
  apply preserves_bind_get; intros h1 _.
  destruct (start_server.MyHTTPRequestHandler.do_method env _) as [method|] eqn:E.
  - exact (keeps_do_method _ _ E).
  - apply keeps_send_error.
Qed.

Lemma keeps_handle_loop (turns : nat) :
  preserves I
    (BaseHTTPRequestHandler.handle_loop env server_version end_headers
       (start_server.MyHTTPRequestHandler.do_method env) turns).
Proof.
  induction turns as [|turns IH]; simpl.
  - apply preserves_bind_get; intros h0 _.
    destruct (close_connection h0); apply preserves_ret.
  - apply preserves_bind_get; intros h0 _.
    destruct (close_connection h0); [ apply preserves_ret | ].
    apply preserves_bind; [ apply keeps_handle_one_request | intros _ ].
    exact IH.
Qed.

Lemma keeps_handle :
  preserves I (start_server.MyHTTPRequestHandler.handle env).
Proof.
  unfold start_server.MyHTTPRequestHandler.handle, BaseHTTPRequestHandler.handle.
  apply preserves_bind; [ frame | intros _ ].
  apply preserves_bind; [ apply keeps_handle_one_request | intros _ ].
  apply preserves_bind_get; intros h0 _.
  apply keeps_handle_loop.
Qed.

(** The invariant holds of what a connection leaves behind if it holds of
    the fresh instance. *)
Lemma keeps_connection (request : string) :
  I (start_server.MyHTTPRequestHandler.setup start_server.DIRECTORY request) ->
  I (final (start_server.MyHTTPRequestHandler.__init__ env request)).
Proof. intro H. now apply keeps_handle. Qed.

End Inherited.

(** ** What the loop of the server keeps *)
Section Serve.
Context {K : Type}.
Variable api : kernel K.
Variable env : environment.

Let handler_class := start_server.MyHTTPRequestHandler.__init__ env.

Lemma noblock_served (request : string) (srv : TCPServer.server) (p : process K) :
  TCPServer.served (fst (TCPServer._handle_request_noblock handler_class request srv p))
  = (TCPServer.served srv ++ [wfile (final (handler_class request))])%list.
Proof.
  unfold TCPServer._handle_request_noblock.
  destruct (handler_class request); reflexivity.
Qed.

Lemma noblock_flag (request : string) (srv : TCPServer.server) (p : process K) :
  TCPServer.__shutdown_request
    (fst (TCPServer._handle_request_noblock handler_class request srv p))
  = TCPServer.__shutdown_request srv.
Proof.
  unfold TCPServer._handle_request_noblock.
  destruct (handler_class request); reflexivity.
Qed.

(** The connections are handled one after the other, each by a fresh
    handler, and the loop is not left. *)
Lemma serve_forever_served (connections : list string) :
  forall (srv : TCPServer.server) (p : process K),
  TCPServer.__shutdown_request srv = false ->
  exists srv' p',
    TCPServer.serve_forever handler_class connections srv p = (false, srv', p')
    /\ TCPServer.__shutdown_request srv' = false
    /\ TCPServer.served srv'
       = (TCPServer.served srv
          ++ map (fun request => wfile (final (handler_class request)))
               connections)%list.
Proof.
  induction connections as [|request rest IH]; intros srv p Hflag; simpl.
  - rewrite Hflag. exists srv, p. now rewrite app_nil_r.
  - rewrite Hflag.
    pose proof (noblock_served request srv p) as Hs.
    pose proof (noblock_flag request srv p) as Hf.
    destruct (TCPServer._handle_request_noblock handler_class request srv p)
      as [srv1 p1]; simpl in Hs, Hf.
    destruct (IH srv1 p1) as (srv' & p' & E & F & S);
      [ now rewrite Hf | ].
    exists srv', p'. repeat split; trivial.
    rewrite S, Hs, <- app_assoc. reflexivity.
Qed.


End Serve.

(** ** The override of [end_headers] *)

(** With a request version other than HTTP/0.9 the override writes one
    header block: what was buffered, the three headers, the blank line. *)
Lemma end_headers_writes (h : handler) :
  String.eqb (request_version h) "HTTP/0.9" = false ->
  exists h',
    start_server.MyHTTPRequestHandler.end_headers h = Return tt h'
    /\ wfile h'
       = (wfile h ++
          [HeaderBlock
             (BaseHTTPRequestHandler.orelse (_headers_buffer h) [] ++
              [cors_origin; cors_methods; cors_headers; EndOfHeaders])])%list
    /\ _headers_buffer h' = Some []
    /\ opened h' = opened h /\ directory h' = directory h
    /\ request_version h' = request_version h
    /\ close_connection h' = close_connection h
    /\ command h' = command h /\ stderr h' = stderr h.
Proof.
  intro E.
  unfold start_server.MyHTTPRequestHandler.end_headers,
    BaseHTTPRequestHandler.send_header, BaseHTTPRequestHandler.end_headers,
    BaseHTTPRequestHandler.flush_headers, write, bind, get, modify, ret.
  simpl. rewrite E. simpl. rewrite E. simpl. rewrite E. simpl. rewrite E. simpl.
  eexists. split; [ reflexivity | ]. simpl.
  repeat rewrite <- app_assoc. simpl. repeat split; reflexivity.
Qed.

(** With request version HTTP/0.9 it writes nothing and changes nothing. *)
Lemma end_headers_silent (h : handler) :
  String.eqb (request_version h) "HTTP/0.9" = true ->
  start_server.MyHTTPRequestHandler.end_headers h = Return tt h.
Proof.
  intro E.
  unfold start_server.MyHTTPRequestHandler.end_headers,
    BaseHTTPRequestHandler.send_header, BaseHTTPRequestHandler.end_headers,
    bind, get, modify, ret.
  simpl. repeat (rewrite E; simpl). reflexivity.
Qed.

(** ** The three headers on every response *)




(** ** Each of the three headers once *)







(** ** Path resolution stays inside the base directory *)

Lemma endswith_last_char (s : string) (c : ascii) :
  Py.endswith s (String c EmptyString) = true <-> last_char s = Some c.
Proof.
  induction s as [|a s IH]; simpl.
  - split; discriminate.
  - destruct s as [|b s'].
    + destruct (Ascii.eqb_spec a c) as [->|Hne]; simpl.
      * now split.
      * split; [ discriminate | intros [= E]; contradiction ].
    + destruct (Ascii.eqb a c); simpl in *; exact IH.
Qed.

Lemma last_char_append (a b : string) :
  b <> EmptyString -> last_char (a ++ b) = last_char b.
Proof.
  intro Hb. induction a as [|c a IH]; simpl; [ reflexivity | ].
  destruct (a ++ b) eqn:E; [ | exact IH ].
  destruct a; simpl in E; [ contradiction | discriminate E ].
Qed.

Lemma last_char_contains (s : string) (c : ascii) :
  last_char s = Some c -> contains c s = true.
Proof.
  induction s as [|a s IH]; simpl; [ discriminate | ].
  destruct s as [|b s'].
  - intros [= ->]. now rewrite Ascii.eqb_refl.
  - intro H. rewrite (IH H). apply orb_true_r.
Qed.

Lemma contains_snoc (c : ascii) (s : string) (a : ascii) :
  contains c (Py.snoc s a) = contains c s || Ascii.eqb a c.
Proof.
  unfold Py.snoc. induction s as [|b s IH]; simpl.
  - now rewrite orb_false_r.
  - now rewrite IH, orb_assoc.
Qed.

(** No word of [s.split(sep)] contains the separator. *)
Lemma split_from_no_sep (sep : ascii) (s word : string) :
  contains sep word = false ->
  Forall (fun w => contains sep w = false) (Py.split_from sep s word).
Proof.
  revert word. induction s as [|c s IH]; intros word Hw; simpl.
  - now constructor.
  - destruct (Ascii.eqb c sep) eqn:E.
    + constructor; [ exact Hw | now apply IH ].
    + apply IH. now rewrite contains_snoc, Hw, E.
Qed.

Lemma simple_name_facts (w : string) :
  simple_name w = true ->
  w <> EmptyString /\ Py.startswith w "/" = false
  /\ last_char w <> Some "/"%char.
Proof.
  unfold simple_name. intro H.
  repeat (apply andb_true_iff in H; destruct H as [H ?]).
  rewrite negb_true_iff in *.
  repeat split.
  - intros ->. discriminate.
  - destruct w as [|a w]; [ reflexivity | ].
    unfold Py.startswith.
    change (prefix "/" (String a w))
      with (if Ascii.ascii_dec "/" a then prefix EmptyString w else false).
    destruct (Ascii.ascii_dec "/" a) as [<-|Hne]; [ | reflexivity ].
    simpl in H0. discriminate H0.
  - intro L. apply last_char_contains in L. congruence.
Qed.

Lemma append_empty_r (s : string) : s ++ EmptyString = s.
Proof. induction s as [|c s IH]; simpl; [ reflexivity | now rewrite IH ]. Qed.

Lemma append_associative (a b c : string) : (a ++ b) ++ c = a ++ (b ++ c).
Proof. induction a as [|x a IH]; simpl; [ reflexivity | now rewrite IH ]. Qed.

Lemma concat_empty_cons (x : string) (xs : list string) :
  String.concat EmptyString (x :: xs) = x ++ String.concat EmptyString xs.
Proof.
  destruct xs as [|y ys]; simpl; [ now rewrite append_empty_r | reflexivity ].
Qed.

Lemma concat_empty_app (xs ys : list string) :
  String.concat EmptyString (xs ++ ys)
  = String.concat EmptyString xs ++ String.concat EmptyString ys.
Proof.
  induction xs as [|x xs IH]; [ reflexivity | ].
  change ((x :: xs) ++ ys)%list with (x :: (xs ++ ys))%list.
  now rewrite !concat_empty_cons, IH, append_associative.
Qed.

Lemma under_snoc (ws : list string) (w : string) :
  under (ws ++ [w]) = under ws ++ "/" ++ w.
Proof.
  unfold under. rewrite map_app, concat_empty_app. simpl map.
  rewrite concat_empty_cons. simpl String.concat.
  rewrite append_empty_r, append_associative. reflexivity.
Qed.

Lemma under_last_char (ws : list string) :
  Forall (fun w => simple_name w = true) ws ->
  last_char (under ws) <> Some "/"%char.
Proof.
  destruct ws as [|v vs] using rev_ind; intro H.
  - discriminate.
  - apply Forall_app in H. destruct H as [_ H]. inversion_clear H as [|? ? Hv _].
    destruct (simple_name_facts v Hv) as (Hne & _ & Hl).
    rewrite under_snoc, last_char_append.
    + change ("/" ++ v) with (String "/" v).
      destruct v as [|c v']; [ contradiction | exact Hl ].
    + discriminate.
Qed.

Lemma join2_under (ws : list string) (w : string) :
  Forall (fun w => simple_name w = true) ws -> simple_name w = true ->
  posixpath.join2 (under ws) w = under (ws ++ [w]).
Proof.
  intros Hws Hw. destruct (simple_name_facts w Hw) as (_ & Hs & _).
  unfold posixpath.join2. rewrite Hs.
  change (Py.is_empty (under ws)) with false. rewrite orb_false_l.
  destruct (Py.endswith (under ws) "/") eqn:E.
  - apply endswith_last_char in E. now apply under_last_char in E.
  - now rewrite under_snoc.
Qed.

Lemma join2_under_slash (ws : list string) (w : string) :
  simple_name w = true ->
  posixpath.join2 (under ws ++ "/") w = under (ws ++ [w]).
Proof.
  intros Hw. destruct (simple_name_facts w Hw) as (_ & Hs & _).
  unfold posixpath.join2. rewrite Hs.
  assert (E : Py.endswith (under ws ++ "/") "/" = true).
  { apply endswith_last_char. now rewrite last_char_append. }
  rewrite E, orb_true_r. now rewrite under_snoc, append_associative.
Qed.

(** The loop of [translate_path] over words that are not empty and have
    no slash: the components [.] and [..] are dropped and the others are
    appended. *)
Lemma fold_translate_step (words : list string) :
  Forall (fun w => Py.is_empty w = false /\ contains "/" w = false) words ->
  forall vs, Forall (fun w => simple_name w = true) vs ->
  exists us, Forall (fun w => simple_name w = true) us
    /\ fold_left SimpleHTTPRequestHandler.translate_step words (under vs)
       = under us.
Proof.
  induction 1 as [|w words [Hne Hns] _ IH]; intros vs Hvs; simpl.
  - now exists vs.
  - unfold SimpleHTTPRequestHandler.translate_step at 2.
    destruct (SimpleHTTPRequestHandler.ignored w) eqn:E.
    + now apply IH.
    + assert (Hw : simple_name w = true).
      { unfold SimpleHTTPRequestHandler.ignored in E.
        apply orb_false_iff in E. destruct E as [E E2].
        apply orb_false_iff in E. destruct E as [_ E1].
        unfold simple_name. now rewrite Hne, E1, E2, Hns. }
      rewrite join2_under by assumption.
      apply IH. apply Forall_app. split; [ exact Hvs | now constructor ].
Qed.

Lemma translate_path_inside (env : environment) (q : string) :
  inside (SimpleHTTPRequestHandler.translate_path env start_server.DIRECTORY q).
Proof.
  unfold SimpleHTTPRequestHandler.translate_path.
  match goal with
  | |- context [ filter ?f (Py.split "/" ?s) ] =>
      set (words := filter f (Py.split "/" s))
  end.
  assert (Hwords : Forall (fun w => Py.is_empty w = false
                                    /\ contains "/" w = false) words).
  { apply Forall_forall. intros w Hw. apply filter_In in Hw.
    destruct Hw as [Hin Hne]. split.
    - now apply negb_true_iff.
    - unfold Py.split in Hin.
      match type of Hin with
      | In _ (Py.split_from _ ?s _) =>
          pose proof (split_from_no_sep "/" s EmptyString eq_refl) as F
      end.
      rewrite Forall_forall in F. exact (F w Hin). }
  destruct (fold_translate_step words Hwords [] (Forall_nil _))
    as (us & Hus & E).
  change (under []) with start_server.DIRECTORY in E.
  exists us. split; [ exact Hus | ].
  rewrite E. destruct (Py.endswith _ "/"); [ now right | now left ].
Qed.

Lemma served_path_inside (env : environment) (q p : string) :
  served_path env start_server.DIRECTORY q p -> inside p.
Proof.
  unfold served_path.
  destruct (translate_path_inside env q) as (us & Hus & Ht).
  assert (Hindex : forall w, simple_name w = true ->
            inside (posixpath.join2
                      (SimpleHTTPRequestHandler.translate_path env
                         start_server.DIRECTORY q) w)).
  { intros w Hw. exists (us ++ [w])%list. split.
    - apply Forall_app. split; [ exact Hus | now constructor ].
    - left. destruct Ht as [-> | ->];
        [ now apply join2_under | now apply join2_under_slash ]. }
  intros [-> | [-> | ->]].
  - now exists us.
  - now apply Hindex.
  - now apply Hindex.
Qed.

Lemma connection_opens_inside (env : environment) (request : string) :
  Forall inside
    (opened (final (start_server.MyHTTPRequestHandler.__init__ env request))).
Proof.
  apply (keeps_connection env opens_inside).
  - intros h h' _ _ O D [Ho Hd]. split; [ now rewrite O | now rewrite D ].
  - intros l h _ H. exact H.
  - intros d h H. exact H.
  - intros h q p Hp [Ho Hd]. split; [ | exact Hd ].
    simpl. apply Forall_app. split; [ exact Ho | ].
    constructor; [ | constructor ].
    rewrite Hd in Hp. exact (served_path_inside env q p Hp).
  - intros h [_ Hd]. exact Hd.
  - intros h [Ho Hd].
    destruct (String.eqb (request_version h) "HTTP/0.9") eqn:E.
    + rewrite (end_headers_silent h E). now split.
    + destruct (end_headers_writes h E) as (h' & -> & _ & _ & O & D & _).
      simpl. split; [ now rewrite O | now rewrite D ].
  - split; [ constructor | reflexivity ].
Qed.

(** ** The run of the script *)
Section Run.
Context {K : Type}.
Variable api : kernel K.
Variable env : environment.

Let handler_class := start_server.MyHTTPRequestHandler.__init__ env.

Lemma serve_forever_process (connections : list string) :
  forall (srv : TCPServer.server) (p : process K),
  TCPServer.__shutdown_request srv = false ->
  let p' := snd (TCPServer.serve_forever handler_class connections srv p) in
  cwd p' = cwd p /\ kstate p' = kstate p /\ stdout p' = stdout p
  /\ trace p' = (trace p ++ connection_events connections)%list.
Proof.
  induction connections as [|request rest IH]; intros srv p Hflag; simpl.
  - rewrite Hflag. simpl. now rewrite app_nil_r.
  - rewrite Hflag.
    pose proof (noblock_flag env request srv p) as Hf.
    fold handler_class in Hf.
    assert (Hp : snd (TCPServer._handle_request_noblock handler_class request srv p)
                 = TCPServer.shutdown_request (emit SysAccept p)).
    { unfold TCPServer._handle_request_noblock.
      destruct (handler_class request); reflexivity. }
    destruct (TCPServer._handle_request_noblock handler_class request srv p)
      as [srv1 p1]; simpl in Hf, Hp. subst p1.
    destruct (IH srv1 (TCPServer.shutdown_request (emit SysAccept p)))
      as (C & Ks & O & T); [ now rewrite Hf | ].
    cbv zeta. rewrite C, Ks, O, T. simpl.
    repeat split. now rewrite <- !app_assoc.
Qed.

(** The run when [bind] succeeds. *)
Lemma main_bound (connections : list string) (p : process K) (k' : K) :
  sys_bind api (kstate p) bind_options bind_address = inr k' ->
  exists srv p',
    start_server.main api env connections p = (start_server.Serving, Some srv, p')
    /\ TCPServer.served srv
       = map (fun request => wfile (final (handler_class request))) connections
    /\ cwd p' = cwd p /\ kstate p' = k'
    /\ stdout p'
       = (stdout p ++ [start_server.line1; start_server.line2;
                       start_server.line3 (cwd p)])%list
    /\ trace p'
       = (trace p ++ startup_events ++ print_events (cwd p)
          ++ connection_events connections)%list.
Proof.
  intro Hbind.
  unfold start_server.main, TCPServer.__init__, TCPServer.server_bind.
  simpl. unfold bind_options, bind_address in Hbind. simpl in Hbind.
  rewrite Hbind.
  match goal with
  | |- context [ TCPServer.serve_forever ?c connections ?srv ?q ] =>
      remember q as q0 eqn:Hq;
      destruct (serve_forever_served env connections srv q0 eq_refl)
        as (srv' & p' & E & _ & S);
      pose proof (serve_forever_process connections srv q0 eq_refl) as P
  end.
  unfold handler_class in P |- *. rewrite E in P. rewrite E. simpl in P.
  destruct P as (C & Ks & O & T).
  exists srv', p'. simpl in S.
  rewrite C, Ks, O, T, Hq. simpl.
  repeat split; trivial; now rewrite <- !app_assoc.
Qed.

(** The run when [bind] raises. *)
Lemma main_unbound (connections : list string) (p : process K) (e : exn) :
  sys_bind api (kstate p) bind_options bind_address = inl e ->
  exists p',
    start_server.main api env connections p = (start_server.Exited 1, None, p')
    /\ cwd p' = cwd p /\ kstate p' = kstate p /\ stdout p' = stdout p
    /\ trace p'
       = (trace p ++ [SysChdir "."; SysSocket; SysBind "0.0.0.0" 5000;
                      SysClose])%list.
Proof.
  intro Hbind.
  unfold start_server.main, TCPServer.__init__, TCPServer.server_bind.
  simpl. unfold bind_options, bind_address in Hbind. simpl in Hbind.
  rewrite Hbind. eexists. split; [ reflexivity | ].
  simpl. repeat split. now rewrite <- !app_assoc.
Qed.

End Run.

Lemma linux_exclusive : exclusive Example.linux.
Proof.
  intros k opts addr k' opts' Hb _ _. simpl in *.
  unfold Example.kernel_bind in *.
  destruct (Example.held k addr); [ discriminate Hb | ].
  injection Hb as <-. simpl.
  now rewrite String.eqb_refl, Z.eqb_refl.
Qed.

Lemma connection_events_no_chdir (connections : list string) :
  existsb is_chdir (connection_events connections) = false.
Proof. induction connections as [|c cs IH]; simpl; [ reflexivity | exact IH ]. Qed.

(** C5. The script binds 0.0.0.0:5000 and listens; in a kernel that does
    not bind one address twice, a second instance started while the first
    is serving fails at its [bind]: it exits with status 1 after one
    attempt, without listening. *)
Theorem binds_port_5000_and_second_instance_fails :
  forall (K : Type) (api : kernel K) (env : environment)
         (connections : list string) (p : process K)
         (srv : TCPServer.server) (p' : process K),
  exclusive api ->
  start_server.main api env connections p = (start_server.Serving, Some srv, p') ->
  (exists events,
     trace p' = (trace p ++ [SysChdir "."; SysSocket; SysBind "0.0.0.0" 5000;
                             SysListen 5] ++ events)%list)
  /\ forall (env2 : environment) (connections2 : list string) (q : process K),
       kstate q = kstate p' ->
       exists q',
         start_server.main api env2 connections2 q
         = (start_server.Exited 1, None, q')
         /\ trace q' = (trace q ++ [SysChdir "."; SysSocket;
                                    SysBind "0.0.0.0" 5000; SysClose])%list.
Proof.
  intros K api env connections p srv p' Hex Hmain.
  destruct (sys_bind api (kstate p) bind_options bind_address) as [e|k'] eqn:Hb.
  - destruct (main_unbound api env connections p e Hb) as (p1 & E & _).
    rewrite E in Hmain. discriminate Hmain.
  - destruct (main_bound api env connections p k' Hb)
      as (srv1 & p1 & E & _ & _ & Hk & _ & T).
    rewrite E in Hmain. injection Hmain as -> ->.
    split.
    + eexists. rewrite T. reflexivity.
    + intros env2 connections2 q Hq.
      assert (Hb2 : sys_bind api (kstate q) bind_options bind_address
                    = inl OSError).
      { rewrite Hq, Hk. now apply (Hex _ _ _ _ _ Hb). }
      destruct (main_unbound api env2 connections2 q OSError Hb2)
        as (q' & E2 & _ & _ & _ & T2).
      now exists q'.
Qed.

Lemma binds_port_5000_and_second_instance_fails_witness :
  exists q',
    start_server.main Example.linux Example.env []
      {| cwd := "/srv/dha";
         kstate := kstate (snd (start_server.main Example.linux Example.env
                                  [] Example.fresh));
         stdout := []; trace := [] |}
    = (start_server.Exited 1, None, q').
Proof.
  destruct (binds_port_5000_and_second_instance_fails _ Example.linux
              Example.env [] Example.fresh _ _ linux_exclusive eq_refl)
    as [_ H].
  destruct (H Example.env []
              {| cwd := "/srv/dha";
                 kstate := kstate (snd (start_server.main Example.linux
                                          Example.env [] Example.fresh));
                 stdout := []; trace := [] |} eq_refl) as (q' & E & _).
  exists q'. exact E.
Defined.

(** C6. When [bind] raises, the run ends with exit status 1: nothing is
    printed, and the events are one [chdir], one [socket], the one [bind]
    to 0.0.0.0:5000 and the [close] of the socket, so there is neither a
    second attempt nor another port. *)
Theorem bind_failure_is_fatal :
  forall (K : Type) (api : kernel K) (env : environment)
         (connections : list string) (p : process K) (e : exn),
  sys_bind api (kstate p) bind_options bind_address = inl e ->
  exists p',
    start_server.main api env connections p = (start_server.Exited 1, None, p')
    /\ stdout p' = stdout p
    /\ trace p' = (trace p ++ [SysChdir "."; SysSocket;
                               SysBind "0.0.0.0" 5000; SysClose])%list.
Proof.
  intros K api env connections p e Hb.
  destruct (main_unbound api env connections p e Hb)
    as (p' & E & _ & _ & O & T).
  now exists p'.
Qed.

Lemma bind_failure_is_fatal_witness :
  exists p',
    start_server.main Example.linux Example.env [] Example.late
    = (start_server.Exited 1, None, p')
    /\ stdout p' = []
    /\ trace p' = [SysChdir "."; SysSocket; SysBind "0.0.0.0" 5000; SysClose].
Proof.
  exact (bind_failure_is_fatal _ Example.linux Example.env [] Example.late
           OSError eq_refl).
Defined.

(** C7. When [bind] succeeds the run prints exactly three lines, in this
    order: the server URL, the navigation hint, and the working directory;
    the three prints come after [listen] and before the first [accept],
    and however many connections arrive the run is still serving, each
    connection handled in turn. *)
Theorem three_startup_lines_then_serve_forever :
  forall (K : Type) (api : kernel K) (env : environment)
         (connections : list string) (p : process K) (k' : K),
  sys_bind api (kstate p) bind_options bind_address = inr k' ->
  exists srv p',
    start_server.main api env connections p = (start_server.Serving, Some srv, p')
    /\ stdout p'
       = (stdout p ++
          ["✅ DHA Document Generator Server running at http://localhost:5000";
           "📄 Navigate to http://localhost:5000 in your browser";
           ("📁 Serving files from: " ++ cwd p)%string])%list
    /\ trace p'
       = (trace p ++ startup_events ++ print_events (cwd p)
          ++ connection_events connections)%list
    /\ length (TCPServer.served srv) = length connections.
Proof.
  intros K api env connections p k' Hb.
  destruct (main_bound api env connections p k' Hb)
    as (srv & p' & E & S & _ & _ & O & T).
  exists srv, p'. repeat split; trivial.
  rewrite S. apply length_map.
Qed.

Lemma three_startup_lines_then_serve_forever_witness :
  exists srv p',
    start_server.main Example.linux Example.env
      [Example.request "GET /index.html HTTP/1.0" []] Example.fresh
    = (start_server.Serving, Some srv, p')
    /\ stdout p'
       = ["✅ DHA Document Generator Server running at http://localhost:5000";
          "📄 Navigate to http://localhost:5000 in your browser";
          "📁 Serving files from: /srv/dha"]
    /\ trace p'
       = [SysChdir "."; SysSocket; SysBind "0.0.0.0" 5000; SysListen 5;
          Print "✅ DHA Document Generator Server running at http://localhost:5000";
          Print "📄 Navigate to http://localhost:5000 in your browser";
          Print "📁 Serving files from: /srv/dha";
          SysAccept; SysShutdown; SysClose]
    /\ length (TCPServer.served srv) = 1%nat.
Proof.
  exact (three_startup_lines_then_serve_forever _ Example.linux Example.env
           [Example.request "GET /index.html HTTP/1.0" []] Example.fresh
           [("0.0.0.0", 5000)] eq_refl).
Defined.

(** C8. The first event of a run is [chdir] to the base directory ["."],
    which leaves the working directory what it was; the [bind] comes
    after it, and there is no other [chdir], whether the bind succeeds or
    not and whatever connections are served. *)
Theorem chdir_once_before_bind :
  forall (K : Type) (api : kernel K) (env : environment)
         (connections : list string) (p : process K),
  let p' := snd (start_server.main api env connections p) in
  cwd p' = cwd p
  /\ exists rest,
       trace p' = (trace p ++ SysChdir start_server.DIRECTORY :: rest)%list
       /\ existsb is_chdir rest = false
       /\ existsb is_bind rest = true.
Proof.
  intros K api env connections p.
  destruct (sys_bind api (kstate p) bind_options bind_address) as [e|k'] eqn:Hb.
  - destruct (main_unbound api env connections p e Hb)
      as (p1 & E & C & _ & _ & T).
    rewrite E. simpl. split; [ exact C | ].
    eexists. split; [ exact T | ]. now split.
  - destruct (main_bound api env connections p k' Hb)
      as (srv & p1 & E & _ & C & _ & _ & T).
    rewrite E. simpl. split; [ exact C | ].
    eexists. split; [ exact T | ]. simpl.
    split; [ apply connection_events_no_chdir | reflexivity ].
Qed.

(** ** Running the handler on a request *)

Ltac monad_unfold :=
  unfold BaseHTTPRequestHandler.send_response,
    BaseHTTPRequestHandler.send_response_only,
    start_server.MyHTTPRequestHandler.end_headers,
    BaseHTTPRequestHandler.send_header, BaseHTTPRequestHandler.end_headers,
    BaseHTTPRequestHandler.flush_headers,
    BaseHTTPRequestHandler.log_request, BaseHTTPRequestHandler.log_error,
    SimpleHTTPRequestHandler.touch,
    write, bind, get, modify, ret, raise.

Section Exec.
Variable env : environment.
Let sv := SimpleHTTPRequestHandler.server_version.
Let eh := start_server.MyHTTPRequestHandler.end_headers.

#[local] Arguments BaseHTTPRequestHandler.error_message_format : simpl never.
#[local] Arguments Py.encode_utf8 : simpl never.
#[local] Arguments Py.html_escape : simpl never.
#[local] Arguments Py.str : simpl never.
#[local] Arguments Py.len : simpl never.
#[local] Arguments BaseHTTPRequestHandler.version_string : simpl never.
#[local] Arguments BaseHTTPRequestHandler.date_time_string : simpl never.

(** What [send_error] does for a code that carries a body, from a handler
    with nothing buffered. *)
Lemma send_error_effect (h : handler) (code : Z) (message : string)
    (explain : option string) :
  (200 <=? code) && negb ((code =? 204) || (code =? 205) || (code =? 304)) = true ->
  BaseHTTPRequestHandler.orelse (_headers_buffer h) [] = [] ->
  exists h',
    BaseHTTPRequestHandler.send_error env sv eh code (Some message) explain h
    = Return tt h'
    /\ wfile h'
       = (wfile h ++
          error_chunks env (request_version h) (command h) code message
            (BaseHTTPRequestHandler.orelse explain
               (snd (BaseHTTPRequestHandler.orelse
                       (BaseHTTPRequestHandler.responses code) ("???", "???")))))%list
    /\ stderr h'
       = (stderr h ++ [LogError code message; LogRequest (requestline h) code])%list
    /\ close_connection h' = true
    /\ request_version h' = request_version h
    /\ command h' = command h
    /\ requestline h' = requestline h
    /\ opened h' = opened h
    /\ rfile h' = rfile h
    /\ BaseHTTPRequestHandler.orelse (_headers_buffer h') [] = [].
Proof.
  intros Hcode Hbuf. destruct h as [d rf w rrl rl rv c pa hd cc b e o].
  cbn [_headers_buffer] in Hbuf.
  unfold BaseHTTPRequestHandler.send_error.
  destruct (BaseHTTPRequestHandler.orelse (BaseHTTPRequestHandler.responses code) _)
    as [shortmsg longmsg].
  cbn [snd]. rewrite Hcode. unfold eh, error_chunks.
  monad_unfold. simpl.
  destruct (String.eqb rv "HTTP/0.9") eqn:E; simpl;
    repeat (progress (rewrite ?E, ?Hbuf); simpl);
    (destruct c as [c|]; [ destruct (String.eqb c "HEAD") | ]); simpl;
    (eexists; split; [ reflexivity | ]); simpl;
    rewrite <- ?app_assoc, ?app_nil_r; simpl;
    repeat split; try reflexivity; try assumption.
Qed.

End Exec.

(** ** An HTTP/1.x request, step by step *)
Section Requests.
Variable env : environment.
Let sv := SimpleHTTPRequestHandler.server_version.
Let eh := start_server.MyHTTPRequestHandler.end_headers.

#[local] Arguments Py.split_ws : simpl never.
#[local] Arguments Py.rstrip : simpl never.
#[local] Arguments Py.lstrip : simpl never.
#[local] Arguments Py.lower : simpl never.
#[local] Arguments Py.startswith : simpl never.
#[local] Arguments Py.endswith : simpl never.
#[local] Arguments Py.readline : simpl never.
#[local] Arguments Py.encode_utf8 : simpl never.
#[local] Arguments Py.html_escape : simpl never.
#[local] Arguments Py.str : simpl never.
#[local] Arguments Py.len : simpl never.
#[local] Arguments String.concat : simpl never.
#[local] Arguments String.append : simpl never.
#[local] Arguments BaseHTTPRequestHandler.parse_version : simpl never.
#[local] Arguments BaseHTTPRequestHandler._read_headers : simpl never.
#[local] Arguments BaseHTTPRequestHandler.send_error : simpl never.
#[local] Arguments BaseHTTPRequestHandler.parse_request : simpl never.
#[local] Arguments BaseHTTPRequestHandler.handle_loop : simpl never.
#[local] Arguments BaseHTTPRequestHandler.tuple_ge : simpl never.
#[local] Arguments BaseHTTPRequestHandler.error_message_format : simpl never.
#[local] Arguments BaseHTTPRequestHandler.version_string : simpl never.
#[local] Arguments BaseHTTPRequestHandler.date_time_string : simpl never.
#[local] Arguments SimpleHTTPRequestHandler.translate_path : simpl never.
#[local] Arguments SimpleHTTPRequestHandler.guess_type : simpl never.
#[local] Arguments SimpleHTTPRequestHandler.not_modified : simpl never.
#[local] Arguments SimpleHTTPRequestHandler.do_method : simpl never.
#[local] Arguments SimpleHTTPRequestHandler.list_directory : simpl never.
#[local] Arguments posixpath.join2 : simpl never.

(** [parse_request] on a request line of three words with a version below
    2.0, followed by header lines within the limits: it returns true, and
    records version, command, path and headers. *)
Lemma parse_request_accepts
    (line more version base method target rest : string) (number : Z * Z)
    (lines : list string) (h : handler) :
  Py.split_ws (Py.rstrip Py.is_crlf line) = [method; target; version] ->
  BaseHTTPRequestHandler.parse_version env version = Some (base, number) ->
  BaseHTTPRequestHandler.tuple_ge number (2, 0) = false ->
  BaseHTTPRequestHandler._read_headers BaseHTTPRequestHandler._MAXHEADERS more []
  = (inr lines, rest) ->
  raw_requestline h = line -> rfile h = more ->
  exists h',
    BaseHTTPRequestHandler.parse_request env sv eh h = Return true h'
    /\ request_version h' = version /\ command h' = Some method
    /\ path h' = request_path target
    /\ headers h' = String.concat EmptyString lines
    /\ close_connection h' = true
    /\ wfile h' = wfile h /\ _headers_buffer h' = _headers_buffer h
    /\ stderr h' = stderr h /\ opened h' = opened h
    /\ directory h' = directory h.
Proof.
  intros Hwords Hversion Hbelow Hheaders.
  destruct h as [d rf w rrl rl rv c pa hd cc b e o]. cbn [raw_requestline rfile].
  intros -> ->.
  unfold BaseHTTPRequestHandler.parse_request, request_path.
  monad_unfold. simpl. rewrite Hwords. simpl. rewrite Hversion. simpl.
  rewrite andb_false_r, Hbelow. simpl.
  destruct (Py.startswith target "//"); simpl; rewrite Hheaders; simpl;
    rewrite !andb_false_r; simpl;
    destruct (String.eqb (Py.lower _) "close"); simpl;
    (eexists; split; [ reflexivity | ]); simpl; repeat split; reflexivity.
Qed.

Lemma handle_loop_closed (h : handler) (turns : nat) :
  close_connection h = true ->
  BaseHTTPRequestHandler.handle_loop env sv eh
    (start_server.MyHTTPRequestHandler.do_method env) turns h = Return tt h.
Proof.
  intro H. destruct turns; unfold BaseHTTPRequestHandler.handle_loop;
    unfold bind, get; now rewrite H.
Qed.

(** [handle] runs [handle_one_request] once more only if the first left
    the connection open. *)
Lemma handle_once (request : string) :
  (forall h',
     start_server.MyHTTPRequestHandler.handle_one_request env (accepted request)
     = Return tt h' -> close_connection h' = true) ->
  start_server.MyHTTPRequestHandler.__init__ env request
  = start_server.MyHTTPRequestHandler.handle_one_request env (accepted request).
Proof.
  intro Hclose.
  unfold start_server.MyHTTPRequestHandler.__init__,
    start_server.MyHTTPRequestHandler.handle, BaseHTTPRequestHandler.handle.
  unfold bind at 1. unfold modify at 1. fold (accepted request).
  unfold bind at 1.
  change (BaseHTTPRequestHandler.handle_one_request env
            SimpleHTTPRequestHandler.server_version
            start_server.MyHTTPRequestHandler.end_headers
            (start_server.MyHTTPRequestHandler.do_method env))
    with (start_server.MyHTTPRequestHandler.handle_one_request env).
  destruct (start_server.MyHTTPRequestHandler.handle_one_request env
              (accepted request)) as [[] h'|e h'] eqn:E; [ | reflexivity ].
  unfold bind, get. apply handle_loop_closed. now apply Hclose.
Qed.

(** A connection that carries an HTTP/1.x request is the method of the
    request run on the handler that [parse_request] leaves, provided the
    method leaves the connection to be closed. *)
Lemma connection_http1 (request method target hstring : string) :
  http1_request env request method target hstring ->
  exists h,
    String.eqb (request_version h) "HTTP/0.9" = false
    /\ command h = Some method /\ path h = request_path target
    /\ headers h = hstring /\ close_connection h = true
    /\ wfile h = [] /\ _headers_buffer h = None /\ stderr h = []
    /\ opened h = [] /\ directory h = start_server.DIRECTORY
    /\ start_server.MyHTTPRequestHandler.handle_one_request env (accepted request)
       = match start_server.MyHTTPRequestHandler.do_method env ("do_" ++ method) with
         | Some m => m h
         | None =>
             BaseHTTPRequestHandler.send_error env sv eh 501
               (Some (unsupported_method env method)) None h
         end.
Proof.
  intros (line & more & version & base & number & lines & rest
          & Hread & Hlen & Hwords & Hversion & Hbelow & Hv & Hheaders & ->).
  assert (Hne : Py.is_empty line = false).
  { destruct line; [ discriminate Hwords | reflexivity ]. }
  apply Z.ltb_ge in Hlen.
  destruct (parse_request_accepts line more version base method target rest
              number lines
              (set_raw_requestline line (set_rfile more (accepted request)))
              Hwords Hversion Hbelow Hheaders eq_refl eq_refl)
    as (h & E & V & C & P & H & CC & W & B & S & O & D).
  exists h. rewrite V.
  repeat split; trivial.
  unfold start_server.MyHTTPRequestHandler.handle_one_request,
    BaseHTTPRequestHandler.handle_one_request.
  unfold bind at 1. unfold get at 1.
  change (rfile (accepted request)) with request. rewrite Hread.
  unfold bind at 1. unfold modify at 1. unfold bind at 1. unfold modify at 1.
  rewrite Hlen, Hne.
  unfold bind at 1. fold sv eh. rewrite E.
  change (negb true) with false. cbv iota.
  unfold bind at 1. unfold get at 1. rewrite C.
  cbn [BaseHTTPRequestHandler.orelse]. unfold unsupported_method.
  destruct (start_server.MyHTTPRequestHandler.do_method env _); reflexivity.
Qed.

(** What [send_error] with the message of [send_head] writes for a GET
    request of a version other than HTTP/0.9. *)
Lemma send_error_404 (h : handler) :
  String.eqb (request_version h) "HTTP/0.9" = false ->
  command h = Some "GET" -> wfile h = [] -> _headers_buffer h = None ->
  exists h',
    BaseHTTPRequestHandler.send_error env sv eh 404 (Some "File not found") None h
    = Return tt h'
    /\ wfile h' = error_response env 404 "File not found"
                    "Nothing matches the given URI"
    /\ stderr h' = (stderr h ++ [LogError 404 "File not found";
                                 LogRequest (requestline h) 404])%list
    /\ close_connection h' = true /\ opened h' = opened h.
Proof.
  intros V C W B.
  destruct (send_error_effect env h 404 "File not found" None eq_refl)
    as (h' & E & W' & S' & CC & _ & _ & _ & O & _).
  { now rewrite B. }
  exists h'. split; [ exact E | ].
  rewrite W', W. unfold error_chunks. rewrite V, C. repeat split; trivial.
Qed.

Lemma do_GET_missing (h : handler) (target : string) :
  String.eqb (request_version h) "HTTP/0.9" = false ->
  command h = Some "GET" -> path h = request_path target ->
  wfile h = [] -> _headers_buffer h = None ->
  directory h = start_server.DIRECTORY ->
  isdir env (resolved env target) = false ->
  Py.endswith (resolved env target) "/" = true
  \/ open_rb env (resolved env target) = inl OSError ->
  exists h',
    SimpleHTTPRequestHandler.do_GET env eh h = Return tt h'
    /\ wfile h' = error_response env 404 "File not found"
                    "Nothing matches the given URI"
    /\ close_connection h' = true.
Proof.
  destruct h as [d rf w rrl rl rv c pa hd cc b e o].
  cbn [request_version command path wfile _headers_buffer directory].
  intros Hv -> -> -> -> -> Hdir Hmiss.
  unfold SimpleHTTPRequestHandler.do_GET, SimpleHTTPRequestHandler.send_head,
    SimpleHTTPRequestHandler.send_error, resolved in *.
  unfold SimpleHTTPRequestHandler.touch, bind, get, modify, ret, raise.
  simpl. rewrite Hdir.
  destruct (Py.endswith _ "/") eqn:Hslash.
  - match goal with
    | |- context [ BaseHTTPRequestHandler.send_error env _ _ 404 _ None ?h0 ] =>
        destruct (send_error_404 h0 Hv eq_refl eq_refl eq_refl)
          as (h1 & E1 & W1 & _ & C1 & _)
    end.
    fold sv eh. rewrite E1. now exists h1.
  - destruct Hmiss as [Hmiss|Hmiss]; [ discriminate Hmiss | ].
    rewrite Hmiss.
    match goal with
    | |- context [ BaseHTTPRequestHandler.send_error env _ _ 404 _ None ?h0 ] =>
        destruct (send_error_404 h0 Hv eq_refl eq_refl eq_refl)
          as (h1 & E1 & W1 & _ & C1 & _)
    end.
    fold sv eh. rewrite E1. now exists h1.
Qed.

End Requests.

Section Answers.
Variable env : environment.
Let sv := SimpleHTTPRequestHandler.server_version.
Let eh := start_server.MyHTTPRequestHandler.end_headers.

#[local] Arguments Py.lower : simpl never.
#[local] Arguments Py.endswith : simpl never.
#[local] Arguments Py.str : simpl never.
#[local] Arguments Py.len : simpl never.
#[local] Arguments String.append : simpl never.
#[local] Arguments BaseHTTPRequestHandler.send_error : simpl never.
#[local] Arguments BaseHTTPRequestHandler.version_string : simpl never.
#[local] Arguments BaseHTTPRequestHandler.date_time_string : simpl never.
#[local] Arguments SimpleHTTPRequestHandler.translate_path : simpl never.
#[local] Arguments SimpleHTTPRequestHandler.guess_type : simpl never.
#[local] Arguments SimpleHTTPRequestHandler.not_modified : simpl never.
#[local] Arguments SimpleHTTPRequestHandler.list_directory : simpl never.
#[local] Arguments posixpath.join2 : simpl never.

Ltac exec_head Hv :=
  unfold SimpleHTTPRequestHandler.send_head,
    SimpleHTTPRequestHandler.send_response, SimpleHTTPRequestHandler.send_error,
    eh, resolved, file_headers, not_modified_headers, redirect_headers,
    version_string in *;
  monad_unfold; simpl.

(** [send_head] for a path that names a file that opens and is not
    answered 304: the header block of the file, and the file returned. *)
Lemma send_head_file (h : handler) (target : string) (f : file) :
  String.eqb (request_version h) "HTTP/0.9" = false ->
  path h = request_path target ->
  wfile h = [] -> _headers_buffer h = None ->
  directory h = start_server.DIRECTORY ->
  isdir env (resolved env target) = false ->
  Py.endswith (resolved env target) "/" = false ->
  open_rb env (resolved env target) = inr f ->
  SimpleHTTPRequestHandler.not_modified env (headers h) f = false ->
  exists h',
    SimpleHTTPRequestHandler.send_head env eh h = Return (Some f) h'
    /\ wfile h'
       = [HeaderBlock
            (file_headers env
               (SimpleHTTPRequestHandler.guess_type env (resolved env target)) f)]
    /\ close_connection h' = close_connection h
    /\ opened h' = (opened h ++ [resolved env target])%list.
Proof.
  destruct h as [d rf w rrl rl rv c pa hd cc b e o].
  cbn [request_version command path wfile _headers_buffer directory opened
       close_connection headers].
  intros Hv -> -> -> -> Hdir Hslash Hopen Hnm.
  exec_head Hv. rewrite Hdir, Hslash, Hopen. simpl. rewrite Hnm. simpl.
  repeat (progress (rewrite ?Hv); simpl).
  eexists. split; [ reflexivity | ]. simpl. repeat split; reflexivity.
Qed.

(** [send_head] when the test for 304 succeeds: status, server, date and
    the three headers; nothing is returned to copy. *)
Lemma send_head_not_modified (h : handler) (target : string) (f : file) :
  String.eqb (request_version h) "HTTP/0.9" = false ->
  path h = request_path target ->
  wfile h = [] -> _headers_buffer h = None ->
  directory h = start_server.DIRECTORY ->
  isdir env (resolved env target) = false ->
  Py.endswith (resolved env target) "/" = false ->
  open_rb env (resolved env target) = inr f ->
  SimpleHTTPRequestHandler.not_modified env (headers h) f = true ->
  exists h',
    SimpleHTTPRequestHandler.send_head env eh h = Return None h'
    /\ wfile h' = [HeaderBlock (not_modified_headers env)]
    /\ close_connection h' = close_connection h.
Proof.
  destruct h as [d rf w rrl rl rv c pa hd cc b e o].
  cbn [request_version command path wfile _headers_buffer directory opened
       close_connection headers].
  intros Hv -> -> -> -> Hdir Hslash Hopen Hnm.
  exec_head Hv. rewrite Hdir, Hslash, Hopen. simpl. rewrite Hnm. simpl.
  repeat (progress (rewrite ?Hv); simpl).
  eexists. split; [ reflexivity | ]. simpl. repeat split; reflexivity.
Qed.

(** [send_head] when [open] raises something other than [OSError]: the
    exception leaves the method and nothing has been written. *)
Lemma send_head_raises (h : handler) (target : string) (e : exn) :
  path h = request_path target ->
  wfile h = [] -> directory h = start_server.DIRECTORY ->
  isdir env (resolved env target) = false ->
  Py.endswith (resolved env target) "/" = false ->
  open_rb env (resolved env target) = inl e -> e <> OSError ->
  exists h',
    SimpleHTTPRequestHandler.send_head env eh h = Raise e h'
    /\ wfile h' = [].
Proof.
  destruct h as [d rf w rrl rl rv c pa hd cc b e0 o].
  cbn [path wfile directory].
  intros -> -> -> Hdir Hslash Hopen Hne.
  exec_head Hv. rewrite Hdir, Hslash, Hopen.
  destruct e; [ | | contradiction ]; eexists; split; reflexivity.
Qed.

(** [send_head] for a directory named without its final slash. *)
Lemma send_head_redirect (h : handler) (target : string)
    (scheme netloc ppath query fragment : string) :
  String.eqb (request_version h) "HTTP/0.9" = false ->
  path h = request_path target ->
  wfile h = [] -> _headers_buffer h = None ->
  directory h = start_server.DIRECTORY ->
  isdir env (resolved env target) = true ->
  urlsplit env (request_path target)
  = Some (scheme, netloc, ppath, query, fragment) ->
  Py.endswith ppath "/" = false ->
  exists h',
    SimpleHTTPRequestHandler.send_head env eh h = Return None h'
    /\ wfile h'
       = [HeaderBlock
            (redirect_headers env
               (urlunsplit env (scheme, netloc, ppath ++ "/", query, fragment)))]
    /\ close_connection h' = close_connection h
    /\ opened h' = opened h.
Proof.
  destruct h as [d rf w rrl rl rv c pa hd cc b e o].
  cbn [request_version command path wfile _headers_buffer directory opened
       close_connection headers].
  intros Hv -> -> -> -> Hdir Hsplit Hslash.
  exec_head Hv. rewrite Hdir, Hsplit, Hslash. simpl.
  repeat (progress (rewrite ?Hv); simpl).
  eexists. split; [ reflexivity | ]. simpl. repeat split; reflexivity.
Qed.

(** The class has the methods [do_GET] and [do_HEAD] and no other whose
    name starts with [do_]. *)
Lemma do_method_other (method : string) :
  String.eqb method "GET" = false -> String.eqb method "HEAD" = false ->
  start_server.MyHTTPRequestHandler.do_method env ("do_" ++ method) = None.
Proof.
  intros HG HH.
  unfold start_server.MyHTTPRequestHandler.do_method,
    SimpleHTTPRequestHandler.do_method.
  change (String.eqb ("do_" ++ method) "do_GET") with (String.eqb method "GET").
  change (String.eqb ("do_" ++ method) "do_HEAD") with (String.eqb method "HEAD").
  now rewrite HG, HH.
Qed.

End Answers.

(** ** What each kind of request is answered *)

(** The hypothesis [http1_request] on a concrete request. *)
Ltac concrete_http1 :=
  unfold http1_request;
  do 7 eexists;
  split; [ reflexivity | ];
  split; [ apply Z.leb_le; reflexivity | ];
  repeat (split; [ reflexivity | ]); reflexivity.

Section Connections.
Variable env : environment.
Let sv := SimpleHTTPRequestHandler.server_version.
Let eh := start_server.MyHTTPRequestHandler.end_headers.

(** A connection whose request is a GET or a HEAD: [handle] is the method
    run once on the handler [parse_request] leaves. *)
Lemma connection_method (request method target hstring : string) (m : M unit) :
  http1_request env request method target hstring ->
  start_server.MyHTTPRequestHandler.do_method env ("do_" ++ method) = Some m ->
  exists h,
    String.eqb (request_version h) "HTTP/0.9" = false
    /\ command h = Some method /\ path h = request_path target
    /\ headers h = hstring /\ close_connection h = true
    /\ wfile h = [] /\ _headers_buffer h = None
    /\ directory h = start_server.DIRECTORY
    /\ forall o,
         m h = o ->
         (forall h', o = Return tt h' -> close_connection h' = true) ->
         start_server.MyHTTPRequestHandler.__init__ env request = o.
Proof.
  intros Hreq Hm.
  destruct (connection_http1 env request method target hstring Hreq)
    as (h & V & C & P & H & CC & W & B & _ & _ & D & E).
  rewrite Hm in E.
  exists h. repeat split; trivial.
  intros o <- Hclose. rewrite <- E. apply handle_once.
  intros h' E'. apply Hclose. now rewrite <- E.
Qed.

End Connections.

(** X1. A GET request over HTTP/1.x for a path that names a file which
    opens, and which is not answered 304, gets status 200, the content
    type [guess_type] gives for the path, the file's size as
    Content-Length, its date, the three CORS headers, and then exactly the
    bytes of the file. *)
Theorem get_of_a_file_sends_its_bytes :
  forall (env : environment) (request target hstring : string) (f : file),
  http1_request env request "GET" target hstring ->
  isdir env (resolved env target) = false ->
  Py.endswith (resolved env target) "/" = false ->
  open_rb env (resolved env target) = inr f ->
  SimpleHTTPRequestHandler.not_modified env hstring f = false ->
  exists h,
    start_server.MyHTTPRequestHandler.__init__ env request = Return tt h
    /\ wfile h
       = [HeaderBlock
            (file_headers env
               (SimpleHTTPRequestHandler.guess_type env (resolved env target)) f);
          Body (contents f)].
Proof.
  intros env request target hstring f Hreq Hdir Hslash Hopen Hnm.
  destruct (connection_method env request "GET" target hstring _ Hreq eq_refl)
    as (h & V & C & P & H & CC & W & B & D & Hrun).
  rewrite <- H in Hnm.
  destruct (send_head_file env h target f V P W B D Hdir Hslash Hopen Hnm)
    as (h1 & E1 & W1 & C1 & _).
  assert (E : SimpleHTTPRequestHandler.do_GET env
                start_server.MyHTTPRequestHandler.end_headers h
              = Return tt (set_wfile (wfile h1 ++ [Body (contents f)])%list h1)).
  { unfold SimpleHTTPRequestHandler.do_GET, bind. rewrite E1. reflexivity. }
  eexists. split.
  - apply Hrun; [ exact E | ]. intros h' [= <-]. simpl. now rewrite C1.
  - simpl. now rewrite W1.
Qed.

Lemma get_of_a_file_sends_its_bytes_witness :
  exists h,
    start_server.MyHTTPRequestHandler.__init__ Example.env
      (Example.request "GET /index.html HTTP/1.0" []) = Return tt h
    /\ wfile h
       = [HeaderBlock
            (file_headers Example.env
               (SimpleHTTPRequestHandler.guess_type Example.env
                  (resolved Example.env "/index.html"))
               Example.index_html);
          Body (contents Example.index_html)].
Proof.
  apply (get_of_a_file_sends_its_bytes Example.env
           (Example.request "GET /index.html HTTP/1.0" []) "/index.html"
           Py.CRLF Example.index_html).
  - concrete_http1.
  - reflexivity.
  - reflexivity.
  - reflexivity.
  - reflexivity.
Defined.

(** X2. A GET request over HTTP/1.x that carries [If-Modified-Since]
    without [If-None-Match], with a date in UTC that is not before the
    file's modification time, is answered 304: one header block with the
    status line, Server, Date and the three CORS headers, and no body. *)
Theorem conditional_get_is_answered_304 :
  forall (env : environment) (request target hstring : string) (f : file),
  http1_request env request "GET" target hstring ->
  isdir env (resolved env target) = false ->
  Py.endswith (resolved env target) "/" = false ->
  open_rb env (resolved env target) = inr f ->
  SimpleHTTPRequestHandler.not_modified env hstring f = true ->
  exists h,
    start_server.MyHTTPRequestHandler.__init__ env request = Return tt h
    /\ wfile h = [HeaderBlock (not_modified_headers env)].
Proof.
  intros env request target hstring f Hreq Hdir Hslash Hopen Hnm.
  destruct (connection_method env request "GET" target hstring _ Hreq eq_refl)
    as (h & V & C & P & H & CC & W & B & D & Hrun).
  rewrite <- H in Hnm.
  destruct (send_head_not_modified env h target f V P W B D Hdir Hslash Hopen Hnm)
    as (h1 & E1 & W1 & C1).
  assert (E : SimpleHTTPRequestHandler.do_GET env
                start_server.MyHTTPRequestHandler.end_headers h
              = Return tt h1).
  { unfold SimpleHTTPRequestHandler.do_GET, bind. rewrite E1. reflexivity. }
  exists h1. split; [ | exact W1 ].
  apply Hrun; [ exact E | ]. intros h' [= <-]. now rewrite C1.
Qed.

Lemma conditional_get_is_answered_304_witness :
  exists h,
    start_server.MyHTTPRequestHandler.__init__ Example.env
      (Example.request "GET /index.html HTTP/1.1"
         ["If-Modified-Since: Fri, 01 Jan 2100 00:00:00 GMT"]) = Return tt h
    /\ wfile h = [HeaderBlock (not_modified_headers Example.env)].
Proof.
  eapply (conditional_get_is_answered_304 Example.env _ "/index.html" _
            Example.index_html).
  - concrete_http1.
  - reflexivity.
  - reflexivity.
  - reflexivity.
  - reflexivity.
Defined.

(** X3. A HEAD request over HTTP/1.x for such a file gets the header block
    a GET would get, and no body. *)
Theorem head_of_a_file_sends_headers_only :
  forall (env : environment) (request target hstring : string) (f : file),
  http1_request env request "HEAD" target hstring ->
  isdir env (resolved env target) = false ->
  Py.endswith (resolved env target) "/" = false ->
  open_rb env (resolved env target) = inr f ->
  SimpleHTTPRequestHandler.not_modified env hstring f = false ->
  exists h,
    start_server.MyHTTPRequestHandler.__init__ env request = Return tt h
    /\ wfile h
       = [HeaderBlock
            (file_headers env
               (SimpleHTTPRequestHandler.guess_type env (resolved env target)) f)].
Proof.
  intros env request target hstring f Hreq Hdir Hslash Hopen Hnm.
  destruct (connection_method env request "HEAD" target hstring _ Hreq eq_refl)
    as (h & V & C & P & H & CC & W & B & D & Hrun).
  rewrite <- H in Hnm.
  destruct (send_head_file env h target f V P W B D Hdir Hslash Hopen Hnm)
    as (h1 & E1 & W1 & C1 & _).
  assert (E : SimpleHTTPRequestHandler.do_HEAD env
                start_server.MyHTTPRequestHandler.end_headers h
              = Return tt h1).
  { unfold SimpleHTTPRequestHandler.do_HEAD, bind. rewrite E1. reflexivity. }
  exists h1. split; [ | exact W1 ].
  apply Hrun; [ exact E | ]. intros h' [= <-]. now rewrite C1.
Qed.

Lemma head_of_a_file_sends_headers_only_witness :
  exists h,
    start_server.MyHTTPRequestHandler.__init__ Example.env
      (Example.request "HEAD /index.html HTTP/1.0" []) = Return tt h
    /\ wfile h
       = [HeaderBlock
            (file_headers Example.env
               (SimpleHTTPRequestHandler.guess_type Example.env
                  (resolved Example.env "/index.html"))
               Example.index_html)].
Proof.
  eapply (head_of_a_file_sends_headers_only Example.env _ "/index.html" _
            Example.index_html).
  - concrete_http1.
  - reflexivity.
  - reflexivity.
  - reflexivity.
  - reflexivity.
Defined.

(** X4. A GET request over HTTP/1.x for a path that is no directory and
    that [open] refuses with [OSError] (or that ends with a slash) is
    answered 404 "File not found": the header block with Connection:
    close, the content type and length of the error page, and the three
    CORS headers, then the error page. *)
Theorem get_of_a_missing_file_is_answered_404 :
  forall (env : environment) (request target hstring : string),
  http1_request env request "GET" target hstring ->
  isdir env (resolved env target) = false ->
  Py.endswith (resolved env target) "/" = true
  \/ open_rb env (resolved env target) = inl OSError ->
  exists h,
    start_server.MyHTTPRequestHandler.__init__ env request = Return tt h
    /\ wfile h
       = [HeaderBlock
            (error_headers env 404 "File not found"
               "Nothing matches the given URI");
          Body (error_page 404 "File not found" "Nothing matches the given URI")].
Proof.
  intros env request target hstring Hreq Hdir Hmiss.
  destruct (connection_method env request "GET" target hstring _ Hreq eq_refl)
    as (h & V & C & P & H & CC & W & B & D & Hrun).
  destruct (do_GET_missing env h target V C P W B D Hdir Hmiss)
    as (h1 & E1 & W1 & C1).
  exists h1. split; [ | exact W1 ].
  apply Hrun; [ exact E1 | ]. intros h' [= <-]. exact C1.
Qed.

Lemma get_of_a_missing_file_is_answered_404_witness :
  exists h,
    start_server.MyHTTPRequestHandler.__init__ Example.env
      (Example.request "GET /does-not-exist.txt HTTP/1.0" []) = Return tt h
    /\ wfile h
       = [HeaderBlock
            (error_headers Example.env 404 "File not found"
               "Nothing matches the given URI");
          Body (error_page 404 "File not found" "Nothing matches the given URI")].
Proof.
  eapply (get_of_a_missing_file_is_answered_404 Example.env _
            "/does-not-exist.txt").
  - concrete_http1.
  - reflexivity.
  - right. reflexivity.
Defined.

(** X5. A request over HTTP/1.x whose method is neither GET nor HEAD
    (OPTIONS and POST among them) is answered 501 "Unsupported method",
    with the three CORS headers in the header block and the error page as
    body: the class has no [do_] method for it. *)
Theorem other_methods_are_answered_501 :
  forall (env : environment) (request method target hstring : string),
  http1_request env request method target hstring ->
  String.eqb method "GET" = false -> String.eqb method "HEAD" = false ->
  exists h,
    start_server.MyHTTPRequestHandler.__init__ env request = Return tt h
    /\ wfile h
       = [HeaderBlock
            (error_headers env 501 (unsupported_method env method)
               "Server does not support this operation");
          Body (error_page 501 (unsupported_method env method)
                  "Server does not support this operation")].
Proof.
  intros env request method target hstring Hreq HG HH.
  destruct (connection_http1 env request method target hstring Hreq)
    as (h & V & C & P & H & CC & W & B & _ & _ & D & E).
  rewrite (do_method_other env method HG HH) in E.
  destruct (send_error_effect env h 501 (unsupported_method env method) None
              eq_refl) as (h1 & E1 & W1 & _ & C1 & _).
  { now rewrite B. }
  exists h1. split.
  - rewrite handle_once; rewrite E, E1; [ reflexivity | ].
    intros h' [= <-]. exact C1.
  - rewrite W1, W. unfold error_chunks. now rewrite V, C, HH.
Qed.

Lemma other_methods_are_answered_501_witness :
  exists h,
    start_server.MyHTTPRequestHandler.__init__ Example.env
      (Example.request "OPTIONS /index.html HTTP/1.1" []) = Return tt h
    /\ wfile h
       = [HeaderBlock
            (error_headers Example.env 501
               (unsupported_method Example.env "OPTIONS")
               "Server does not support this operation");
          Body (error_page 501 (unsupported_method Example.env "OPTIONS")
                  "Server does not support this operation")].
Proof.
  eapply (other_methods_are_answered_501 Example.env _ "OPTIONS" "/index.html").
  - concrete_http1.
  - reflexivity.
  - reflexivity.
Defined.

(** X6. A GET request over HTTP/1.x for a directory named without its
    final slash is answered 301 with the same URL and the slash added as
    Location, Content-Length 0, the three CORS headers, and no body. *)
Theorem get_of_a_directory_without_slash_redirects :
  forall (env : environment) (request target hstring : string)
         (scheme netloc ppath query fragment : string),
  http1_request env request "GET" target hstring ->
  isdir env (resolved env target) = true ->
  urlsplit env (request_path target)
  = Some (scheme, netloc, ppath, query, fragment) ->
  Py.endswith ppath "/" = false ->
  exists h,
    start_server.MyHTTPRequestHandler.__init__ env request = Return tt h
    /\ wfile h
       = [HeaderBlock
            (redirect_headers env
               (urlunsplit env (scheme, netloc, ppath ++ "/", query, fragment)))]
    /\ opened h = [].
Proof.
  intros env request target hstring scheme netloc ppath query fragment
    Hreq Hdir Hsplit Hslash.
  destruct (connection_http1 env request "GET" target hstring Hreq)
    as (h & V & C & P & H & CC & W & B & _ & O & D & E).
  change (start_server.MyHTTPRequestHandler.do_method env ("do_" ++ "GET"))
    with (Some (SimpleHTTPRequestHandler.do_GET env
                  start_server.MyHTTPRequestHandler.end_headers)) in E.
  destruct (send_head_redirect env h target scheme netloc ppath query fragment
              V P W B D Hdir Hsplit Hslash) as (h1 & E1 & W1 & C1 & O1).
  assert (Eget : SimpleHTTPRequestHandler.do_GET env
                   start_server.MyHTTPRequestHandler.end_headers h
                 = Return tt h1).
  { unfold SimpleHTTPRequestHandler.do_GET, bind. rewrite E1. reflexivity. }
  exists h1. split; [ | split; [ exact W1 | now rewrite O1 ] ].
  rewrite handle_once; rewrite E, Eget; [ reflexivity | ].
  intros h' [= <-]. now rewrite C1.
Qed.

Lemma get_of_a_directory_without_slash_redirects_witness :
  exists h,
    start_server.MyHTTPRequestHandler.__init__ Example.env
      (Example.request "GET /. HTTP/1.0" []) = Return tt h
    /\ wfile h = [HeaderBlock (redirect_headers Example.env "/./")]
    /\ opened h = [].
Proof.
  eapply (get_of_a_directory_without_slash_redirects Example.env _ "/." _
            EmptyString EmptyString "/." EmptyString EmptyString).
  - concrete_http1.
  - reflexivity.
  - reflexivity.
  - reflexivity.
Defined.

(** ** Requests that are not HTTP/1.x *)
Section Simple.
Variable env : environment.
Let sv := SimpleHTTPRequestHandler.server_version.
Let eh := start_server.MyHTTPRequestHandler.end_headers.

#[local] Arguments Py.split_ws : simpl never.
#[local] Arguments Py.rstrip : simpl never.
#[local] Arguments Py.lstrip : simpl never.
#[local] Arguments Py.lower : simpl never.
#[local] Arguments Py.startswith : simpl never.
#[local] Arguments Py.endswith : simpl never.
#[local] Arguments Py.readline : simpl never.
#[local] Arguments Py.str : simpl never.
#[local] Arguments Py.len : simpl never.
#[local] Arguments String.concat : simpl never.
#[local] Arguments String.append : simpl never.
#[local] Arguments BaseHTTPRequestHandler.parse_version : simpl never.
#[local] Arguments BaseHTTPRequestHandler._read_headers : simpl never.
#[local] Arguments BaseHTTPRequestHandler.send_error : simpl never.
#[local] Arguments BaseHTTPRequestHandler.parse_request : simpl never.
#[local] Arguments BaseHTTPRequestHandler.tuple_ge : simpl never.
#[local] Arguments BaseHTTPRequestHandler.version_string : simpl never.
#[local] Arguments BaseHTTPRequestHandler.date_time_string : simpl never.
#[local] Arguments SimpleHTTPRequestHandler.translate_path : simpl never.
#[local] Arguments SimpleHTTPRequestHandler.guess_type : simpl never.
#[local] Arguments SimpleHTTPRequestHandler.not_modified : simpl never.
#[local] Arguments SimpleHTTPRequestHandler.list_directory : simpl never.
#[local] Arguments posixpath.join2 : simpl never.

(** [parse_request] on a request line of the two words [GET] and a
    target: the version on record stays HTTP/0.9. *)
Lemma parse_request_simple (line more target rest : string)
    (lines : list string) (h : handler) :
  Py.split_ws (Py.rstrip Py.is_crlf line) = ["GET"; target] ->
  BaseHTTPRequestHandler._read_headers BaseHTTPRequestHandler._MAXHEADERS more []
  = (inr lines, rest) ->
  raw_requestline h = line -> rfile h = more ->
  exists h',
    BaseHTTPRequestHandler.parse_request env sv eh h = Return true h'
    /\ request_version h' = "HTTP/0.9" /\ command h' = Some "GET"
    /\ path h' = request_path target
    /\ headers h' = String.concat EmptyString lines
    /\ close_connection h' = true
    /\ wfile h' = wfile h /\ _headers_buffer h' = _headers_buffer h
    /\ directory h' = directory h.
Proof.
  intros Hwords Hheaders.
  destruct h as [d rf w rrl rl rv c pa hd cc b e o]. cbn [raw_requestline rfile].
  intros -> ->.
  unfold BaseHTTPRequestHandler.parse_request, request_path.
  monad_unfold. simpl. rewrite Hwords. simpl.
  destruct (Py.startswith target "//"); simpl; rewrite Hheaders; simpl;
    rewrite !andb_false_r; simpl;
    destruct (String.eqb (Py.lower _) "close"); simpl;
    (eexists; split; [ reflexivity | ]); simpl; repeat split; reflexivity.
Qed.

(** [send_head] with HTTP/0.9 on record, for a file that opens and is not
    answered 304: nothing is written, and the file is returned. *)
Lemma send_head_file_simple (h : handler) (target : string) (f : file) :
  request_version h = "HTTP/0.9" ->
  path h = request_path target ->
  wfile h = [] -> directory h = start_server.DIRECTORY ->
  isdir env (resolved env target) = false ->
  Py.endswith (resolved env target) "/" = false ->
  open_rb env (resolved env target) = inr f ->
  SimpleHTTPRequestHandler.not_modified env (headers h) f = false ->
  exists h',
    SimpleHTTPRequestHandler.send_head env eh h = Return (Some f) h'
    /\ wfile h' = [] /\ close_connection h' = close_connection h.
Proof.
  destruct h as [d rf w rrl rl rv c pa hd cc b e o].
  cbn [request_version command path wfile _headers_buffer directory opened
       close_connection headers].
  intros -> -> -> -> Hdir Hslash Hopen Hnm.
  unfold SimpleHTTPRequestHandler.send_head,
    SimpleHTTPRequestHandler.send_response, SimpleHTTPRequestHandler.send_error,
    eh, resolved in *.
  monad_unfold. simpl. rewrite Hdir, Hslash, Hopen. simpl. rewrite Hnm. simpl.
  eexists. split; [ reflexivity | ]. simpl. split; reflexivity.
Qed.

(** [handle_one_request] up to the call of [parse_request], for a request
    line within the length limit that is not empty. *)
Lemma handle_one_request_parses (request line more : string) :
  Py.readline request 65537 = (line, more) ->
  Py.len line <= 65536 -> Py.is_empty line = false ->
  start_server.MyHTTPRequestHandler.handle_one_request env (accepted request)
  = (ok <- BaseHTTPRequestHandler.parse_request env sv eh ;;
     if negb ok then ret tt
     else
       h <- get ;;
       let command := BaseHTTPRequestHandler.orelse (command h) EmptyString in
       match start_server.MyHTTPRequestHandler.do_method env ("do_" ++ command) with
       | None =>
           BaseHTTPRequestHandler.send_error env sv eh 501
             (Some ("Unsupported method (" ++ py_repr env command ++ ")")) None
       | Some method => method
       end)
      (set_raw_requestline line (set_rfile more (accepted request))).
Proof.
  intros Hread Hlen Hne. apply Z.ltb_ge in Hlen.
  unfold start_server.MyHTTPRequestHandler.handle_one_request,
    BaseHTTPRequestHandler.handle_one_request.
  unfold bind at 1. unfold get at 1.
  change (rfile (accepted request)) with request. rewrite Hread.
  unfold bind at 1. unfold modify at 1. unfold bind at 1. unfold modify at 1.
  rewrite Hlen, Hne. reflexivity.
Qed.

(** A connection whose request [parse_request] turns down: [handle] ends
    with the handler [parse_request] leaves. *)
Lemma connection_rejected (request line more : string) (h' : handler) :
  Py.readline request 65537 = (line, more) ->
  Py.len line <= 65536 -> Py.is_empty line = false ->
  BaseHTTPRequestHandler.parse_request env sv eh
    (set_raw_requestline line (set_rfile more (accepted request)))
  = Return false h' ->
  close_connection h' = true ->
  start_server.MyHTTPRequestHandler.__init__ env request = Return tt h'.
Proof.
  intros Hread Hlen Hne E C.
  assert (E1 : start_server.MyHTTPRequestHandler.handle_one_request env
                 (accepted request) = Return tt h').
  { rewrite (handle_one_request_parses request line more Hread Hlen Hne).
    unfold bind at 1. rewrite E. reflexivity. }
  rewrite handle_once; rewrite E1; [ reflexivity | ].
  intros h0 [= <-]. exact C.
Qed.

(** [parse_request] on a request line without a word returns false and
    sends nothing. *)
Lemma parse_request_blank (h : handler) :
  Py.split_ws (Py.rstrip Py.is_crlf (raw_requestline h)) = [] ->
  exists h',
    BaseHTTPRequestHandler.parse_request env sv eh h = Return false h'
    /\ wfile h' = wfile h /\ stderr h' = stderr h
    /\ close_connection h' = true.
Proof.
  intros Hwords.
  destruct h as [d rf w rrl rl rv c pa hd cc b e o]. cbn [raw_requestline] in Hwords.
  unfold BaseHTTPRequestHandler.parse_request.
  monad_unfold. simpl. rewrite Hwords. simpl.
  eexists. split; [ reflexivity | ]. simpl. repeat split; reflexivity.
Qed.

(** [parse_request] on a request line of one word: error 400 while the
    version on record is HTTP/0.9 and no command is set. *)
Lemma parse_request_one_word (word : string) (h : handler) :
  Py.split_ws (Py.rstrip Py.is_crlf (raw_requestline h)) = [word] ->
  wfile h = [] -> _headers_buffer h = None ->
  exists h',
    BaseHTTPRequestHandler.parse_request env sv eh h = Return false h'
    /\ wfile h'
       = [Body (error_page 400
                  ("Bad request syntax ("
                   ++ py_repr env (Py.rstrip Py.is_crlf (raw_requestline h)) ++ ")")
                  "Bad request syntax or unsupported method")]
    /\ close_connection h' = true.
Proof.
  intros Hwords.
  destruct h as [d rf w rrl rl rv c pa hd cc b e o].
  cbn [raw_requestline wfile _headers_buffer] in *. intros -> ->.
  unfold BaseHTTPRequestHandler.parse_request.
  remember (BaseHTTPRequestHandler.send_error env sv eh) as se eqn:Hse.
  monad_unfold. simpl. rewrite Hwords. simpl. subst se.
  match goal with
  | |- context [ BaseHTTPRequestHandler.send_error env _ _ 400 (Some ?m) None ?h0 ] =>
      destruct (send_error_effect env h0 400 m None eq_refl eq_refl)
        as (h1 & E1 & W1 & _ & C1 & _)
  end.
  fold sv eh in E1. rewrite E1. exists h1. split; [ reflexivity | ].
  split; [ | exact C1 ]. rewrite W1. reflexivity.
Qed.

(** [parse_request] on a request line of three words or more whose last
    word is a version of 2.0 or above: error 505, again while the version
    on record is HTTP/0.9. *)
Lemma parse_request_high_version (words : list string) (base : string)
    (number : Z * Z) (h : handler) :
  Py.split_ws (Py.rstrip Py.is_crlf (raw_requestline h)) = words ->
  3 <= Z.of_nat (length words) ->
  BaseHTTPRequestHandler.parse_version env (last words EmptyString)
  = Some (base, number) ->
  BaseHTTPRequestHandler.tuple_ge number (2, 0) = true ->
  wfile h = [] -> _headers_buffer h = None ->
  exists h',
    BaseHTTPRequestHandler.parse_request env sv eh h = Return false h'
    /\ wfile h'
       = [Body (error_page 505 ("Invalid HTTP version (" ++ base ++ ")")
                  "Cannot fulfill request")]
    /\ close_connection h' = true.
Proof.
  intros Hwords Hlen Hversion Habove.
  destruct h as [d rf w rrl rl rv c pa hd cc b e o].
  cbn [raw_requestline wfile _headers_buffer] in *. intros -> ->.
  unfold BaseHTTPRequestHandler.parse_request.
  remember (BaseHTTPRequestHandler.send_error env sv eh) as se eqn:Hse.
  monad_unfold. simpl. rewrite Hwords.
  assert (H0 : (Z.of_nat (length words) =? 0) = false) by (apply Z.eqb_neq; lia).
  assert (H3 : (3 <=? Z.of_nat (length words)) = true) by (apply Z.leb_le; lia).
  rewrite H0, H3, Hversion. rewrite andb_false_r, Habove. subst se.
  match goal with
  | |- context [ BaseHTTPRequestHandler.send_error env _ _ 505 (Some ?m) None ?h0 ] =>
      destruct (send_error_effect env h0 505 m None eq_refl eq_refl)
        as (h1 & E1 & W1 & _ & C1 & _)
  end.
  fold sv eh in E1. rewrite E1. exists h1. split; [ reflexivity | ].
  split; [ | exact C1 ]. rewrite W1. reflexivity.
Qed.

End Simple.

(** X7. A two-word request [GET target], the form of HTTP/0.9, for a file
    that opens gets the bytes of the file and nothing else: no status
    line and no header block, hence none of the three CORS headers. *)
Theorem simple_get_sends_bytes_without_headers :
  forall (env : environment) (request target hstring : string) (f : file),
  simple_request request target hstring ->
  isdir env (resolved env target) = false ->
  Py.endswith (resolved env target) "/" = false ->
  open_rb env (resolved env target) = inr f ->
  SimpleHTTPRequestHandler.not_modified env hstring f = false ->
  exists h,
    start_server.MyHTTPRequestHandler.__init__ env request = Return tt h
    /\ wfile h = [Body (contents f)].
Proof.
  intros env request target hstring f
    (line & more & lines & rest & Hread & Hlen & Hwords & Hheaders & ->)
    Hdir Hslash Hopen Hnm.
  assert (Hne : Py.is_empty line = false).
  { destruct line; [ discriminate Hwords | reflexivity ]. }
  destruct (parse_request_simple env line more target rest lines
              (set_raw_requestline line (set_rfile more (accepted request)))
              Hwords Hheaders eq_refl eq_refl)
    as (h & E & V & C & P & H & CC & W & B & D).
  rewrite <- H in Hnm.
  destruct (send_head_file_simple env h target f V P W D Hdir Hslash Hopen Hnm)
    as (h1 & E1 & W1 & C1).
  exists (set_wfile (wfile h1 ++ [Body (contents f)])%list h1).
  split; [ | simpl; now rewrite W1 ].
  rewrite handle_once;
    rewrite (handle_one_request_parses env request line more Hread Hlen Hne);
    unfold bind at 1; rewrite E; cbn [negb];
    unfold bind at 1; unfold get at 1; rewrite C;
    cbn [BaseHTTPRequestHandler.orelse];
    change (start_server.MyHTTPRequestHandler.do_method env ("do_" ++ "GET"))
      with (Some (SimpleHTTPRequestHandler.do_GET env
                    start_server.MyHTTPRequestHandler.end_headers));
    unfold SimpleHTTPRequestHandler.do_GET, bind; rewrite E1;
    [ reflexivity | ].
  intros h' [= <-]. simpl. now rewrite C1.
Qed.

Lemma simple_get_sends_bytes_without_headers_witness :
  exists h,
    start_server.MyHTTPRequestHandler.__init__ Example.env
      (Example.request "GET /index.html" []) = Return tt h
    /\ wfile h = [Body (contents Example.index_html)].
Proof.
  eapply (simple_get_sends_bytes_without_headers Example.env _ "/index.html" _
            Example.index_html).
  - unfold simple_request. do 4 eexists.
    split; [ reflexivity | ].
    split; [ apply Z.leb_le; reflexivity | ].
    repeat (split; [ reflexivity | ]); reflexivity.
  - reflexivity.
  - reflexivity.
  - reflexivity.
  - reflexivity.
Defined.

(** X8. A connection whose first line has no word on it (the client sent
    nothing, or a blank line) gets no byte in answer and nothing is
    logged; the handler returns and the connection is closed. *)
Theorem blank_request_line_gets_no_response :
  forall (env : environment) (request : string),
  Py.len (request_line request) <= 65536 ->
  Py.split_ws (Py.rstrip Py.is_crlf (request_line request)) = [] ->
  exists h,
    start_server.MyHTTPRequestHandler.__init__ env request = Return tt h
    /\ wfile h = [] /\ stderr h = [] /\ close_connection h = true.
Proof.
  intros env request Hlen Hwords. unfold request_line in *.
  destruct (Py.readline request 65537) as [line more] eqn:Hread.
  cbn [fst] in *.
  destruct (Py.is_empty line) eqn:Hne.
  - exists (set_close_connection true
              (set_raw_requestline line (set_rfile more (accepted request)))).
    split; [ | now repeat split ].
    assert (E : start_server.MyHTTPRequestHandler.handle_one_request env
                  (accepted request)
                = Return tt
                    (set_close_connection true
                       (set_raw_requestline line
                          (set_rfile more (accepted request))))).
    { apply Z.ltb_ge in Hlen.
      unfold start_server.MyHTTPRequestHandler.handle_one_request,
        BaseHTTPRequestHandler.handle_one_request.
      unfold bind at 1. unfold get at 1.
      change (rfile (accepted request)) with request. rewrite Hread.
      unfold bind at 1. unfold modify at 1. unfold bind at 1. unfold modify at 1.
      rewrite Hlen, Hne. reflexivity. }
    rewrite handle_once; rewrite E; [ reflexivity | ].
    now intros h' [= <-].
  - destruct (parse_request_blank env
                (set_raw_requestline line (set_rfile more (accepted request)))
                Hwords) as (h & E & W & S & C).
    exists h. split; [ | now repeat split ].
    now apply (connection_rejected env request line more h Hread Hlen Hne E C).
Qed.

Lemma blank_request_line_gets_no_response_witness :
  exists h,
    start_server.MyHTTPRequestHandler.__init__ Example.env Py.CRLF = Return tt h
    /\ wfile h = [] /\ stderr h = [] /\ close_connection h = true.
Proof.
  apply (blank_request_line_gets_no_response Example.env Py.CRLF).
  - apply Z.leb_le. reflexivity.
  - reflexivity.
Defined.

(** X9. A request line of one word is answered with the error page for
    400 "Bad request syntax" and nothing before it: the version on record
    is still HTTP/0.9, so the status line and every header, the three
    CORS headers included, are left out. *)
Theorem one_word_request_gets_the_error_page_alone :
  forall (env : environment) (request word : string),
  Py.len (request_line request) <= 65536 ->
  Py.split_ws (Py.rstrip Py.is_crlf (request_line request)) = [word] ->
  exists h,
    start_server.MyHTTPRequestHandler.__init__ env request = Return tt h
    /\ wfile h
       = [Body (error_page 400
                  ("Bad request syntax ("
                   ++ py_repr env (Py.rstrip Py.is_crlf (request_line request))
                   ++ ")")
                  "Bad request syntax or unsupported method")].
Proof.
  intros env request word Hlen Hwords. unfold request_line in *.
  destruct (Py.readline request 65537) as [line more] eqn:Hread.
  cbn [fst] in *.
  assert (Hne : Py.is_empty line = false).
  { destruct line; [ discriminate Hwords | reflexivity ]. }
  destruct (parse_request_one_word env word
              (set_raw_requestline line (set_rfile more (accepted request)))
              Hwords eq_refl eq_refl) as (h & E & W & C).
  exists h. split; [ | exact W ].
  now apply (connection_rejected env request line more h Hread Hlen Hne E C).
Qed.

Lemma one_word_request_gets_the_error_page_alone_witness :
  exists h,
    start_server.MyHTTPRequestHandler.__init__ Example.env
      (Example.request "garbage" []) = Return tt h
    /\ wfile h
       = [Body (error_page 400 "Bad request syntax ('garbage')"
                  "Bad request syntax or unsupported method")].
Proof.
  apply (one_word_request_gets_the_error_page_alone Example.env
           (Example.request "garbage" []) "garbage").
  - apply Z.leb_le. reflexivity.
  - reflexivity.
Defined.

(** X10. A request line of three words or more whose last word is a
    version of 2.0 or above is answered with the error page for 505
    "Invalid HTTP version" alone, without status line or headers. *)
Theorem version_two_request_gets_505_page_alone :
  forall (env : environment) (request base : string) (number : Z * Z),
  Py.len (request_line request) <= 65536 ->
  3 <= Z.of_nat
         (length (Py.split_ws (Py.rstrip Py.is_crlf (request_line request)))) ->
  BaseHTTPRequestHandler.parse_version env
    (last (Py.split_ws (Py.rstrip Py.is_crlf (request_line request))) EmptyString)
  = Some (base, number) ->
  BaseHTTPRequestHandler.tuple_ge number (2, 0) = true ->
  exists h,
    start_server.MyHTTPRequestHandler.__init__ env request = Return tt h
    /\ wfile h
       = [Body (error_page 505 ("Invalid HTTP version (" ++ base ++ ")")
                  "Cannot fulfill request")].
Proof.
  intros env request base number Hlen Hwords Hversion Habove.
  unfold request_line in *.
  destruct (Py.readline request 65537) as [line more] eqn:Hread.
  cbn [fst] in *.
  assert (Hne : Py.is_empty line = false).
  { destruct line; [ simpl in Hwords; lia | reflexivity ]. }
  destruct (parse_request_high_version env _ base number
              (set_raw_requestline line (set_rfile more (accepted request)))
              eq_refl Hwords Hversion Habove eq_refl eq_refl)
    as (h & E & W & C).
  exists h. split; [ | exact W ].
  now apply (connection_rejected env request line more h Hread Hlen Hne E C).
Qed.

Lemma version_two_request_gets_505_page_alone_witness :
  exists h,
    start_server.MyHTTPRequestHandler.__init__ Example.env
      (Example.request "GET / HTTP/3.0" []) = Return tt h
    /\ wfile h
       = [Body (error_page 505 "Invalid HTTP version (3.0)"
                  "Cannot fulfill request")].
Proof.
  apply (version_two_request_gets_505_page_alone Example.env
           (Example.request "GET / HTTP/3.0" []) "3.0" (3, 0)).
  - apply Z.leb_le. reflexivity.
  - apply Z.leb_le. reflexivity.
  - reflexivity.
  - reflexivity.
Defined.

(** ** Over-long request lines, and handlers that raise *)
Section Limits.
Variable env : environment.
Let sv := SimpleHTTPRequestHandler.server_version.
Let eh := start_server.MyHTTPRequestHandler.end_headers.

(** [send_error] without a message uses the phrase of the code. *)
Lemma send_error_default (code : Z) (explain : option string) :
  BaseHTTPRequestHandler.send_error env sv eh code None explain
  = BaseHTTPRequestHandler.send_error env sv eh code
      (Some (fst (BaseHTTPRequestHandler.orelse
                    (BaseHTTPRequestHandler.responses code) ("???", "???"))))
      explain.
Proof.
  unfold BaseHTTPRequestHandler.send_error.
  destruct (BaseHTTPRequestHandler.orelse _ _) as [shortmsg longmsg].
  reflexivity.
Qed.

Lemma handle_one_request_too_long (request : string) :
  65536 < Py.len (request_line request) ->
  exists h,
    start_server.MyHTTPRequestHandler.handle_one_request env (accepted request)
    = Return tt h
    /\ wfile h = error_response env 414 "Request-URI Too Long" "URI is too long"
    /\ close_connection h = true.
Proof.
  intro Hlen. unfold request_line in Hlen.
  destruct (Py.readline request 65537) as [line more] eqn:Hread.
  cbn [fst] in Hlen. apply Z.ltb_lt in Hlen.
  unfold start_server.MyHTTPRequestHandler.handle_one_request,
    BaseHTTPRequestHandler.handle_one_request.
  unfold bind at 1. unfold get at 1.
  change (rfile (accepted request)) with request. rewrite Hread.
  unfold bind at 1. unfold modify at 1. unfold bind at 1. unfold modify at 1.
  rewrite Hlen.
  unfold bind at 1. unfold modify at 1. unfold bind at 1. unfold modify at 1.
  unfold bind at 1. unfold modify at 1.
  fold sv eh. rewrite send_error_default.
  match goal with
  | |- context [ BaseHTTPRequestHandler.send_error env sv eh 414 (Some ?m) None ?h0 ] =>
      destruct (send_error_effect env h0 414 m None eq_refl eq_refl)
        as (h1 & E1 & W1 & _ & C1 & _)
  end.
  fold sv eh in E1. exists h1. split; [ exact E1 | ].
  split; [ | exact C1 ]. rewrite W1. reflexivity.
Qed.

End Limits.

(** X11. A request line longer than 65536 bytes is answered 414
    "Request-URI Too Long" as a full response, status line and headers
    (the three CORS headers among them) and the error page, without
    anything of the line being parsed. *)
Theorem overlong_request_line_is_answered_414 :
  forall (env : environment) (request : string),
  65536 < Py.len (request_line request) ->
  exists h,
    start_server.MyHTTPRequestHandler.__init__ env request = Return tt h
    /\ wfile h
       = [HeaderBlock
            (error_headers env 414 "Request-URI Too Long" "URI is too long");
          Body (error_page 414 "Request-URI Too Long" "URI is too long")].
Proof.
  intros env request Hlen.
  destruct (handle_one_request_too_long env request Hlen) as (h & E & W & C).
  exists h. split; [ | exact W ].
  rewrite handle_once; rewrite E; [ reflexivity | ].
  now intros h' [= <-].
Qed.

Lemma overlong_request_line_is_answered_414_witness :
  exists h,
    start_server.MyHTTPRequestHandler.__init__ Example.env Edge.long_line
    = Return tt h
    /\ wfile h
       = [HeaderBlock
            (error_headers Example.env 414 "Request-URI Too Long"
               "URI is too long");
          Body (error_page 414 "Request-URI Too Long" "URI is too long")].
Proof.
  apply (overlong_request_line_is_answered_414 Example.env Edge.long_line).
  apply Z.ltb_lt. vm_compute. reflexivity.
Defined.

(** X12. When [open] raises an exception other than [OSError] (as it does
    with [ValueError] for a path that holds a NUL character), the
    exception leaves the handler: the client is sent nothing, neither a
    404 nor any header. *)
Theorem exception_of_open_leaves_the_handler :
  forall (env : environment) (request target hstring : string) (e : exn),
  http1_request env request "GET" target hstring ->
  isdir env (resolved env target) = false ->
  Py.endswith (resolved env target) "/" = false ->
  open_rb env (resolved env target) = inl e -> e <> OSError ->
  exists h,
    start_server.MyHTTPRequestHandler.__init__ env request = Raise e h
    /\ wfile h = [].
Proof.
  intros env request target hstring e Hreq Hdir Hslash Hopen Hne.
  destruct (connection_method env request "GET" target hstring _ Hreq eq_refl)
    as (h & V & C & P & H & CC & W & B & D & Hrun).
  destruct (send_head_raises env h target e P W D Hdir Hslash Hopen Hne)
    as (h1 & E1 & W1).
  exists h1. split; [ | exact W1 ].
  apply Hrun.
  - unfold SimpleHTTPRequestHandler.do_GET, bind. now rewrite E1.
  - intros h' [=].
Qed.

Lemma exception_of_open_leaves_the_handler_witness :
  exists h,
    start_server.MyHTTPRequestHandler.__init__ Edge.env
      (Example.request ("GET " ++ Edge.nul_target ++ " HTTP/1.0") [])
    = Raise ValueError h
    /\ wfile h = [].
Proof.
  eapply (exception_of_open_leaves_the_handler Edge.env _ Edge.nul_target _
            ValueError).
  - concrete_http1.
  - reflexivity.
  - reflexivity.
  - reflexivity.
  - discriminate.
Defined.

(** ** The loop and the handlers that raise *)
Section Survives.
Context {K : Type}.
Variable api : kernel K.
Variable env : environment.

Let handler_class := start_server.MyHTTPRequestHandler.__init__ env.

Lemma noblock_errors (request : string) (srv : TCPServer.server) (p : process K) :
  TCPServer.errors (fst (TCPServer._handle_request_noblock handler_class request srv p))
  = (TCPServer.errors srv ++ raised handler_class [request])%list.
Proof.
  unfold TCPServer._handle_request_noblock, raised. simpl.
  destruct (handler_class request); simpl; now rewrite ?app_nil_r.
Qed.

Lemma serve_forever_errors (connections : list string) :
  forall (srv : TCPServer.server) (p : process K),
  TCPServer.__shutdown_request srv = false ->
  TCPServer.errors
    (snd (fst (TCPServer.serve_forever handler_class connections srv p)))
  = (TCPServer.errors srv ++ raised handler_class connections)%list.
Proof.
  induction connections as [|request rest IH]; intros srv p Hflag; simpl.
  - rewrite Hflag. simpl. now rewrite app_nil_r.
  - rewrite Hflag.
    pose proof (noblock_errors request srv p) as He.
    pose proof (noblock_flag env request srv p) as Hf.
    fold handler_class in Hf.
    destruct (TCPServer._handle_request_noblock handler_class request srv p)
      as [srv1 p1]; simpl in He, Hf.
    rewrite (IH srv1 p1) by now rewrite Hf.
    rewrite He. unfold raised. simpl. now rewrite <- app_assoc, app_nil_r.
Qed.

End Survives.

(** X13. A handler that raises does not end the run: when the bind
    succeeds, the run is still serving after any connections, every
    connection has been handled by a fresh handler (what each received
    depends on its own bytes only), and the exceptions raised are the ones
    [handle_error] reported, in order. *)
Theorem loop_survives_handlers_that_raise :
  forall (K : Type) (api : kernel K) (env : environment)
         (connections : list string) (p : process K) (k' : K),
  sys_bind api (kstate p) bind_options bind_address = inr k' ->
  exists srv p',
    start_server.main api env connections p = (start_server.Serving, Some srv, p')
    /\ TCPServer.served srv
       = map (fun request =>
                wfile (final (start_server.MyHTTPRequestHandler.__init__ env request)))
           connections
    /\ TCPServer.errors srv
       = raised (start_server.MyHTTPRequestHandler.__init__ env) connections.
Proof.
  intros K api env connections p k' Hb.
  destruct (main_bound api env connections p k' Hb)
    as (srv & p' & E & S & _).
  exists srv, p'. repeat split; trivial.
  revert E. unfold start_server.main, TCPServer.__init__, TCPServer.server_bind.
  simpl. unfold bind_options, bind_address in Hb. simpl in Hb. rewrite Hb.
  match goal with
  | |- context [ TCPServer.serve_forever ?c connections ?s0 ?q ] =>
      pose proof (serve_forever_errors env connections s0 q eq_refl) as He;
      destruct (TCPServer.serve_forever c connections s0 q) as [[b s1] q1]
  end.
  simpl in He. destruct b; intros [= <- _]; exact He.
Qed.

Lemma loop_survives_handlers_that_raise_witness :
  exists srv p',
    start_server.main Example.linux Edge.env
      [Example.request ("GET " ++ Edge.nul_target ++ " HTTP/1.0") [];
       Example.request "GET /index.html HTTP/1.0" []]
      Example.fresh
    = (start_server.Serving, Some srv, p')
    /\ TCPServer.served srv
       = map (fun request =>
                wfile (final (start_server.MyHTTPRequestHandler.__init__
                                Edge.env request)))
           [Example.request ("GET " ++ Edge.nul_target ++ " HTTP/1.0") [];
            Example.request "GET /index.html HTTP/1.0" []]
    /\ TCPServer.errors srv
       = raised (start_server.MyHTTPRequestHandler.__init__ Edge.env)
           [Example.request ("GET " ++ Edge.nul_target ++ " HTTP/1.0") [];
            Example.request "GET /index.html HTTP/1.0" []].
Proof.
  exact (loop_survives_handlers_that_raise _ Example.linux Edge.env _
           Example.fresh [("0.0.0.0", 5000)] eq_refl).
Defined.

(** ** One request for each connection *)

Lemma stays_closed_ret {A} (a : A) : stays_closed (ret a).
Proof. intros h a' h' H [= _ <-]. exact H. Qed.

Lemma stays_closed_raise {A} (e : exn) : stays_closed (@raise A e).
Proof. intros h a' h' _ [=]. Qed.

Lemma stays_closed_get : stays_closed get.
Proof. intros h a' h' H [= _ <-]. exact H. Qed.

Lemma stays_closed_modify (f : handler -> handler) :
  (forall h, close_connection (f h) = close_connection h) ->
  stays_closed (modify f).
Proof. intros Hf h a h' H [= _ <-]. now rewrite Hf. Qed.

Lemma stays_closed_set_true : stays_closed (modify (set_close_connection true)).
Proof. intros h a h' _ [= _ <-]. reflexivity. Qed.

Lemma stays_closed_bind {A B} (m : M A) (k : A -> M B) :
  stays_closed m -> (forall a, stays_closed (k a)) -> stays_closed (bind m k).
Proof.
  intros Hm Hk h b h' H E. unfold bind in E.
  destruct (m h) as [a h1|e h1] eqn:E1; [ | discriminate E ].
  exact (Hk a h1 b h' (Hm h a h1 H E1) E).
Qed.

Lemma closes_bind_r {A B} (m : M A) (k : A -> M B) :
  (forall a, closes (k a)) -> closes (bind m k).
Proof.
  intros Hk h b h' E. unfold bind in E.
  destruct (m h) as [a h1|e h1]; [ | discriminate E ].
  exact (Hk a h1 b h' E).
Qed.

Lemma closes_bind_l {A B} (m : M A) (k : A -> M B) :
  closes m -> (forall a, stays_closed (k a)) -> closes (bind m k).
Proof.
  intros Hm Hk h b h' E. unfold bind in E.
  destruct (m h) as [a h1|e h1] eqn:E1; [ | discriminate E ].
  exact (Hk a h1 b h' (Hm h a h1 E1) E).
Qed.

Lemma closes_set_true : closes (modify (set_close_connection true)).
Proof. intros h a h' [= _ <-]. reflexivity. Qed.

Lemma closes_raise {A} (e : exn) : closes (@raise A e).
Proof. intros h a' h' [=]. Qed.

Ltac closed_step :=
  match goal with
  | |- stays_closed (bind _ _) => apply stays_closed_bind; [ | intros ? ]
  | |- stays_closed (ret _) => apply stays_closed_ret
  | |- stays_closed (raise _) => apply stays_closed_raise
  | |- stays_closed get => apply stays_closed_get
  | |- stays_closed (modify (set_close_connection true)) =>
      apply stays_closed_set_true
  | |- stays_closed (modify _) =>
      apply stays_closed_modify; intro; reflexivity
  | |- stays_closed (write _) =>
      apply stays_closed_modify; intro; reflexivity
  | |- stays_closed (if false then _ else _) => cbv iota
  | |- stays_closed (if ?b && false then _ else _) => rewrite andb_false_r
  | |- stays_closed (if ?b && false && ?c then _ else _) =>
      rewrite andb_false_r; cbn [andb]
  | |- stays_closed (if ?b then _ else _) => destruct b
  | |- stays_closed (match ?x with _ => _ end) => destruct x
  end.

Section Closed.
Variable env : environment.
Let sv := SimpleHTTPRequestHandler.server_version.
Let eh := start_server.MyHTTPRequestHandler.end_headers.

Lemma stays_closed_send_header (keyword value : string) :
  String.eqb (Py.lower keyword) "connection" = false ->
  stays_closed (BaseHTTPRequestHandler.send_header keyword value).
Proof.
  intro Hk. unfold BaseHTTPRequestHandler.send_header. rewrite Hk.
  repeat closed_step.
Qed.

Lemma closes_send_header_close :
  closes (BaseHTTPRequestHandler.send_header "Connection" "close").
Proof.
  unfold BaseHTTPRequestHandler.send_header.
  change (String.eqb (Py.lower "Connection") "connection") with true.
  change (String.eqb (Py.lower "close") "close") with true. cbv iota.
  apply closes_bind_r. intros h. apply closes_bind_r. intros _.
  apply closes_set_true.
Qed.

Lemma stays_closed_send_response_only (code : Z) (message : option string) :
  stays_closed (BaseHTTPRequestHandler.send_response_only code message).
Proof. unfold BaseHTTPRequestHandler.send_response_only. repeat closed_step. Qed.

Lemma stays_closed_send_response (code : Z) (message : option string) :
  stays_closed (BaseHTTPRequestHandler.send_response env sv code message).
Proof.
  unfold BaseHTTPRequestHandler.send_response,
    BaseHTTPRequestHandler.log_request.
  repeat (apply stays_closed_bind; [ | intros _ ]).
  - closed_step.
  - apply stays_closed_send_response_only.
  - now apply stays_closed_send_header.
  - now apply stays_closed_send_header.
Qed.

Lemma stays_closed_end_headers : stays_closed eh.
Proof.
  unfold eh, start_server.MyHTTPRequestHandler.end_headers.
  repeat (apply stays_closed_bind;
          [ now apply stays_closed_send_header | intros _ ]).
  unfold BaseHTTPRequestHandler.end_headers,
    BaseHTTPRequestHandler.flush_headers.
  repeat closed_step.
Qed.

Lemma closes_send_error (code : Z) (message explain : option string) :
  closes (BaseHTTPRequestHandler.send_error env sv eh code message explain).
Proof.
  unfold BaseHTTPRequestHandler.send_error.
  destruct (BaseHTTPRequestHandler.orelse _ _) as [shortmsg longmsg].
  apply closes_bind_r; intros _. apply closes_bind_r; intros _.
  apply closes_bind_l; [ apply closes_send_header_close | intros _ ].
  apply stays_closed_bind.
  - destruct (_ && _).
    + repeat (apply stays_closed_bind;
              [ now apply stays_closed_send_header | intros _ ]).
      apply stays_closed_ret.
    + apply stays_closed_ret.
  - intros body.
    apply stays_closed_bind; [ apply stays_closed_end_headers | intros _ ].
    repeat closed_step.
Qed.

Lemma closes_stays {A} (m : M A) : closes m -> stays_closed m.
Proof. intros Hm h a h' _ E. exact (Hm h a h' E). Qed.

Ltac closed_known :=
  first
    [ apply closes_stays, closes_send_error
    | apply stays_closed_send_response
    | apply stays_closed_send_response_only
    | apply stays_closed_send_header; reflexivity
    | apply stays_closed_end_headers
    | closed_step ].

Lemma stays_closed_parse_rest :
  stays_closed (BaseHTTPRequestHandler.handle_expect_100 eh).
Proof.
  unfold BaseHTTPRequestHandler.handle_expect_100. repeat closed_known.
Qed.

(** [parse_request] sets the flag at its start, and with
    [protocol_version] HTTP/1.0 nothing after that clears it: neither a
    version 1.1 on the request line nor [Connection: keep-alive]. *)
Lemma closes_parse_request :
  closes (BaseHTTPRequestHandler.parse_request env sv eh).
Proof.
  unfold BaseHTTPRequestHandler.parse_request.
  change (Py.ge BaseHTTPRequestHandler.protocol_version "HTTP/1.1") with false.
  apply closes_bind_r; intros _. apply closes_bind_r; intros _.
  apply closes_bind_l; [ apply closes_set_true | intros _ ].
  repeat first [ apply stays_closed_parse_rest | closed_known ].
Qed.

Lemma stays_closed_list_directory (p : string) :
  stays_closed (SimpleHTTPRequestHandler.list_directory env eh p).
Proof.
  unfold SimpleHTTPRequestHandler.list_directory, SimpleHTTPRequestHandler.touch,
    SimpleHTTPRequestHandler.send_error, SimpleHTTPRequestHandler.send_response.
  repeat closed_known.
Qed.

Lemma stays_closed_send_head :
  stays_closed (SimpleHTTPRequestHandler.send_head env eh).
Proof.
  unfold SimpleHTTPRequestHandler.send_head, SimpleHTTPRequestHandler.touch,
    SimpleHTTPRequestHandler.send_error, SimpleHTTPRequestHandler.send_response.
  repeat first [ apply stays_closed_list_directory | closed_known ].
Qed.

Lemma stays_closed_do_method (mname : string) (method : M unit) :
  start_server.MyHTTPRequestHandler.do_method env mname = Some method ->
  stays_closed method.
Proof.
  unfold start_server.MyHTTPRequestHandler.do_method,
    SimpleHTTPRequestHandler.do_method.
  destruct (String.eqb mname "do_GET").
  - intros [= <-]. unfold SimpleHTTPRequestHandler.do_GET,
      SimpleHTTPRequestHandler.copyfile.
    apply stays_closed_bind; [ apply stays_closed_send_head | ].
    intros [f|]; closed_step.
  - destruct (String.eqb mname "do_HEAD"); [ | discriminate ].
    intros [= <-]. unfold SimpleHTTPRequestHandler.do_HEAD.
    apply stays_closed_bind; [ apply stays_closed_send_head | ].
    intros f. closed_step.
Qed.

Lemma closes_handle_one_request :
  closes (start_server.MyHTTPRequestHandler.handle_one_request env).
Proof.
  unfold start_server.MyHTTPRequestHandler.handle_one_request,
    BaseHTTPRequestHandler.handle_one_request.
  apply closes_bind_r; intros h0.
  destruct (Py.readline _ _) as [line rest].
  apply closes_bind_r; intros _. apply closes_bind_r; intros _.
  destruct (_ <? _).
  - do 3 (apply closes_bind_r; intros _). apply closes_send_error.
  - destruct (Py.is_empty line); [ apply closes_set_true | ].
    apply closes_bind_l; [ apply closes_parse_request | intros ok ].
    destruct (negb ok); [ apply stays_closed_ret | ].
    apply stays_closed_bind; [ apply stays_closed_get | intros h1 ].
    destruct (start_server.MyHTTPRequestHandler.do_method env _)
      as [method|] eqn:E.
    + exact (stays_closed_do_method _ _ E).
    + apply closes_stays, closes_send_error.
Qed.

End Closed.

(** X14. Each connection carries one request: whatever the client sends,
    including a request line with HTTP/1.1 or a header
    [Connection: keep-alive] and further requests behind the first,
    [handle] runs [handle_one_request] once and the loop that would read
    a second request is not entered. *)
Theorem one_request_for_each_connection :
  forall (env : environment) (request : string),
  start_server.MyHTTPRequestHandler.__init__ env request
  = start_server.MyHTTPRequestHandler.handle_one_request env (accepted request).
Proof.
  intros env request. apply handle_once.
  intros h' E. exact (closes_handle_one_request env _ tt h' E).
Qed.

(** ** Paths, once more *)

(** X15. Whatever a client sends, every path the handler passes to [open]
    or to [os.listdir] descends from the base directory [.] through simple
    names: no component is empty, [.] or [..], and none holds a slash.  A
    target with [..] in it is not turned down; its dot-dot components are
    dropped and the rest is looked up under the base. *)
Theorem every_path_opened_is_under_the_base :
  forall (env : environment) (request : string),
  Forall inside
    (opened (final (start_server.MyHTTPRequestHandler.__init__ env request))).
Proof.
  intros env request. apply connection_opens_inside.
Qed.

(** X16. The override of [end_headers] returns on every handler, also on
    one that has buffered nothing, where the inherited [end_headers] alone
    would find no buffer.  With HTTP/0.9 on record it leaves the handler as
    it was; otherwise it writes one block, made of what was buffered, the
    three headers in the order of the source and the blank line, and
    leaves the buffer empty. *)
Theorem end_headers_override_flushes_one_block :
  forall h : handler,
  exists h',
    start_server.MyHTTPRequestHandler.end_headers h = Return tt h'
    /\ if String.eqb (request_version h) "HTTP/0.9" then h' = h
       else
         wfile h'
         = (wfile h ++
            [HeaderBlock
               (BaseHTTPRequestHandler.orelse (_headers_buffer h) [] ++
                [Header "Access-Control-Allow-Origin" "*";
                 Header "Access-Control-Allow-Methods" "GET, POST, OPTIONS";
                 Header "Access-Control-Allow-Headers" "Content-Type";
                 EndOfHeaders])])%list
         /\ _headers_buffer h' = Some []
         /\ close_connection h' = close_connection h.
Proof.
  intro h. destruct (String.eqb (request_version h) "HTTP/0.9") eqn:E.
  - exists h. split; [ now apply end_headers_silent | reflexivity ].
  - destruct (end_headers_writes h E) as (h' & R & W & B & _ & _ & _ & C & _).
    exists h'. repeat split; assumption.
Qed.

Lemma split1_from_first (sep : ascii) (s word : string) :
  nth 0 (Py.split1_from sep s word) EmptyString = word ++ before sep s.
Proof.
  unfold before, Py.split1. revert word.
  induction s as [|c s IH]; intro word; simpl.
  - now rewrite append_empty_r.
  - destruct (Ascii.eqb c sep); simpl.
    + now rewrite append_empty_r.
    + rewrite IH. rewrite (IH (Py.snoc EmptyString c)).
      unfold Py.snoc. rewrite <- append_associative. reflexivity.
Qed.

Lemma before_cons (sep c : ascii) (s : string) :
  before sep (String c s)
  = if Ascii.eqb c sep then EmptyString else String c (before sep s).
Proof.
  unfold before at 1, Py.split1. simpl.
  destruct (Ascii.eqb c sep); [ reflexivity | ].
  now rewrite split1_from_first.
Qed.

Lemma before_append (sep : ascii) (q rest : string) :
  before sep (q ++ String sep rest) = before sep q.
Proof.
  induction q as [|c q IH]; simpl.
  - rewrite before_cons, Ascii.eqb_refl. reflexivity.
  - rewrite !before_cons. destruct (Ascii.eqb c sep); [ reflexivity | ].
    now rewrite IH.
Qed.

Lemma before_before_append (a b : ascii) (q rest : string) :
  before b (before a (q ++ String b rest)) = before b (before a q).
Proof.
  induction q as [|c q IH]; simpl.
  - rewrite before_cons.
    destruct (Ascii.eqb b a); [ reflexivity | ].
    rewrite before_cons, Ascii.eqb_refl. reflexivity.
  - rewrite !(before_cons a). destruct (Ascii.eqb c a); [ reflexivity | ].
    rewrite !(before_cons b). destruct (Ascii.eqb c b); [ reflexivity | ].
    now rewrite IH.
Qed.

Lemma translate_path_before (env : environment) (directory q q' : string) :
  before "#" (before "?" q) = before "#" (before "?" q') ->
  SimpleHTTPRequestHandler.translate_path env directory q
  = SimpleHTTPRequestHandler.translate_path env directory q'.
Proof.
  intro E. unfold SimpleHTTPRequestHandler.translate_path.
  fold (before "?" q) (before "?" q').
  fold (before "#" (before "?" q)) (before "#" (before "?" q')).
  now rewrite E.
Qed.

(** X17. The query and the fragment of a target play no part in the path
    that is looked up: whatever follows a question mark or a hash is cut
    off before the target is unquoted, normalised and joined to the
    directory. *)
Theorem translate_path_ignores_query_and_fragment :
  forall (env : environment) (directory q rest : string),
  SimpleHTTPRequestHandler.translate_path env directory (q ++ String "?" rest)
  = SimpleHTTPRequestHandler.translate_path env directory q
  /\ SimpleHTTPRequestHandler.translate_path env directory (q ++ String "#" rest)
     = SimpleHTTPRequestHandler.translate_path env directory q.
Proof.
  intros env directory q rest. split; apply translate_path_before.
  - now rewrite before_append.
  - apply before_before_append.
Qed.

(** ** The header lines of a request *)

Lemma readline_joins (s : string) :
  forall (limit : Z) (l r : string),
  Py.readline s limit = (l, r) -> l ++ r = s.
Proof.
  induction s as [|c s IH]; intros limit l r; simpl.
  - now intros [= <- <-].
  - destruct (limit <=? 0); [ now intros [= <- <-] | ].
    destruct (Ascii.eqb c Py.LF); [ now intros [= <- <-] | ].
    destruct (Py.readline s (limit - 1)) as [l' r'] eqn:E.
    intros [= <- <-]. simpl. now rewrite (IH _ _ _ E).
Qed.

Lemma readline_within (s : string) :
  forall (limit : Z) (l r : string),
  0 <= limit -> Py.readline s limit = (l, r) -> Py.len l <= limit.
Proof.
  unfold Py.len.
  induction s as [|c s IH]; intros limit l r Hlimit; simpl.
  - intros [= <- <-]. simpl. lia.
  - destruct (limit <=? 0) eqn:E0; [ intros [= <- <-]; simpl; lia | ].
    apply Z.leb_gt in E0.
    destruct (Ascii.eqb c Py.LF); [ intros [= <- <-]; simpl; lia | ].
    destruct (Py.readline s (limit - 1)) as [l' r'] eqn:E.
    intros [= <- <-]. simpl String.length.
    assert (H := IH (limit - 1) l' r' ltac:(lia) E). lia.
Qed.

Lemma _read_headers_lines (room : nat) :
  forall (rfile : string) (headers lines : list string) (rest : string),
  BaseHTTPRequestHandler._read_headers room rfile headers = (inr lines, rest) ->
  exists new,
    lines = (headers ++ new)%list
    /\ (1 <= length new <= room)%nat
    /\ Forall (fun l => Py.len l <= 65536) new
    /\ String.concat EmptyString new ++ rest = rfile.
Proof.
  induction room as [|room IH]; intros rfile headers lines rest; simpl.
  - destruct (Py.readline rfile _) as [line more].
    destruct (_ <? _); discriminate.
  - destruct (Py.readline rfile _) as [line more] eqn:Hread.
    destruct (BaseHTTPRequestHandler._MAXLINE <? Py.len line) eqn:Hlen;
      [ discriminate | ].
    apply Z.ltb_ge in Hlen.
    change BaseHTTPRequestHandler._MAXLINE with 65536 in Hlen.
    apply readline_joins in Hread.
    destruct (_ || _).
    + intros [= <- <-]. exists [line]. simpl.
      repeat split; try lia; [ now repeat constructor | exact Hread ].
    + intro E. apply IH in E. destruct E as (new & -> & Hn & Hall & Hcat).
      exists (line :: new). rewrite <- app_assoc.
      split; [ reflexivity | ].
      split; [ simpl; lia | ].
      split; [ now constructor | ].
      rewrite concat_empty_cons, append_associative, Hcat.
      exact Hread.
Qed.

(** X18. The header lines [parse_request] accepts are at most one hundred,
    the blank line that ends them included, each of at most 65536 bytes;
    they are the bytes the client sent after the request line, in order
    and without loss, and what follows them stays unread. *)
Theorem header_lines_are_bounded_and_complete :
  forall (more : string) (lines : list string) (rest : string),
  BaseHTTPRequestHandler._read_headers BaseHTTPRequestHandler._MAXHEADERS more []
  = (inr lines, rest) ->
  (1 <= length lines <= 100)%nat
  /\ Forall (fun l => Py.len l <= 65536) lines
  /\ String.concat EmptyString lines ++ rest = more.
Proof.
  intros more lines rest E.
  apply _read_headers_lines in E. destruct E as (new & -> & Hn & Hall & Hcat).
  simpl. unfold BaseHTTPRequestHandler._MAXHEADERS in Hn. now repeat split.
Qed.

Lemma header_lines_are_bounded_and_complete_witness :
  (1 <= length ["Host: localhost" ++ Py.CRLF; Py.CRLF] <= 100)%nat
  /\ Forall (fun l => Py.len l <= 65536) ["Host: localhost" ++ Py.CRLF; Py.CRLF]
  /\ String.concat EmptyString ["Host: localhost" ++ Py.CRLF; Py.CRLF] ++ "body"
     = "Host: localhost" ++ Py.CRLF ++ Py.CRLF ++ "body".
Proof.
  apply (header_lines_are_bounded_and_complete
           ("Host: localhost" ++ Py.CRLF ++ Py.CRLF ++ "body")
           ["Host: localhost" ++ Py.CRLF; Py.CRLF] "body").
  reflexivity.
Defined.

(** ** Directories, and header lines beyond the limits *)
Section Directories.
Variable env : environment.
Let sv := SimpleHTTPRequestHandler.server_version.
Let eh := start_server.MyHTTPRequestHandler.end_headers.

#[local] Arguments Py.split_ws : simpl never.
#[local] Arguments Py.rstrip : simpl never.
#[local] Arguments Py.lstrip : simpl never.
#[local] Arguments Py.lower : simpl never.
#[local] Arguments Py.startswith : simpl never.
#[local] Arguments Py.endswith : simpl never.
#[local] Arguments Py.str : simpl never.
#[local] Arguments Py.len : simpl never.
#[local] Arguments String.concat : simpl never.
#[local] Arguments String.append : simpl never.
#[local] Arguments BaseHTTPRequestHandler.parse_version : simpl never.
#[local] Arguments BaseHTTPRequestHandler._read_headers : simpl never.
#[local] Arguments BaseHTTPRequestHandler.send_error : simpl never.
#[local] Arguments BaseHTTPRequestHandler.tuple_ge : simpl never.
#[local] Arguments BaseHTTPRequestHandler.version_string : simpl never.
#[local] Arguments BaseHTTPRequestHandler.date_time_string : simpl never.
#[local] Arguments SimpleHTTPRequestHandler.translate_path : simpl never.
#[local] Arguments SimpleHTTPRequestHandler.guess_type : simpl never.
#[local] Arguments SimpleHTTPRequestHandler.not_modified : simpl never.
#[local] Arguments posixpath.join2 : simpl never.

Ltac open_dir :=
  unfold SimpleHTTPRequestHandler.send_head,
    SimpleHTTPRequestHandler.list_directory,
    SimpleHTTPRequestHandler.send_response, SimpleHTTPRequestHandler.send_error,
    resolved, file_headers, listing_headers, version_string, index_of in *.

Ltac exec_dir := open_dir; unfold eh; monad_unfold; simpl.

(** A path joined to a simple name does not end with a slash. *)
Lemma join2_no_final_slash (a w : string) :
  simple_name w = true -> Py.endswith (posixpath.join2 a w) "/" = false.
Proof.
  intro Hw. destruct (simple_name_facts w Hw) as (Hne & Hs & Hl).
  apply not_true_iff_false. intro E. apply endswith_last_char in E.
  unfold posixpath.join2 in E. rewrite Hs in E.
  destruct (_ || _).
  - rewrite last_char_append in E by assumption. contradiction.
  - rewrite last_char_append in E by discriminate.
    change ("/" ++ w) with (String "/" w) in E.
    destruct w as [|c w']; [ contradiction | contradiction ].
Qed.

Lemma index_of_no_final_slash (path index : string) :
  index_of env path = Some index -> Py.endswith index "/" = false.
Proof.
  unfold index_of.
  destruct (isfile env _).
  - intros [= <-]. now apply join2_no_final_slash.
  - destruct (isfile env _); [ | discriminate ].
    intros [= <-]. now apply join2_no_final_slash.
Qed.


(** [send_head] for such a directory when [os.listdir] raises. *)
Lemma send_head_listing_denied (h : handler) (target : string)
    (scheme netloc ppath query fragment : string) :
  String.eqb (request_version h) "HTTP/0.9" = false ->
  command h = Some "GET" ->
  path h = request_path target ->
  wfile h = [] -> _headers_buffer h = None ->
  directory h = start_server.DIRECTORY ->
  isdir env (resolved env target) = true ->
  urlsplit env (request_path target)
  = Some (scheme, netloc, ppath, query, fragment) ->
  Py.endswith ppath "/" = true ->
  index_of env (resolved env target) = None ->
  listdir env (resolved env target) = None ->
  exists h',
    SimpleHTTPRequestHandler.send_head env eh h = Return None h'
    /\ wfile h' = error_response env 404 "No permission to list directory"
                    "Nothing matches the given URI"
    /\ close_connection h' = true
    /\ opened h' = (opened h ++ [resolved env target])%list.
Proof.
  destruct h as [d rf w rrl rl rv c pa hd cc b e o].
  cbn [request_version command path wfile _headers_buffer directory opened
       close_connection headers].
  intros Hv -> -> -> -> -> Hdir Hsplit Hslash Hindex Hlist.
  open_dir.
  remember (BaseHTTPRequestHandler.send_error env
              SimpleHTTPRequestHandler.server_version eh) as se eqn:Hse.
  unfold eh. monad_unfold. simpl.
  rewrite Hdir, Hsplit, Hslash. simpl.
  destruct (isfile env _); [ discriminate Hindex | ].
  destruct (isfile env _); [ discriminate Hindex | ].
  simpl. rewrite Hlist. simpl. subst se.
  match goal with
  | |- context [ BaseHTTPRequestHandler.send_error env _ _ 404 (Some ?m) None ?h0 ] =>
      destruct (send_error_effect env h0 404 m None eq_refl eq_refl)
        as (h1 & E1 & W1 & _ & C1 & _ & _ & _ & O1 & _)
  end.
  fold eh in E1. rewrite E1. exists h1. split; [ reflexivity | ].
  rewrite W1, O1. cbn. unfold error_chunks. rewrite Hv.
  repeat split; trivial.
Qed.

(** [send_head] for a directory named with its final slash that has an
    index page: the page is served as a file is. *)
Lemma send_head_index (h : handler) (target index : string)
    (scheme netloc ppath query fragment : string) (f : file) :
  String.eqb (request_version h) "HTTP/0.9" = false ->
  path h = request_path target ->
  wfile h = [] -> _headers_buffer h = None ->
  directory h = start_server.DIRECTORY ->
  isdir env (resolved env target) = true ->
  urlsplit env (request_path target)
  = Some (scheme, netloc, ppath, query, fragment) ->
  Py.endswith ppath "/" = true ->
  index_of env (resolved env target) = Some index ->
  open_rb env index = inr f ->
  SimpleHTTPRequestHandler.not_modified env (headers h) f = false ->
  exists h',
    SimpleHTTPRequestHandler.send_head env eh h = Return (Some f) h'
    /\ wfile h'
       = [HeaderBlock
            (file_headers env (SimpleHTTPRequestHandler.guess_type env index) f)]
    /\ close_connection h' = close_connection h
    /\ opened h' = (opened h ++ [index])%list.
Proof.
  destruct h as [d rf w rrl rl rv c pa hd cc b e o].
  cbn [request_version command path wfile _headers_buffer directory opened
       close_connection headers].
  intros Hv -> -> -> -> Hdir Hsplit Hslash Hindex Hopen Hnm.
  pose proof (index_of_no_final_slash _ _ Hindex) as Hfinal.
  exec_dir. rewrite Hdir, Hsplit, Hslash. simpl.
  destruct (isfile env _).
  - injection Hindex as Hindex. rewrite Hindex. simpl.
    rewrite Hfinal, Hopen. simpl. rewrite Hnm. simpl.
    repeat (progress (rewrite ?Hv); simpl).
    eexists. split; [ reflexivity | ]. simpl. repeat split; reflexivity.
  - destruct (isfile env _); [ | discriminate Hindex ].
    injection Hindex as Hindex. rewrite Hindex. simpl.
    rewrite Hfinal, Hopen. simpl. rewrite Hnm. simpl.
    repeat (progress (rewrite ?Hv); simpl).
    eexists. split; [ reflexivity | ]. simpl. repeat split; reflexivity.
Qed.

(** [do_HEAD] for a path that is no directory and does not open: the
    header block of the answer 404, without the page. *)
Lemma do_HEAD_missing (h : handler) (target : string) :
  String.eqb (request_version h) "HTTP/0.9" = false ->
  command h = Some "HEAD" -> path h = request_path target ->
  wfile h = [] -> _headers_buffer h = None ->
  directory h = start_server.DIRECTORY ->
  isdir env (resolved env target) = false ->
  Py.endswith (resolved env target) "/" = true
  \/ open_rb env (resolved env target) = inl OSError ->
  exists h',
    SimpleHTTPRequestHandler.do_HEAD env eh h = Return tt h'
    /\ wfile h'
       = [HeaderBlock
            (error_headers env 404 "File not found"
               "Nothing matches the given URI")]
    /\ close_connection h' = true.
Proof.
  destruct h as [d rf w rrl rl rv c pa hd cc b e o].
  cbn [request_version command path wfile _headers_buffer directory].
  intros Hv -> -> -> -> -> Hdir Hmiss.
  unfold SimpleHTTPRequestHandler.do_HEAD.
  open_dir.
  remember (BaseHTTPRequestHandler.send_error env
              SimpleHTTPRequestHandler.server_version eh) as se eqn:Hse.
  unfold eh. monad_unfold. simpl. rewrite Hdir. simpl.
  assert (Hsend : forall h0,
            request_version h0 = rv -> command h0 = Some "HEAD" ->
            wfile h0 = [] -> _headers_buffer h0 = None ->
            exists h',
              match se 404 (Some "File not found") None h0 with
              | Return _ h1 => Return tt h1
              | Raise x h1 => Raise x h1
              end = Return tt h'
              /\ wfile h'
                 = [HeaderBlock (error_headers env 404 "File not found"
                                   "Nothing matches the given URI")]
              /\ close_connection h' = true).
  { intros h0 V0 C0 W0 B0. subst se.
    destruct (send_error_effect env h0 404 "File not found" None eq_refl)
      as (h1 & E1 & W1 & _ & C1 & _).
    { now rewrite B0. }
    fold eh in E1. rewrite E1. exists h1. split; [ reflexivity | ].
    split; [ | exact C1 ]. rewrite W1, W0. unfold error_chunks.
    rewrite V0, Hv, C0. reflexivity. }
  destruct (Py.endswith _ "/") eqn:Hslash.
  - simpl.
    match goal with
    | |- context [ se 404 _ None ?h0 ] =>
        destruct (Hsend h0 eq_refl eq_refl eq_refl eq_refl) as (h1 & E1 & R)
    end.
    exists h1. split; [ | exact R ].
    destruct (se 404 _ None _); [ exact E1 | discriminate E1 ].
  - destruct Hmiss as [Hmiss|Hmiss]; [ discriminate Hmiss | ].
    simpl. rewrite Hmiss.
    match goal with
    | |- context [ se 404 _ None ?h0 ] =>
        destruct (Hsend h0 eq_refl eq_refl eq_refl eq_refl) as (h1 & E1 & R)
    end.
    exists h1. split; [ | exact R ].
    destruct (se 404 _ None _); [ exact E1 | discriminate E1 ].
Qed.

(** [parse_request] on a request line as in [parse_request_accepts]
    followed by header lines beyond the limits: the answer 431, sent with
    the version and the command of the request line on record. *)
Lemma parse_request_overflow
    (line more version base method target rest : string) (number : Z * Z)
    (e : BaseHTTPRequestHandler.header_error) (h : handler) :
  Py.split_ws (Py.rstrip Py.is_crlf line) = [method; target; version] ->
  BaseHTTPRequestHandler.parse_version env version = Some (base, number) ->
  BaseHTTPRequestHandler.tuple_ge number (2, 0) = false ->
  String.eqb version "HTTP/0.9" = false ->
  BaseHTTPRequestHandler._read_headers BaseHTTPRequestHandler._MAXHEADERS more []
  = (inl e, rest) ->
  raw_requestline h = line -> rfile h = more ->
  wfile h = [] -> _headers_buffer h = None ->
  exists h',
    BaseHTTPRequestHandler.parse_request env sv eh h = Return false h'
    /\ wfile h'
       = (HeaderBlock
            (error_headers env 431 (overflow_message e) (overflow_explain e))
          :: (if String.eqb method "HEAD" then []
              else [Body (error_page 431 (overflow_message e)
                            (overflow_explain e))]))%list
    /\ close_connection h' = true /\ opened h' = opened h.
Proof.
  intros Hwords Hversion Hbelow Hv Hheaders.
  destruct h as [d rf w rrl rl rv c pa hd cc b e0 o].
  cbn [raw_requestline rfile wfile _headers_buffer opened].
  intros -> -> -> ->.
  unfold BaseHTTPRequestHandler.parse_request.
  remember (BaseHTTPRequestHandler.send_error env sv eh) as se eqn:Hse.
  monad_unfold. simpl. rewrite Hwords. simpl. rewrite Hversion. simpl.
  rewrite andb_false_r, Hbelow. simpl.
  destruct (Py.startswith target "//"); simpl; rewrite Hheaders; simpl;
    subst se; destruct e; simpl;
    match goal with
    | |- context [ BaseHTTPRequestHandler.send_error env _ _ 431 (Some ?m)
                     (Some ?x) ?h0 ] =>
        destruct (send_error_effect env h0 431 m (Some x) eq_refl eq_refl)
          as (h1 & E1 & W1 & _ & C1 & _ & _ & _ & O1 & _)
    end;
    fold sv eh in E1; rewrite E1; exists h1; (split; [ reflexivity | ]);
    rewrite W1, O1; cbn; unfold error_chunks; rewrite Hv;
    repeat split; trivial.
Qed.

End Directories.

(** X19. A request over HTTP/1.x whose header lines go beyond the limits,
    a line of more than 65536 bytes or more than a hundred lines, is
    answered 431 with the message of the limit passed; the header block
    is a full one, with the three CORS headers, the page follows unless
    the method is HEAD, and no path has been looked up. *)
Theorem header_overflow_is_answered_431 :
  forall (env : environment) (request method target : string)
         (e : BaseHTTPRequestHandler.header_error),
  header_overflow env request method target e ->
  exists h,
    start_server.MyHTTPRequestHandler.__init__ env request = Return tt h
    /\ wfile h
       = (HeaderBlock
            (error_headers env 431 (overflow_message e) (overflow_explain e))
          :: (if String.eqb method "HEAD" then []
              else [Body (error_page 431 (overflow_message e)
                            (overflow_explain e))]))%list
    /\ opened h = [].
Proof.
  intros env request method target e
    (line & more & version & base & number & rest
     & Hread & Hlen & Hwords & Hversion & Hbelow & Hv & Hheaders).
  assert (Hne : Py.is_empty line = false).
  { destruct line; [ discriminate Hwords | reflexivity ]. }
  destruct (parse_request_overflow env line more version base method target
              rest number e
              (set_raw_requestline line (set_rfile more (accepted request)))
              Hwords Hversion Hbelow Hv Hheaders eq_refl eq_refl eq_refl eq_refl)
    as (h & E & W & C & O).
  exists h. split; [ | split; [ exact W | exact O ] ].
  now apply (connection_rejected env request line more h Hread Hlen Hne E C).
Qed.

Lemma header_overflow_is_answered_431_witness :
  exists h,
    start_server.MyHTTPRequestHandler.__init__ Tree.env Tree.crowded
    = Return tt h
    /\ wfile h
       = [HeaderBlock
            (error_headers Tree.env 431 "Too many headers"
               "got more than 100 headers");
          Body (error_page 431 "Too many headers" "got more than 100 headers")]
    /\ opened h = [].
Proof.
  apply (header_overflow_is_answered_431 Tree.env Tree.crowded "GET"
           "/index.html" BaseHTTPRequestHandler.TooManyHeaders).
  unfold header_overflow. do 6 eexists.
  split; [ reflexivity | ].
  split; [ apply Z.leb_le; reflexivity | ].
  repeat (split; [ reflexivity | ]); reflexivity.
Defined.



(** X21. A GET request over HTTP/1.x for a directory named with its final
    slash that holds [index.html], or else [index.htm], is answered with
    that file: its content type, size and date, the three CORS headers and
    its bytes; the directory is not listed. *)
Theorem get_of_a_directory_with_index_sends_the_index :
  forall (env : environment) (request target hstring index : string)
         (scheme netloc ppath query fragment : string) (f : file),
  http1_request env request "GET" target hstring ->
  isdir env (resolved env target) = true ->
  urlsplit env (request_path target)
  = Some (scheme, netloc, ppath, query, fragment) ->
  Py.endswith ppath "/" = true ->
  index_of env (resolved env target) = Some index ->
  open_rb env index = inr f ->
  SimpleHTTPRequestHandler.not_modified env hstring f = false ->
  exists h,
    start_server.MyHTTPRequestHandler.__init__ env request = Return tt h
    /\ wfile h
       = [HeaderBlock
            (file_headers env (SimpleHTTPRequestHandler.guess_type env index) f);
          Body (contents f)]
    /\ opened h = [index].
Proof.
  intros env request target hstring index scheme netloc ppath query fragment f
    Hreq Hdir Hsplit Hslash Hindex Hopen Hnm.
  destruct (connection_http1 env request "GET" target hstring Hreq)
    as (h & V & C & P & H & CC & W & B & _ & O & D & E).
  change (start_server.MyHTTPRequestHandler.do_method env ("do_" ++ "GET"))
    with (Some (SimpleHTTPRequestHandler.do_GET env
                  start_server.MyHTTPRequestHandler.end_headers)) in E.
  rewrite <- H in Hnm.
  destruct (send_head_index env h target index scheme netloc ppath query
              fragment f V P W B D Hdir Hsplit Hslash Hindex Hopen Hnm)
    as (h1 & E1 & W1 & C1 & O1).
  assert (Eget : SimpleHTTPRequestHandler.do_GET env
                   start_server.MyHTTPRequestHandler.end_headers h
                 = Return tt (set_wfile (wfile h1 ++ [Body (contents f)])%list h1)).
  { unfold SimpleHTTPRequestHandler.do_GET, bind. rewrite E1. reflexivity. }
  eexists. split; [ | split ].
  - rewrite handle_once; rewrite E, Eget; [ reflexivity | ].
    intros h' [= <-]. simpl. now rewrite C1.
  - simpl. now rewrite W1.
  - simpl. now rewrite O1, O.
Qed.

Lemma get_of_a_directory_with_index_sends_the_index_witness :
  exists h,
    start_server.MyHTTPRequestHandler.__init__ Example.env
      (Example.request "GET / HTTP/1.0" []) = Return tt h
    /\ wfile h
       = [HeaderBlock
            (file_headers Example.env
               (SimpleHTTPRequestHandler.guess_type Example.env "./index.html")
               Example.index_html);
          Body (contents Example.index_html)]
    /\ opened h = ["./index.html"].
Proof.
  eapply (get_of_a_directory_with_index_sends_the_index Example.env _ "/" _
            "./index.html" EmptyString EmptyString "/" EmptyString EmptyString
            Example.index_html).
  - concrete_http1.
  - reflexivity.
  - reflexivity.
  - reflexivity.
  - reflexivity.
  - reflexivity.
  - reflexivity.
Defined.

(** X22. A GET request over HTTP/1.x for a directory named with its final
    slash, without index page, that [os.listdir] refuses is answered 404
    "No permission to list directory", with the three CORS headers and the
    error page. *)
Theorem get_of_a_directory_that_cannot_be_listed_is_answered_404 :
  forall (env : environment) (request target hstring : string)
         (scheme netloc ppath query fragment : string),
  http1_request env request "GET" target hstring ->
  isdir env (resolved env target) = true ->
  urlsplit env (request_path target)
  = Some (scheme, netloc, ppath, query, fragment) ->
  Py.endswith ppath "/" = true ->
  index_of env (resolved env target) = None ->
  listdir env (resolved env target) = None ->
  exists h,
    start_server.MyHTTPRequestHandler.__init__ env request = Return tt h
    /\ wfile h
       = [HeaderBlock
            (error_headers env 404 "No permission to list directory"
               "Nothing matches the given URI");
          Body (error_page 404 "No permission to list directory"
                  "Nothing matches the given URI")].
Proof.
  intros env request target hstring scheme netloc ppath query fragment
    Hreq Hdir Hsplit Hslash Hindex Hlist.
  destruct (connection_http1 env request "GET" target hstring Hreq)
    as (h & V & C & P & H & CC & W & B & _ & O & D & E).
  change (start_server.MyHTTPRequestHandler.do_method env ("do_" ++ "GET"))
    with (Some (SimpleHTTPRequestHandler.do_GET env
                  start_server.MyHTTPRequestHandler.end_headers)) in E.
  destruct (send_head_listing_denied env h target scheme netloc ppath query
              fragment V C P W B D Hdir Hsplit Hslash Hindex Hlist)
    as (h1 & E1 & W1 & C1 & O1).
  assert (Eget : SimpleHTTPRequestHandler.do_GET env
                   start_server.MyHTTPRequestHandler.end_headers h
                 = Return tt h1).
  { unfold SimpleHTTPRequestHandler.do_GET, bind. rewrite E1. reflexivity. }
  exists h1. split; [ | exact W1 ].
  rewrite handle_once; rewrite E, Eget; [ reflexivity | ].
  intros h' [= <-]. exact C1.
Qed.

Lemma get_of_a_directory_that_cannot_be_listed_is_answered_404_witness :
  exists h,
    start_server.MyHTTPRequestHandler.__init__ Tree.env
      (Example.request "GET /locked/ HTTP/1.0" []) = Return tt h
    /\ wfile h
       = [HeaderBlock
            (error_headers Tree.env 404 "No permission to list directory"
               "Nothing matches the given URI");
          Body (error_page 404 "No permission to list directory"
                  "Nothing matches the given URI")].
Proof.
  eapply (get_of_a_directory_that_cannot_be_listed_is_answered_404 Tree.env _
            "/locked/" _ EmptyString EmptyString "/locked/" EmptyString
            EmptyString).
  - concrete_http1.
  - reflexivity.
  - reflexivity.
  - reflexivity.
  - reflexivity.
  - reflexivity.
Defined.

(** X23. A HEAD request over HTTP/1.x for a path that is no directory and
    does not open is answered 404 with the header block a GET would get,
    Content-Length of the error page included, and without the page. *)
Theorem head_of_a_missing_file_gets_404_without_page :
  forall (env : environment) (request target hstring : string),
  http1_request env request "HEAD" target hstring ->
  isdir env (resolved env target) = false ->
  Py.endswith (resolved env target) "/" = true
  \/ open_rb env (resolved env target) = inl OSError ->
  exists h,
    start_server.MyHTTPRequestHandler.__init__ env request = Return tt h
    /\ wfile h
       = [HeaderBlock
            (error_headers env 404 "File not found"
               "Nothing matches the given URI")].
Proof.
  intros env request target hstring Hreq Hdir Hmiss.
  destruct (connection_method env request "HEAD" target hstring _ Hreq eq_refl)
    as (h & V & C & P & H & CC & W & B & D & Hrun).
  destruct (do_HEAD_missing env h target V C P W B D Hdir Hmiss)
    as (h1 & E1 & W1 & C1).
  exists h1. split; [ | exact W1 ].
  apply Hrun; [ exact E1 | ]. intros h' [= <-]. exact C1.
Qed.

Lemma head_of_a_missing_file_gets_404_without_page_witness :
  exists h,
    start_server.MyHTTPRequestHandler.__init__ Example.env
      (Example.request "HEAD /does-not-exist.txt HTTP/1.0" []) = Return tt h
    /\ wfile h
       = [HeaderBlock
            (error_headers Example.env 404 "File not found"
               "Nothing matches the given URI")].
Proof.
  eapply (head_of_a_missing_file_gets_404_without_page Example.env _
            "/does-not-exist.txt").
  - concrete_http1.
  - reflexivity.
  - right. reflexivity.
Defined.

(** ** From the target to the path, exactly *)

Lemma split_from_word (sep : ascii) (w s word : string) :
  contains sep w = false ->
  Py.split_from sep (w ++ s) word = Py.split_from sep s (word ++ w).
Proof.
  revert word. induction w as [|c w IH]; intros word Hw; simpl.
  - now rewrite append_empty_r.
  - simpl in Hw. apply orb_false_iff in Hw. destruct Hw as [Hc Hw].
    rewrite Hc, IH by exact Hw. unfold Py.snoc.
    now rewrite append_associative.
Qed.

Lemma descend_cons (w : string) (words : list string) :
  descend (w :: words) = String "/" (w ++ descend words).
Proof.
  unfold descend. simpl map. rewrite concat_empty_cons. reflexivity.
Qed.

Lemma descend_app (xs ys : list string) :
  descend (xs ++ ys) = descend xs ++ descend ys.
Proof. unfold descend. now rewrite map_app, concat_empty_app. Qed.

(** Splitting [/w1/.../wn] at the slashes gives the empty word and the
    names. *)
Lemma split_descend (words : list string) :
  Forall (fun w => contains "/" w = false) words ->
  forall word, Py.split_from "/" (descend words) word = word :: words.
Proof.
  induction 1 as [|w words Hw _ IH]; intro word.
  - reflexivity.
  - rewrite descend_cons. simpl.
    rewrite (split_from_word "/" w _ EmptyString Hw). simpl.
    now rewrite IH.
Qed.

Lemma simple_name_no_slash (w : string) :
  simple_name w = true -> contains "/" w = false.
Proof.
  unfold simple_name. intro H.
  apply andb_true_iff in H. destruct H as [_ H].
  now apply negb_true_iff in H.
Qed.

Lemma simple_names_no_slash (words : list string) :
  Forall (fun w => simple_name w = true) words ->
  Forall (fun w => contains "/" w = false) words.
Proof.
  intro H. eapply Forall_impl; [ | exact H ].
  intros w Hw. now apply simple_name_no_slash.
Qed.

Lemma rfind_from_absent (c : ascii) (s : string) :
  contains c s = false -> forall i found, posixpath.rfind_from c s i found = found.
Proof.
  induction s as [|a s IH]; intros H i found; simpl; [ reflexivity | ].
  simpl in H. apply orb_false_iff in H. destruct H as [Ha Hs].
  now rewrite Ha, IH.
Qed.

(** A simple name is a component the loop of [translate_path] keeps. *)
Lemma simple_name_kept (w : string) :
  simple_name w = true -> SimpleHTTPRequestHandler.ignored w = false.
Proof.
  intro Hw. pose proof (simple_name_no_slash w Hw) as Hs.
  unfold simple_name in Hw.
  repeat (apply andb_true_iff in Hw; destruct Hw as [Hw ?]).
  rewrite negb_true_iff in *.
  unfold SimpleHTTPRequestHandler.ignored, posixpath.dirname, posixpath.rfind.
  rewrite (rfind_from_absent "/" w Hs). simpl (-1 + 1).
  assert (E : posixpath.slice_to w 0 = EmptyString)
    by (destruct w; reflexivity).
  rewrite E. simpl. now rewrite H1, H0.
Qed.

Lemma fold_translate_simple (words : list string) :
  Forall (fun w => simple_name w = true) words ->
  forall vs, Forall (fun w => simple_name w = true) vs ->
  fold_left SimpleHTTPRequestHandler.translate_step words (under vs)
  = under (vs ++ words).
Proof.
  induction 1 as [|w words Hw _ IH]; intros vs Hvs; simpl.
  - now rewrite app_nil_r.
  - unfold SimpleHTTPRequestHandler.translate_step at 2.
    rewrite (simple_name_kept w Hw), join2_under by assumption.
    rewrite IH by (apply Forall_app; split; [ exact Hvs | now constructor ]).
    now rewrite <- app_assoc.
Qed.

(** The loop of [normpath] from the root: the components [..] at the front
    are dropped, the names are kept. *)
Lemma fold_normpath_dot_dot (k : nat) (comps : list string) :
  fold_left (posixpath.normpath_step 1) (repeat ".." k ++ comps) []
  = fold_left (posixpath.normpath_step 1) comps [].
Proof. induction k as [|k IH]; [ reflexivity | exact IH ]. Qed.

Lemma fold_normpath_simple (words : list string) :
  Forall (fun w => simple_name w = true) words ->
  forall acc,
  fold_left (posixpath.normpath_step 1) words acc = (acc ++ words)%list.
Proof.
  induction 1 as [|w words Hw _ IH]; intro acc; simpl.
  - now rewrite app_nil_r.
  - unfold simple_name in Hw.
    repeat (apply andb_true_iff in Hw; destruct Hw as [Hw ?]).
    rewrite negb_true_iff in *.
    unfold posixpath.normpath_step at 2.
    assert (E : String.eqb w EmptyString = false)
      by (destruct w; [ discriminate Hw | reflexivity ]).
    rewrite E, H1, H0. simpl. rewrite IH, <- app_assoc. reflexivity.
Qed.

Lemma join_slash (w : string) (words : list string) :
  "/" ++ Py.join "/" (w :: words) = descend (w :: words).
Proof.
  unfold Py.join. revert w. induction words as [|v words IH]; intro w.
  - rewrite descend_cons. simpl. now rewrite append_empty_r.
  - rewrite descend_cons, <- IH. reflexivity.
Qed.

Lemma prefix_slash_append (w s : string) :
  w <> EmptyString -> prefix "/" (w ++ s) = prefix "/" w.
Proof.
  destruct w as [|c w]; [ contradiction | intros _ ].
  change (prefix "/" (String c w ++ s))
    with (if Ascii.ascii_dec "/" c then prefix EmptyString (w ++ s) else false).
  change (prefix "/" (String c w))
    with (if Ascii.ascii_dec "/" c then prefix EmptyString w else false).
  destruct (Ascii.ascii_dec "/" c); [ | reflexivity ].
  now destruct (w ++ s), w.
Qed.

(** A target that starts with a name, or with dot-dot, starts with one
    slash only. *)
Lemma descend_initial_slashes (w : string) (words : list string) :
  w <> EmptyString -> Py.startswith w "/" = false ->
  Py.startswith (descend (w :: words)) "/" = true
  /\ Py.startswith (descend (w :: words)) "//" = false.
Proof.
  intros Hne Hs. rewrite descend_cons. unfold Py.startswith in *. split.
  - change (prefix "/" (String "/" (w ++ descend words)))
      with (if Ascii.ascii_dec "/" "/" then prefix EmptyString (w ++ descend words)
            else false).
    destruct (Ascii.ascii_dec "/" "/"); [ | contradiction ].
    now destruct (w ++ descend words).
  - change (prefix "//" (String "/" (w ++ descend words)))
      with (if Ascii.ascii_dec "/" "/" then prefix "/" (w ++ descend words)
            else false).
    destruct (Ascii.ascii_dec "/" "/"); [ | reflexivity ].
    now rewrite prefix_slash_append.
Qed.

Lemma normpath_descend (k : nat) (words : list string) :
  words <> [] -> Forall (fun w => simple_name w = true) words ->
  posixpath.normpath (descend (repeat ".." k ++ words)) = descend words.
Proof.
  intros Hne Hwords.
  assert (Hfirst : exists w rest,
            (repeat ".." k ++ words)%list = w :: rest
            /\ w <> EmptyString /\ Py.startswith w "/" = false).
  { destruct k as [|k].
    - destruct words as [|w rest]; [ contradiction | ].
      inversion_clear Hwords as [|? ? Hw _].
      destruct (simple_name_facts w Hw) as (H1 & H2 & _).
      now exists w, rest.
    - exists "..", (repeat ".." k ++ words)%list. now repeat split. }
  destruct Hfirst as (w & rest & E & Hw1 & Hw2).
  destruct (descend_initial_slashes w rest Hw1 Hw2) as [S1 S2].
  assert (Hd : Py.is_empty (descend (repeat ".." k ++ words)) = false)
    by (rewrite E, descend_cons; reflexivity).
  rewrite <- E in S1, S2.
  unfold posixpath.normpath. rewrite Hd, S1, S2. cbn [andb].
  unfold Py.split. rewrite split_descend.
  2:{ apply Forall_app. split.
      - apply Forall_forall. intros x Hx. apply repeat_spec in Hx. now subst x.
      - now apply simple_names_no_slash. }
  change (fold_left (posixpath.normpath_step 1)
            (EmptyString :: repeat ".." k ++ words) [])
    with (fold_left (posixpath.normpath_step 1) (repeat ".." k ++ words) []).
  rewrite fold_normpath_dot_dot, fold_normpath_simple by exact Hwords.
  simpl app. destruct words as [|v vs]; [ contradiction | ].
  change (posixpath.repeat_char "/" (Z.to_nat 1)) with "/".
  rewrite join_slash, descend_cons. reflexivity.
Qed.

(** X24. Dot-dot components at the front of a target do not lead out of
    the base directory and do not get the request turned down: they are
    dropped, and the names that follow are looked up under the base.  The
    target [/../../etc/passwd] is looked up as [./etc/passwd]. *)
Theorem leading_dot_dot_components_are_dropped :
  forall (env : environment) (k : nat) (words : list string),
  words <> [] -> Forall (fun w => simple_name w = true) words ->
  before "#" (before "?" (descend (repeat ".." k ++ words)))
  = descend (repeat ".." k ++ words) ->
  unquote_surrogatepass env (descend (repeat ".." k ++ words))
  = Some (descend (repeat ".." k ++ words)) ->
  Py.endswith (Py.rstrip Py.isspace (descend (repeat ".." k ++ words))) "/"
  = false ->
  SimpleHTTPRequestHandler.translate_path env start_server.DIRECTORY
    (descend (repeat ".." k ++ words))
  = under words.
Proof.
  intros env k words Hne Hwords Hplain Hunquote Hslash.
  unfold SimpleHTTPRequestHandler.translate_path.
  fold (before "?" (descend (repeat ".." k ++ words))).
  fold (before "#" (before "?" (descend (repeat ".." k ++ words)))).
  rewrite Hplain, Hunquote, Hslash, normpath_descend by assumption.
  unfold Py.split. rewrite split_descend by now apply simple_names_no_slash.
  cbn [filter Py.is_empty negb].
  assert (Hfilter : filter (fun w => negb (Py.is_empty w)) words = words).
  { apply forallb_filter_id, forallb_forall. intros w Hw.
    rewrite Forall_forall in Hwords.
    destruct (simple_name_facts w (Hwords w Hw)) as (H1 & _).
    now destruct w. }
  rewrite Hfilter.
  exact (fold_translate_simple words Hwords [] (Forall_nil _)).
Qed.

Lemma leading_dot_dot_components_are_dropped_witness :
  SimpleHTTPRequestHandler.translate_path Example.env start_server.DIRECTORY
    "/../../etc/passwd"
  = "./etc/passwd".
Proof.
  apply (leading_dot_dot_components_are_dropped Example.env 2 ["etc"; "passwd"]).
  - discriminate.
  - repeat constructor.
  - reflexivity.
  - reflexivity.
  - reflexivity.
Defined.

Lemma lstrip_head (f : ascii -> bool) (s : string) (c : ascii) (r : string) :
  Py.lstrip f s = String c r -> f c = false.
Proof.
  induction s as [|a s IH]; simpl; [ discriminate | ].
  destruct (f a) eqn:E; [ exact IH | ].
  intros [= <- _]. exact E.
Qed.

(** [self.path] never starts with two slashes. *)
Lemma request_path_one_slash (target : string) :
  Py.startswith (request_path target) "//" = false.
Proof.
  unfold request_path.
  destruct (Py.startswith target "//") eqn:E; [ | exact E ].
  unfold Py.startswith.
  destruct (Py.lstrip (Py.is_char "/") target) as [|c r] eqn:L;
    [ reflexivity | ].
  apply lstrip_head in L. unfold Py.is_char in L.
  change (prefix "//" ("/" ++ String c r))
    with (if Ascii.ascii_dec "/" "/"
          then (if Ascii.ascii_dec "/" c then prefix EmptyString r else false)
          else false).
  destruct (Ascii.ascii_dec "/" "/"); [ | reflexivity ].
  destruct (Ascii.ascii_dec "/" c) as [<-|]; [ | reflexivity ].
  discriminate L.
Qed.

(** ** Request lines that are turned down, branch by branch *)
Section Malformed.
Variable env : environment.
Let sv := SimpleHTTPRequestHandler.server_version.
Let eh := start_server.MyHTTPRequestHandler.end_headers.

#[local] Arguments Py.split_ws : simpl never.
#[local] Arguments Py.rstrip : simpl never.
#[local] Arguments Py.lstrip : simpl never.
#[local] Arguments Py.lower : simpl never.
#[local] Arguments Py.startswith : simpl never.
#[local] Arguments Py.endswith : simpl never.
#[local] Arguments Py.readline : simpl never.
#[local] Arguments Py.str : simpl never.
#[local] Arguments Py.len : simpl never.
#[local] Arguments String.concat : simpl never.
#[local] Arguments String.append : simpl never.
#[local] Arguments BaseHTTPRequestHandler.parse_version : simpl never.
#[local] Arguments BaseHTTPRequestHandler._read_headers : simpl never.
#[local] Arguments BaseHTTPRequestHandler.send_error : simpl never.
#[local] Arguments BaseHTTPRequestHandler.parse_request : simpl never.
#[local] Arguments BaseHTTPRequestHandler.tuple_ge : simpl never.
#[local] Arguments BaseHTTPRequestHandler.version_string : simpl never.
#[local] Arguments BaseHTTPRequestHandler.date_time_string : simpl never.
#[local] Arguments SimpleHTTPRequestHandler.translate_path : simpl never.
#[local] Arguments SimpleHTTPRequestHandler.guess_type : simpl never.
#[local] Arguments SimpleHTTPRequestHandler.not_modified : simpl never.
#[local] Arguments SimpleHTTPRequestHandler.list_directory : simpl never.
#[local] Arguments posixpath.join2 : simpl never.

(** [parse_request] on a request line of three words or more whose last
    word is no version: error 400 while the version on record is
    HTTP/0.9. *)
Lemma parse_request_bad_version (words : list string) (h : handler) :
  Py.split_ws (Py.rstrip Py.is_crlf (raw_requestline h)) = words ->
  3 <= Z.of_nat (length words) ->
  BaseHTTPRequestHandler.parse_version env (last words EmptyString) = None ->
  wfile h = [] -> _headers_buffer h = None ->
  exists h',
    BaseHTTPRequestHandler.parse_request env sv eh h = Return false h'
    /\ wfile h'
       = [Body (error_page 400
                  ("Bad request version ("
                   ++ py_repr env (last words EmptyString) ++ ")")
                  "Bad request syntax or unsupported method")]
    /\ close_connection h' = true.
Proof.
  intros Hwords Hlen Hversion.
  destruct h as [d rf w rrl rl rv c pa hd cc b e o].
  cbn [raw_requestline wfile _headers_buffer] in *. intros -> ->.
  unfold BaseHTTPRequestHandler.parse_request.
  remember (BaseHTTPRequestHandler.send_error env sv eh) as se eqn:Hse.
  monad_unfold. simpl. rewrite Hwords.
  assert (H0 : (Z.of_nat (length words) =? 0) = false) by (apply Z.eqb_neq; lia).
  assert (H3 : (3 <=? Z.of_nat (length words)) = true) by (apply Z.leb_le; lia).
  rewrite H0, H3, Hversion. subst se.
  match goal with
  | |- context [ BaseHTTPRequestHandler.send_error env _ _ 400 (Some ?m) None ?h0 ] =>
      destruct (send_error_effect env h0 400 m None eq_refl eq_refl)
        as (h1 & E1 & W1 & _ & C1 & _)
  end.
  fold sv eh in E1. rewrite E1. exists h1. split; [ reflexivity | ].
  split; [ | exact C1 ]. rewrite W1. reflexivity.
Qed.

(** [parse_request] on a request line of two words whose first is not
    [GET]: error 400, again with HTTP/0.9 on record. *)
Lemma parse_request_simple_other (method target : string) (h : handler) :
  Py.split_ws (Py.rstrip Py.is_crlf (raw_requestline h)) = [method; target] ->
  String.eqb method "GET" = false ->
  wfile h = [] -> _headers_buffer h = None ->
  exists h',
    BaseHTTPRequestHandler.parse_request env sv eh h = Return false h'
    /\ wfile h'
       = [Body (error_page 400
                  ("Bad HTTP/0.9 request type (" ++ py_repr env method ++ ")")
                  "Bad request syntax or unsupported method")]
    /\ close_connection h' = true.
Proof.
  intros Hwords Hmethod.
  destruct h as [d rf w rrl rl rv c pa hd cc b e o].
  cbn [raw_requestline wfile _headers_buffer] in *. intros -> ->.
  unfold BaseHTTPRequestHandler.parse_request.
  remember (BaseHTTPRequestHandler.send_error env sv eh) as se eqn:Hse.
  monad_unfold. simpl. rewrite Hwords. simpl. rewrite Hmethod. simpl. subst se.
  match goal with
  | |- context [ BaseHTTPRequestHandler.send_error env _ _ 400 (Some ?m) None ?h0 ] =>
      destruct (send_error_effect env h0 400 m None eq_refl eq_refl)
        as (h1 & E1 & W1 & _ & C1 & _)
  end.
  fold sv eh in E1. rewrite E1. exists h1. split; [ reflexivity | ].
  split; [ | exact C1 ]. rewrite W1. reflexivity.
Qed.

(** [parse_request] on a request line of four words or more whose last
    word is a version below 2.0: the version is on record when the number
    of words is found wrong, so error 400 is a full response. *)
Lemma parse_request_many_words (words : list string) (base : string)
    (number : Z * Z) (h : handler) :
  Py.split_ws (Py.rstrip Py.is_crlf (raw_requestline h)) = words ->
  4 <= Z.of_nat (length words) ->
  BaseHTTPRequestHandler.parse_version env (last words EmptyString)
  = Some (base, number) ->
  BaseHTTPRequestHandler.tuple_ge number (2, 0) = false ->
  String.eqb (last words EmptyString) "HTTP/0.9" = false ->
  wfile h = [] -> _headers_buffer h = None ->
  exists h',
    BaseHTTPRequestHandler.parse_request env sv eh h = Return false h'
    /\ wfile h'
       = error_response env 400
           ("Bad request syntax ("
            ++ py_repr env (Py.rstrip Py.is_crlf (raw_requestline h)) ++ ")")
           "Bad request syntax or unsupported method"
    /\ close_connection h' = true.
Proof.
  intros Hwords Hlen Hversion Hbelow Hv.
  destruct h as [d rf w rrl rl rv c pa hd cc b e o].
  cbn [raw_requestline wfile _headers_buffer] in *. intros -> ->.
  unfold BaseHTTPRequestHandler.parse_request.
  remember (BaseHTTPRequestHandler.send_error env sv eh) as se eqn:Hse.
  monad_unfold. simpl. rewrite Hwords.
  assert (H0 : (Z.of_nat (length words) =? 0) = false) by (apply Z.eqb_neq; lia).
  assert (H3 : (3 <=? Z.of_nat (length words)) = true) by (apply Z.leb_le; lia).
  assert (H4 : (Z.of_nat (length words) <=? 3) = false) by (apply Z.leb_gt; lia).
  rewrite H0, H3, Hversion. rewrite andb_false_r, Hbelow. simpl.
  rewrite H4, andb_false_r. simpl. subst se.
  match goal with
  | |- context [ BaseHTTPRequestHandler.send_error env _ _ 400 (Some ?m) None ?h0 ] =>
      destruct (send_error_effect env h0 400 m None eq_refl eq_refl)
        as (h1 & E1 & W1 & _ & C1 & _)
  end.
  fold sv eh in E1. rewrite E1. exists h1. split; [ reflexivity | ].
  split; [ | exact C1 ]. rewrite W1. cbn. unfold error_chunks.
  now rewrite Hv.
Qed.

(** [parse_request] records the request line, stripped of the end of the
    line, before it looks at the words. *)
Lemma parse_request_records_line
    (line more version base method target rest : string) (number : Z * Z)
    (lines : list string) (h : handler) :
  Py.split_ws (Py.rstrip Py.is_crlf line) = [method; target; version] ->
  BaseHTTPRequestHandler.parse_version env version = Some (base, number) ->
  BaseHTTPRequestHandler.tuple_ge number (2, 0) = false ->
  BaseHTTPRequestHandler._read_headers BaseHTTPRequestHandler._MAXHEADERS more []
  = (inr lines, rest) ->
  raw_requestline h = line -> rfile h = more ->
  exists h',
    BaseHTTPRequestHandler.parse_request env sv eh h = Return true h'
    /\ requestline h' = Py.rstrip Py.is_crlf line.
Proof.
  intros Hwords Hversion Hbelow Hheaders.
  destruct h as [d rf w rrl rl rv c pa hd cc b e o]. cbn [raw_requestline rfile].
  intros -> ->.
  unfold BaseHTTPRequestHandler.parse_request.
  monad_unfold. simpl. rewrite Hwords. simpl. rewrite Hversion. simpl.
  rewrite andb_false_r, Hbelow. simpl.
  destruct (Py.startswith target "//"); simpl; rewrite Hheaders; simpl;
    rewrite !andb_false_r; simpl;
    destruct (String.eqb (Py.lower _) "close"); simpl;
    (eexists; split; [ reflexivity | ]); reflexivity.
Qed.

(** [do_GET] for a path that is no directory and does not open, with what
    it writes to standard error. *)
Lemma do_GET_missing_logs (h : handler) (target : string) :
  String.eqb (request_version h) "HTTP/0.9" = false ->
  command h = Some "GET" -> path h = request_path target ->
  wfile h = [] -> _headers_buffer h = None ->
  directory h = start_server.DIRECTORY ->
  isdir env (resolved env target) = false ->
  Py.endswith (resolved env target) "/" = true
  \/ open_rb env (resolved env target) = inl OSError ->
  exists h',
    SimpleHTTPRequestHandler.do_GET env eh h = Return tt h'
    /\ stderr h' = (stderr h ++ [LogError 404 "File not found";
                                 LogRequest (requestline h) 404])%list
    /\ close_connection h' = true.
Proof.
  destruct h as [d rf w rrl rl rv c pa hd cc b e o].
  cbn [request_version command path wfile _headers_buffer directory stderr
       requestline].
  intros Hv -> -> -> -> -> Hdir Hmiss.
  unfold SimpleHTTPRequestHandler.do_GET, SimpleHTTPRequestHandler.send_head,
    SimpleHTTPRequestHandler.send_error, resolved in *.
  unfold SimpleHTTPRequestHandler.touch, bind, get, modify, ret, raise.
  simpl. rewrite Hdir.
  destruct (Py.endswith _ "/") eqn:Hslash.
  - match goal with
    | |- context [ BaseHTTPRequestHandler.send_error env _ _ 404 _ None ?h0 ] =>
        destruct (send_error_404 env h0 Hv eq_refl eq_refl eq_refl)
          as (h1 & E1 & _ & S1 & C1 & _)
    end.
    fold eh in E1. rewrite E1. now exists h1.
  - destruct Hmiss as [Hmiss|Hmiss]; [ discriminate Hmiss | ].
    rewrite Hmiss.
    match goal with
    | |- context [ BaseHTTPRequestHandler.send_error env _ _ 404 _ None ?h0 ] =>
        destruct (send_error_404 env h0 Hv eq_refl eq_refl eq_refl)
          as (h1 & E1 & _ & S1 & C1 & _)
    end.
    fold eh in E1. rewrite E1. now exists h1.
Qed.

End Malformed.

(** X25. A request line of three words or more whose last word is not a
    version, [HTTP/] followed by two numbers with a dot between, is
    answered with the error page for 400 "Bad request version" alone: no
    status line, no header, none of the three CORS headers. *)
Theorem bad_version_gets_the_error_page_alone :
  forall (env : environment) (request : string),
  Py.len (request_line request) <= 65536 ->
  3 <= Z.of_nat
         (length (Py.split_ws (Py.rstrip Py.is_crlf (request_line request)))) ->
  BaseHTTPRequestHandler.parse_version env
    (last (Py.split_ws (Py.rstrip Py.is_crlf (request_line request))) EmptyString)
  = None ->
  exists h,
    start_server.MyHTTPRequestHandler.__init__ env request = Return tt h
    /\ wfile h
       = [Body (error_page 400
                  ("Bad request version ("
                   ++ py_repr env
                        (last (Py.split_ws
                                 (Py.rstrip Py.is_crlf (request_line request)))
                           EmptyString)
                   ++ ")")
                  "Bad request syntax or unsupported method")].
Proof.
  intros env request Hlen Hwords Hversion.
  unfold request_line in *.
  destruct (Py.readline request 65537) as [line more] eqn:Hread.
  cbn [fst] in *.
  assert (Hne : Py.is_empty line = false).
  { destruct line; [ simpl in Hwords; lia | reflexivity ]. }
  destruct (parse_request_bad_version env _
              (set_raw_requestline line (set_rfile more (accepted request)))
              eq_refl Hwords Hversion eq_refl eq_refl)
    as (h & E & W & C).
  exists h. split; [ | exact W ].
  now apply (connection_rejected env request line more h Hread Hlen Hne E C).
Qed.

Lemma bad_version_gets_the_error_page_alone_witness :
  exists h,
    start_server.MyHTTPRequestHandler.__init__ Example.env
      (Example.request "GET / FTP/1.0" []) = Return tt h
    /\ wfile h
       = [Body (error_page 400 "Bad request version ('FTP/1.0')"
                  "Bad request syntax or unsupported method")].
Proof.
  apply (bad_version_gets_the_error_page_alone Example.env
           (Example.request "GET / FTP/1.0" [])).
  - apply Z.leb_le. reflexivity.
  - apply Z.leb_le. reflexivity.
  - reflexivity.
Defined.

(** X26. A request line of two words whose first is not [GET] (a
    [HEAD /] or [POST /] without version) is answered with the error page
    for 400 "Bad HTTP/0.9 request type" alone. *)
Theorem two_word_request_other_than_get_gets_the_error_page_alone :
  forall (env : environment) (request method target : string),
  Py.len (request_line request) <= 65536 ->
  Py.split_ws (Py.rstrip Py.is_crlf (request_line request)) = [method; target] ->
  String.eqb method "GET" = false ->
  exists h,
    start_server.MyHTTPRequestHandler.__init__ env request = Return tt h
    /\ wfile h
       = [Body (error_page 400
                  ("Bad HTTP/0.9 request type (" ++ py_repr env method ++ ")")
                  "Bad request syntax or unsupported method")].
Proof.
  intros env request method target Hlen Hwords Hmethod.
  unfold request_line in *.
  destruct (Py.readline request 65537) as [line more] eqn:Hread.
  cbn [fst] in *.
  assert (Hne : Py.is_empty line = false).
  { destruct line; [ discriminate Hwords | reflexivity ]. }
  destruct (parse_request_simple_other env method target
              (set_raw_requestline line (set_rfile more (accepted request)))
              Hwords Hmethod eq_refl eq_refl)
    as (h & E & W & C).
  exists h. split; [ | exact W ].
  now apply (connection_rejected env request line more h Hread Hlen Hne E C).
Qed.

Lemma two_word_request_other_than_get_gets_the_error_page_alone_witness :
  exists h,
    start_server.MyHTTPRequestHandler.__init__ Example.env
      (Example.request "HEAD /index.html" []) = Return tt h
    /\ wfile h
       = [Body (error_page 400 "Bad HTTP/0.9 request type ('HEAD')"
                  "Bad request syntax or unsupported method")].
Proof.
  apply (two_word_request_other_than_get_gets_the_error_page_alone Example.env
           (Example.request "HEAD /index.html" []) "HEAD" "/index.html").
  - apply Z.leb_le. reflexivity.
  - reflexivity.
  - reflexivity.
Defined.

(** X27. A request line of four words or more that ends with a version
    below 2.0 other than HTTP/0.9 is answered 400 "Bad request syntax" as
    a full response: the version is on record by the time the words are
    counted, so the status line and the headers, the three CORS headers
    among them, are sent before the page. *)
Theorem four_word_request_is_answered_400_in_full :
  forall (env : environment) (request base : string) (number : Z * Z),
  Py.len (request_line request) <= 65536 ->
  4 <= Z.of_nat
         (length (Py.split_ws (Py.rstrip Py.is_crlf (request_line request)))) ->
  BaseHTTPRequestHandler.parse_version env
    (last (Py.split_ws (Py.rstrip Py.is_crlf (request_line request))) EmptyString)
  = Some (base, number) ->
  BaseHTTPRequestHandler.tuple_ge number (2, 0) = false ->
  String.eqb
    (last (Py.split_ws (Py.rstrip Py.is_crlf (request_line request))) EmptyString)
    "HTTP/0.9" = false ->
  exists h,
    start_server.MyHTTPRequestHandler.__init__ env request = Return tt h
    /\ wfile h
       = [HeaderBlock
            (error_headers env 400
               ("Bad request syntax ("
                ++ py_repr env (Py.rstrip Py.is_crlf (request_line request))
                ++ ")")
               "Bad request syntax or unsupported method");
          Body (error_page 400
                  ("Bad request syntax ("
                   ++ py_repr env (Py.rstrip Py.is_crlf (request_line request))
                   ++ ")")
                  "Bad request syntax or unsupported method")].
Proof.
  intros env request base number Hlen Hwords Hversion Hbelow Hv.
  unfold request_line in *.
  destruct (Py.readline request 65537) as [line more] eqn:Hread.
  cbn [fst] in *.
  assert (Hne : Py.is_empty line = false).
  { destruct line; [ simpl in Hwords; lia | reflexivity ]. }
  destruct (parse_request_many_words env _ base number
              (set_raw_requestline line (set_rfile more (accepted request)))
              eq_refl Hwords Hversion Hbelow Hv eq_refl eq_refl)
    as (h & E & W & C).
  exists h. split; [ | exact W ].
  now apply (connection_rejected env request line more h Hread Hlen Hne E C).
Qed.

Lemma four_word_request_is_answered_400_in_full_witness :
  exists h,
    start_server.MyHTTPRequestHandler.__init__ Example.env
      (Example.request "GET /my file.txt HTTP/1.1" []) = Return tt h
    /\ wfile h
       = [HeaderBlock
            (error_headers Example.env 400
               "Bad request syntax ('GET /my file.txt HTTP/1.1')"
               "Bad request syntax or unsupported method");
          Body (error_page 400
                  "Bad request syntax ('GET /my file.txt HTTP/1.1')"
                  "Bad request syntax or unsupported method")].
Proof.
  apply (four_word_request_is_answered_400_in_full Example.env
           (Example.request "GET /my file.txt HTTP/1.1" []) "1.1" (1, 1)).
  - apply Z.leb_le. reflexivity.
  - apply Z.leb_le. reflexivity.
  - reflexivity.
  - reflexivity.
  - reflexivity.
Defined.

(** X28. The method of a request runs on a path that does not start with
    two slashes: a target that does is reduced to one leading slash when
    the request line is parsed, so that the Location of a redirect cannot
    be read as naming another host. *)
Theorem path_on_record_starts_with_one_slash_at_most :
  forall (env : environment) (request method target hstring : string)
         (m : M unit),
  http1_request env request method target hstring ->
  start_server.MyHTTPRequestHandler.do_method env ("do_" ++ method) = Some m ->
  exists h,
    start_server.MyHTTPRequestHandler.__init__ env request = m h
    /\ self_path h = request_path target
    /\ Py.startswith (self_path h) "//" = false.
Proof.
  intros env request method target hstring m Hreq Hm.
  destruct (connection_http1 env request method target hstring Hreq)
    as (h & V & C & P & H & CC & W & B & _ & _ & D & E).
  rewrite Hm in E. exists h. unfold self_path. rewrite P.
  split; [ | split; [ reflexivity | apply request_path_one_slash ] ].
  rewrite <- E. apply handle_once.
  intros h' E'. exact (closes_handle_one_request env _ tt h' E').
Qed.

Lemma path_on_record_starts_with_one_slash_at_most_witness :
  exists h,
    start_server.MyHTTPRequestHandler.__init__ Example.env
      (Example.request "GET //example.org/%2e%2e HTTP/1.0" [])
    = SimpleHTTPRequestHandler.do_GET Example.env
        start_server.MyHTTPRequestHandler.end_headers h
    /\ self_path h = "/example.org/%2e%2e"
    /\ Py.startswith (self_path h) "//" = false.
Proof.
  apply (path_on_record_starts_with_one_slash_at_most Example.env
           (Example.request "GET //example.org/%2e%2e HTTP/1.0" [])
           "GET" "//example.org/%2e%2e" Py.CRLF).
  - concrete_http1.
  - reflexivity.
Defined.

(** X29. A GET request over HTTP/1.x that is answered 404 "File not found"
    leaves two entries on standard error and nothing else: the error with
    its code and message, then the request line with the code. *)
Theorem missing_file_is_logged_on_standard_error :
  forall (env : environment) (request target hstring : string),
  http1_request env request "GET" target hstring ->
  isdir env (resolved env target) = false ->
  Py.endswith (resolved env target) "/" = true
  \/ open_rb env (resolved env target) = inl OSError ->
  exists h,
    start_server.MyHTTPRequestHandler.__init__ env request = Return tt h
    /\ stderr h
       = [LogError 404 "File not found";
          LogRequest (Py.rstrip Py.is_crlf (request_line request)) 404].
Proof.
  intros env request target hstring
    (line & more & version & base & number & lines & rest
     & Hread & Hlen & Hwords & Hversion & Hbelow & Hv & Hheaders & ->)
    Hdir Hmiss.
  assert (Hne : Py.is_empty line = false).
  { destruct line; [ discriminate Hwords | reflexivity ]. }
  destruct (parse_request_accepts env line more version base "GET" target rest
              number lines
              (set_raw_requestline line (set_rfile more (accepted request)))
              Hwords Hversion Hbelow Hheaders eq_refl eq_refl)
    as (h & E & V & C & P & H & CC & W & B & S & O & D).
  destruct (parse_request_records_line env line more version base "GET" target
              rest number lines
              (set_raw_requestline line (set_rfile more (accepted request)))
              Hwords Hversion Hbelow Hheaders eq_refl eq_refl)
    as (h0 & E0 & R).
  rewrite E in E0. injection E0 as <-.
  rewrite <- V in Hv.
  destruct (do_GET_missing_logs env h target Hv C P W B D Hdir Hmiss)
    as (h1 & E1 & S1 & C1).
  exists h1. split.
  - rewrite handle_once;
      rewrite (handle_one_request_parses env request line more Hread Hlen Hne);
      unfold bind at 1; rewrite E; cbn [negb];
      unfold bind at 1; unfold get at 1; rewrite C;
      cbn [BaseHTTPRequestHandler.orelse];
      change (start_server.MyHTTPRequestHandler.do_method env ("do_" ++ "GET"))
        with (Some (SimpleHTTPRequestHandler.do_GET env
                      start_server.MyHTTPRequestHandler.end_headers));
      cbv beta iota; rewrite E1; [ reflexivity | ].
    intros h' [= <-]. exact C1.
  - rewrite S1, S, R. unfold request_line. now rewrite Hread.
Qed.

Lemma missing_file_is_logged_on_standard_error_witness :
  exists h,
    start_server.MyHTTPRequestHandler.__init__ Example.env
      (Example.request "GET /does-not-exist.txt HTTP/1.0" []) = Return tt h
    /\ stderr h
       = [LogError 404 "File not found";
          LogRequest "GET /does-not-exist.txt HTTP/1.0" 404].
Proof.
  apply (missing_file_is_logged_on_standard_error Example.env
           (Example.request "GET /does-not-exist.txt HTTP/1.0" [])
           "/does-not-exist.txt" Py.CRLF).
  - concrete_http1.
  - reflexivity.
  - right. reflexivity.
Defined.
